(** * The transform stage of the sales ETL pipeline

    A shallow embedding of [src/etl/transform.py]: [parse_date_flexible],
    [clean_string], the [TransformResult] dataclass and [transform_ventas],
    together with the fragments of CPython ([str.strip], [str.split],
    [str.join], [datetime.strptime]) and of pandas (frames, series, boolean
    masks, [drop_duplicates], the [.dt] accessor) that these functions use.

    Python objects that the code mutates in place (the working copy
    [df_work] and the accepted frame [df_clean]) live in a heap of frames;
    the function is a program in a state-and-exception monad over that
    heap, so that "the caller's frame is left alone" is a statement about
    the final heap and not a by-product of the encoding. *)

From stdpp Require Import gmap strings list fin_maps sets sorting.

Open Scope Z_scope.

(** ** Python strings *)

(** A Python [str] is a sequence of Unicode code points. *)
Abbreviation pystr := (list N).

Fixpoint py (s : string) : pystr :=
  match s with
  | EmptyString => []
  | String a s' => Ascii.N_of_ascii a :: py s'
  end.

(** [Py_UNICODE_ISSPACE]: the code points for which [str.isspace] holds.
    [str.strip()] and [str.split()] without arguments use this class. *)
Definition Py_UNICODE_ISSPACE (c : N) : bool :=
  ((9 <=? c) && (c <=? 13) || (28 <=? c) && (c <=? 32)
   || (c =? 133) || (c =? 160) || (c =? 5760)
   || (8192 <=? c) && (c <=? 8202)
   || (c =? 8232) || (c =? 8233) || (c =? 8239) || (c =? 8287)
   || (c =? 12288))%N.

Fixpoint lstrip (s : pystr) : pystr :=
  match s with
  | c :: s' => if Py_UNICODE_ISSPACE c then lstrip s' else s
  | [] => []
  end.

Fixpoint rstrip (s : pystr) : pystr :=
  match s with
  | c :: s' =>
      match rstrip s' with
      | [] => if Py_UNICODE_ISSPACE c then [] else [c]
      | r => c :: r
      end
  | [] => []
  end.

(** [s.strip()] *)
Definition strip (s : pystr) : pystr := rstrip (lstrip s).

(** [s.split()]: the maximal runs of non-whitespace code points. *)
Fixpoint split (s : pystr) : list pystr :=
  match s with
  | [] => []
  | c :: s' =>
      if Py_UNICODE_ISSPACE c then split s'
      else match s' with
           | [] => [[c]]
           | c' :: _ =>
               if Py_UNICODE_ISSPACE c' then [c] :: split s'
               else match split s' with
                    | w :: ws => (c :: w) :: ws
                    | [] => [[c]]
                    end
           end
  end.

(** [sep.join(words)] *)
Fixpoint join (sep : pystr) (ws : list pystr) : pystr :=
  match ws with
  | [] => []
  | [w] => w
  | w :: ws' => w ++ sep ++ join sep ws'
  end.

(** [" ".join(s.split())] *)
Definition collapse (s : pystr) : pystr := join [32%N] (split s).

(** [str.lower] on Basic Latin and the Latin-1 supplement: A-Z and the
    capitals U+00C0..U+00DE (the multiplication sign U+00D7 apart) move up
    by 32, every other code point below 256 is its own lower case. *)
Definition latin1_lower (c : N) : N :=
  (if (65 <=? c) && (c <=? 90) then c + 32
   else if (192 <=? c) && (c <=? 222) && negb (c =? 215) then c + 32
   else c)%N.

(** The Unicode character database is CPython's, not this repository's.
    What the code relies on is taken as an interface: [str.lower] and the
    decimal value of the digits outside ASCII ([Py_UNICODE_TODECIMAL]).
    The laws are those of CPython's [str.lower]: its value on Latin-1 text,
    idempotence, and the fact that case mapping neither creates, removes
    nor moves white space. *)
Class Unicode := {
  str_lower : pystr → pystr;
  decimal_ext : N → option N;
  str_lower_latin1 s :
    Forall (λ c, (c < 256)%N) s → str_lower s = latin1_lower <$> s;
  str_lower_idemp s : str_lower (str_lower s) = str_lower s;
  str_lower_strip s : str_lower (strip s) = strip (str_lower s);
  str_lower_collapse s : str_lower (collapse s) = collapse (str_lower s);
}.

(** ** Calendar dates *)

(** [datetime.datetime] as [strptime] builds it from a date-only format:
    the time of day is always midnight. *)
Record datetime := mk_datetime { year : Z; month : Z; day : Z }.

Global Instance datetime_eq_dec : EqDecision datetime.
Proof. solve_decision. Defined.

Definition is_leap (y : Z) : bool :=
  (y mod 4 =? 0) && (negb (y mod 100 =? 0) || (y mod 400 =? 0)).

Definition days_in_month (y m : Z) : Z :=
  if m =? 2 then (if is_leap y then 29 else 28)
  else if (m =? 4) || (m =? 6) || (m =? 9) || (m =? 11) then 30
  else 31.

(** Exceptions that the modelled code can raise. [SystemError] marks a
    dangling frame reference, which no Python program can produce. *)
Inductive exn := TypeError | AttributeError | KeyError | ValueError | SystemError.

Global Instance exn_eq_dec : EqDecision exn.
Proof. solve_decision. Defined.

Inductive outcome (A : Type) :=
| Returns (a : A)
| Raises (e : exn).
Arguments Returns {A} a.
Arguments Raises {A} e.

Global Instance outcome_eq_dec `{EqDecision A} : EqDecision (outcome A).
Proof. solve_decision. Defined.

(** The [datetime] constructor: [ValueError] outside MINYEAR..MAXYEAR or
    for a day the month does not have. *)
Definition datetime_new (y m d : Z) : outcome datetime :=
  if (1 <=? y) && (y <=? 9999) && (1 <=? m) && (m <=? 12)
     && (1 <=? d) && (d <=? days_in_month y m)
  then Returns (mk_datetime y m d) else Raises ValueError.

(** ** [datetime.strptime] *)

(** CPython's [_strptime] turns the format into a regular expression and
    matches it at the start of the text with the backtracking engine of
    [re]. A regular expression is modelled by the list of its matches in
    the order in which the engine tries them. *)
Definition regex (A : Type) := pystr → list (A * pystr).

Definition re_ret {A} (a : A) : regex A := λ s, [(a, s)].
Definition re_seq {A B} (p : regex A) (k : A → regex B) : regex B :=
  λ s, p s ≫= (λ '(a, r), k a r).
Definition re_alt {A} (p q : regex A) : regex A := λ s, p s ++ q s.
Definition re_class {A} (f : N → option A) : regex A :=
  λ s, match s with
       | c :: r => match f c with Some a => [(a, r)] | None => [] end
       | [] => []
       end.

Section Strptime.
Context `{Unicode}.

(** [Py_UNICODE_TODECIMAL]: the value of a decimal digit. *)
Definition Py_UNICODE_TODECIMAL (c : N) : option Z :=
  if (c <? 128)%N
  then (if (48 <=? c)%N && (c <=? 57)%N then Some (Z.of_N c - 48) else None)
  else Z.of_N <$> decimal_ext c.

(** [\d] *)
Definition re_digit : regex Z := re_class Py_UNICODE_TODECIMAL.
(** [[a-b]] for ASCII digits [a], [b] *)
Definition re_range (a b : Z) : regex Z :=
  re_class (λ c, let v := Z.of_N c - 48 in
                 if (a <=? v) && (v <=? b) then Some v else None).
Definition re_char (x : N) : regex unit :=
  re_class (λ c, if (c =? x)%N then Some tt else None).

(** The year, month and day found so far; [_strptime] starts from
    1900-01-01. *)
Definition ymd := (Z * Z * Z)%type.

(** ['Y': r"(?P<Y>\d\d\d\d)"] *)
Definition re_Y : regex Z :=
  re_seq re_digit (λ a, re_seq re_digit (λ b, re_seq re_digit (λ c,
  re_seq re_digit (λ d, re_ret (1000 * a + 100 * b + 10 * c + d))))).

(** ['m': r"(?P<m>1[0-2]|0[1-9]|[1-9])"] *)
Definition re_m : regex Z :=
  re_alt (re_seq (re_range 1 1) (λ _, re_seq (re_range 0 2) (λ b, re_ret (10 + b))))
 (re_alt (re_seq (re_range 0 0) (λ _, re_range 1 9))
         (re_range 1 9)).

(** ['d': r"(?P<d>3[0-1]|[1-2]\d|0[1-9]|[1-9]| [1-9])"]; [int] skips the
    blank of the last alternative. *)
Definition re_d : regex Z :=
  re_alt (re_seq (re_range 3 3) (λ _, re_seq (re_range 0 1) (λ b, re_ret (30 + b))))
 (re_alt (re_seq (re_range 1 2) (λ a, re_seq re_digit (λ b, re_ret (10 * a + b))))
 (re_alt (re_seq (re_range 0 0) (λ _, re_range 1 9))
 (re_alt (re_range 1 9)
         (re_seq (re_char 32) (λ _, re_range 1 9))))).

(** The regular expression of a format string. Of the directives only
    [%Y], [%m] and [%d] are modelled (the six formats of
    [parse_date_flexible] use no other); any other character of those
    formats stands for itself. *)
Fixpoint format_regex (fmt : pystr) (acc : ymd) : regex ymd :=
  match fmt with
  | 37%N :: 89%N :: fmt' =>
      re_seq re_Y (λ y, format_regex fmt' (y, acc.1.2, acc.2))
  | 37%N :: 109%N :: fmt' =>
      re_seq re_m (λ m, format_regex fmt' (acc.1.1, m, acc.2))
  | 37%N :: 100%N :: fmt' =>
      re_seq re_d (λ d, format_regex fmt' (acc.1.1, acc.1.2, d))
  | c :: fmt' => re_seq (re_char c) (λ _, format_regex fmt' acc)
  | [] => re_ret acc
  end.

(** [datetime.strptime(data_string, fmt)]: the first match of the
    expression must consume the whole text ("unconverted data remains"
    otherwise), and the fields must form a date. *)
Definition strptime (data_string : pystr) (fmt : string) : outcome datetime :=
  match format_regex (py fmt) (1900, 1, 1) data_string with
  | ((y, m, d), []) :: _ => datetime_new y m d
  | _ => Raises ValueError
  end.
End Strptime.

Definition outcome_bind {A B} (o : outcome A) (k : A → outcome B) : outcome B :=
  match o with Returns a => k a | Raises e => Raises e end.

(** A function applied to every element of a list; the first exception
    raised ends the traversal. *)
Fixpoint map_outcome {A B} (f : A → outcome B) (l : list A) : outcome (list B) :=
  match l with
  | [] => Returns []
  | x :: l' =>
      outcome_bind (f x) (λ y,
      outcome_bind (map_outcome f l') (λ ys, Returns (y :: ys)))
  end.

(** Lookup and update in a list of named entries that keeps its order:
    a new name goes to the end, as a new column of a frame does. *)
Fixpoint assoc {A} (k : string) (l : list (string * A)) : option A :=
  match l with
  | [] => None
  | (k', a) :: l' => if decide (k = k') then Some a else assoc k l'
  end.

Fixpoint set_assoc {A} (k : string) (a : A) (l : list (string * A))
  : list (string * A) :=
  match l with
  | [] => [(k, a)]
  | (k', a') :: l' =>
      if decide (k = k') then (k, a) :: l' else (k', a') :: set_assoc k a l'
  end.

(** ** Boolean masks *)

(** [l[mask]]: the elements at the positions where the mask holds. *)
Fixpoint select {A} (mask : list bool) (l : list A) : list A :=
  match mask, l with
  | b :: mask', x :: l' => if b then x :: select mask' l' else select mask' l'
  | _, _ => []
  end.

Definition mask_any (mask : list bool) : bool := existsb id mask.
Definition mask_sum (mask : list bool) : nat := length (filter Is_true mask).
Definition mask_or (m1 m2 : list bool) : list bool := zip_with orb m1 m2.
Definition mask_not (mask : list bool) : list bool := negb <$> mask.

(** [index.isin(values)] *)
Definition isin (index values : list Z) : list bool :=
  (λ l, bool_decide (l ∈ values)) <$> index.

(** [duplicated(keep='first')] on the list of row keys: a row is a
    duplicate when an earlier row has the same key. *)
Fixpoint duplicated_from {K} `{EqDecision K} (seen keys : list K) : list bool :=
  match keys with
  | [] => []
  | k :: keys' =>
      if decide (k ∈ seen) then true :: duplicated_from seen keys'
      else false :: duplicated_from (k :: seen) keys'
  end.

(** The dtype of a column, as far as the code can tell the difference:
    only [datetime64] columns have the [.dt] accessor. *)
Inductive dtype := dt_datetime64 | dt_other.

(** ** Numbers and the pandas runtime *)

(** The numeric scalars of a coerced column (NumPy [int64]/[float64]
    values other than NaN) with the operations the code applies to them.
    [str_to_num] is what [pd.to_numeric(..., errors='coerce')] makes of a
    text cell and [datetime_to_num] what it makes of a timestamp; [None]
    stands for NaN. Equal numbers are equal terms. *)
Class Numeric := {
  num : Type;
  num_eq_dec :: EqDecision num;
  num_mul : num → num → num;
  num_le0 : num → bool;
  num_str : num → pystr;
  str_to_num : pystr → option num;
  datetime_to_num : datetime → option num;
}.

Definition digit_char (n : Z) : N := Z.to_N (48 + n mod 10).
Definition pad2 (n : Z) : pystr := [digit_char (n / 10); digit_char n].
Definition pad4 (n : Z) : pystr :=
  [digit_char (n / 1000); digit_char (n / 100); digit_char (n / 10); digit_char n].

(** [YYYY-MM-DD] *)
Definition isoformat_date (d : datetime) : pystr :=
  pad4 (year d) ++ [45%N] ++ pad2 (month d) ++ [45%N] ++ pad2 (day d).

Definition valid_date (d : datetime) : bool :=
  bool_decide (datetime_new (year d) (month d) (day d) = Returns d).

(** What depends on the pandas release and on the C library:
    - [datetime64_fits d]: whether pandas stores [d] in a [datetime64]
      column ([datetime64[ns]] holds 1677-09-22 .. 2262-04-11 only; a
      column with a date outside the range stays of dtype [object]);
    - [strftime_Ymd d]: [strftime('%Y-%m-%d')], which is [YYYY-MM-DD]
      for every year of four digits. *)
Class Pandas := {
  datetime64_fits : datetime → bool;
  strftime_Ymd : datetime → pystr;
  strftime_Ymd_iso d :
    valid_date d = true → 1000 ≤ year d → strftime_Ymd d = isoformat_date d;
}.

Section Transform.
Context `{Unicode} `{Numeric} `{Pandas}.

(** ** Cells *)

(** The scalars found in a frame: a missing value ([None], NaN, NaT: the
    values for which [pd.isna] holds), a [str], a number, a timestamp. *)
Inductive cell :=
| Null
| Str (s : pystr)
| Num (x : num)
| Date (d : datetime).

Global Instance cell_eq_dec : EqDecision cell.
Proof. solve_decision. Defined.

Global Instance cell_inhabited : Inhabited cell := populate Null.

(** [pd.isna(value)] *)
Definition isna (value : cell) : bool :=
  match value with Null => true | _ => false end.

(** [str(value)]. Both callers test [pd.isna] first, so the text of a
    missing value (["nan"]) is never used. *)
Definition py_str (value : cell) : pystr :=
  match value with
  | Null => py "nan"
  | Str s => s
  | Num x => num_str x
  | Date d => isoformat_date d ++ py " 00:00:00"
  end.

(** ** [parse_date_flexible] (transform.py, lines 22-43) *)

Definition formats : list string :=
  ["%Y-%m-%d"; "%d/%m/%Y"; "%m/%d/%Y"; "%d-%m-%Y"; "%m-%d-%Y"; "%Y/%m/%d"].

(** The [for fmt in formats] loop: [ValueError] is caught and the next
    format tried, any other exception propagates, and falling off the
    end of the list returns [None]. *)
Fixpoint try_formats (date_str : cell) (fmts : list string) : outcome cell :=
  match fmts with
  | [] => Returns Null
  | fmt :: fmts' =>
      match strptime (strip (py_str date_str)) fmt with
      | Returns d => Returns (Date d)
      | Raises ValueError => try_formats date_str fmts'
      | Raises e => Raises e
      end
  end.

Definition parse_date_flexible (date_str : cell) : outcome cell :=
  if isna date_str || bool_decide (date_str = Str []) then Returns Null
  else try_formats date_str formats.

(** The Date Resolver in the words of the specification (section 4.2):
    a missing, null or empty value is unresolved; otherwise the value is
    trimmed and tried in order against the fixed list of patterns, the
    first pattern that parses the full text wins, and the value is
    unresolved when none does. *)
Definition spec_patterns : list string :=
  ["%Y-%m-%d"; "%d/%m/%Y"; "%m/%d/%Y"; "%d-%m-%Y"; "%m-%d-%Y"; "%Y/%m/%d"].
Definition parses (text : pystr) (pattern : string) : option datetime :=
  match strptime text pattern with Returns d => Some d | Raises _ => None end.
Definition date_resolver (value : cell) : cell :=
  if isna value || bool_decide (value = Str []) then Null
  else match omap (parses (strip (py_str value))) spec_patterns with
       | d :: _ => Date d
       | [] => Null
       end.

(** ** [clean_string] (lines 46-50) *)

Definition clean_string (value : cell) : cell :=
  if isna value then Str []
  else Str (join [32%N] (split (strip (py_str value)))).

(** ** Series and frames *)

Record Series := mk_Series { s_dtype : dtype; s_values : list cell }.

(** A frame: its columns in order, each with its dtype, and its rows in
    order, each with its index label. A row maps column names to
    cells. *)
Record DataFrame := mk_DataFrame {
  columns : list (string * dtype);
  rows : list (Z * gmap string cell);
}.

Definition index (f : DataFrame) : list Z := (rows f).*1.
Definition len (f : DataFrame) : nat := length (rows f).
Definition column_names (f : DataFrame) : list string := (columns f).*1.

(** [df.empty]: an axis of length zero. *)
Definition df_empty (f : DataFrame) : bool :=
  match rows f, columns f with
  | [], _ | _, [] => true
  | _, _ => false
  end.

(** [df[c]] *)
Definition getitem (f : DataFrame) (c : string) : outcome Series :=
  match assoc c (columns f) with
  | Some dt => Returns (mk_Series dt ((λ r, r.2 !!! c) <$> rows f))
  | None => Raises KeyError
  end.

(** [df[c] = s] for a series aligned with the frame *)
Definition setitem (f : DataFrame) (c : string) (s : Series)
  : outcome DataFrame :=
  if decide (length (s_values s) = length (rows f))
  then Returns (mk_DataFrame (set_assoc c (s_dtype s) (columns f))
                  (zip_with (λ r v, (r.1, <[c := v]> r.2))
                     (rows f) (s_values s)))
  else Raises ValueError.

(** [df[mask]], [df.loc[mask]] *)
Definition getitem_mask (f : DataFrame) (mask : list bool) : DataFrame :=
  mk_DataFrame (columns f) (select mask (rows f)).

(** [df[cols]] for a list of column names: the frame with these columns
    only, in this order; a name that is not a column is a [KeyError]. *)
Definition project (f : DataFrame) (cols : list string) : DataFrame :=
  mk_DataFrame
    ((λ c, (c, default dt_other (assoc c (columns f)))) <$> cols)
    ((λ r, (r.1, list_to_map ((λ c, (c, r.2 !!! c)) <$> cols))) <$> rows f).
Definition getitem_list (f : DataFrame) (cols : list string)
  : outcome DataFrame :=
  if forallb (λ c, bool_decide (c ∈ column_names f)) cols
  then Returns (project f cols)
  else Raises KeyError.

(** [df.drop_duplicates(subset=subset, keep='first')]. Missing values
    are equal to each other, as pandas has it. *)
Definition row_key (subset : list string) (r : gmap string cell) : list cell :=
  (λ c, r !!! c) <$> subset.
Definition duplicated (f : DataFrame) (subset : list string) : list bool :=
  duplicated_from [] ((λ r, row_key subset r.2) <$> rows f).
Definition drop_duplicates (f : DataFrame) (subset : list string) : DataFrame :=
  getitem_mask f (mask_not (duplicated f subset)).

(** The dtype pandas gives to the result of [Series.apply]:
    [datetime64] when there is a timestamp, every value is a timestamp
    or missing, and every timestamp fits. *)
Definition infer_dtype (vals : list cell) : dtype :=
  if existsb (λ c, match c with Date _ => true | _ => false end) vals
     && forallb (λ c, match c with
                      | Date d => datetime64_fits d
                      | Null => true
                      | _ => false
                      end) vals
  then dt_datetime64 else dt_other.

(** [s.apply(f)] *)
Definition Series_apply (s : Series) (f : cell → outcome cell)
  : outcome Series :=
  outcome_bind (map_outcome f (s_values s)) (λ vals,
  Returns (mk_Series (infer_dtype vals) vals)).

(** [s.isna()] *)
Definition Series_isna (s : Series) : list bool := isna <$> s_values s.

(** [pd.to_numeric(s, errors='coerce')] *)
Definition coerce (value : cell) : cell :=
  match value with
  | Null => Null
  | Num x => Num x
  | Str t => from_option Num Null (str_to_num t)
  | Date d => from_option Num Null (datetime_to_num d)
  end.
Definition to_numeric (s : Series) : Series :=
  mk_Series dt_other (coerce <$> s_values s).

(** [s <= 0], applied to coerced columns only; NaN compares false. *)
Definition Series_le0 (s : Series) : list bool :=
  (λ c, match c with Num x => num_le0 x | _ => false end) <$> s_values s.

(** [a * b] on coerced columns; NaN propagates. *)
Definition cell_mul (a b : cell) : cell :=
  match a, b with Num x, Num y => Num (num_mul x y) | _, _ => Null end.
Definition Series_mul (a b : Series) : Series :=
  mk_Series dt_other (zip_with cell_mul (s_values a) (s_values b)).

(** [s.dt.strftime('%Y-%m-%d')]: the accessor exists on [datetime64]
    columns only ("Can only use .dt accessor with datetimelike values"
    otherwise); NaT gives NaN. *)
Definition Series_dt_strftime (s : Series) : outcome Series :=
  match s_dtype s with
  | dt_datetime64 =>
      Returns (mk_Series dt_other
                 ((λ c, match c with Date d => Str (strftime_Ymd d) | _ => Null end)
                    <$> s_values s))
  | dt_other => Raises AttributeError
  end.

(** ** The heap of frames *)

Abbreviation loc := nat.
Abbreviation heap := (list DataFrame).

(** Programs that read and write the heap and may raise. *)
Definition M (A : Type) : Type := heap → outcome A * heap.

Global Instance M_ret : MRet M := λ A a h, (Returns a, h).
Global Instance M_bind : MBind M := λ A B k m h,
  match m h with
  | (Returns a, h') => k a h'
  | (Raises e, h') => (Raises e, h')
  end.

Definition lift {A} (o : outcome A) : M A := λ h, (o, h).
Definition deref (l : loc) : M DataFrame := λ h,
  match h !! l with
  | Some f => (Returns f, h)
  | None => (Raises SystemError, h)
  end.
Definition alloc (f : DataFrame) : M loc := λ h, (Returns (length h), h ++ [f]).
Definition store (l : loc) (f : DataFrame) : M unit := λ h,
  (Returns (), <[l := f]> h).

(** [df.copy()] *)
Definition df_copy (df : loc) : M loc := f ← deref df; alloc f.
(** [df[c]] *)
Definition df_getitem (df : loc) (c : string) : M Series :=
  f ← deref df; lift (getitem f c).
(** [df[c] = s]: the frame object is updated in place. *)
Definition df_setitem (df : loc) (c : string) (s : Series) : M unit :=
  f ← deref df; f' ← lift (setitem f c s); store df f'.

(** ** [TransformResult] (lines 10-20) *)

Inductive pyobj :=
| PNone
| PBool (b : bool)
| PInt (n : Z)
| PStr (s : string)
| PFrame (f : DataFrame)
| PDict (d : list (string * Z)).

Record TransformResult := mk_TransformResult {
  succes : pyobj;
  data : pyobj;
  rows_input : pyobj;
  rows_output : pyobj;
  rows_rejected : pyobj;
  rejected_data : pyobj;
  stats : pyobj;
  error : pyobj;
}.

Definition TransformResult_fields : list string :=
  ["succes"; "data"; "rows_input"; "rows_output"; "rows_rejected";
   "rejected_data"; "stats"; "error"].

(** The [__init__] that [@dataclass] generates, called with keyword
    arguments: a keyword that is not a field, or no value for the field
    without default ([succes]), is a [TypeError]. *)
Definition TransformResult_init (kwargs : list (string * pyobj))
  : outcome TransformResult :=
  if forallb (λ kw, bool_decide (kw.1 ∈ TransformResult_fields)) kwargs
     && bool_decide ("succes" ∈ kwargs.*1)
  then
    let arg name dflt := default dflt (assoc name kwargs) in
    Returns {| succes := arg "succes" PNone;
               data := arg "data" PNone;
               rows_input := arg "rows_input" (PInt 0);
               rows_output := arg "rows_output" (PInt 0);
               rows_rejected := arg "rows_rejected" (PInt 0);
               rejected_data := arg "rejected_data" PNone;
               stats := arg "stats" (PDict []);
               error := arg "error" PNone |}
  else Raises TypeError.

(** ** [transform_ventas] (lines 53-187) *)

(** [productos_map] is a dict: its items in insertion order. *)
Local Abbreviation dict := (list (pystr * cell)).

(** [{k.lower().strip(): v for k, v in productos_map.items()}]: of two
    keys with the same normal form the later one wins. *)
Definition productos_map_lower (productos_map : dict) : gmap pystr cell :=
  foldl (λ m kv, <[strip (str_lower kv.1) := kv.2]> m) ∅ productos_map.

(** The inner function [map_producto] (lines 126-130). [dict.get]
    gives [None] for a key that is not there; [nombre.lower()] exists
    for a [str] only. *)
Definition map_producto (productos_map : dict) (nombre : cell) : outcome cell :=
  if isna nombre then Returns Null
  else match nombre with
       | Str s =>
           let nombre_norm := strip (str_lower s) in
           Returns (default Null (productos_map_lower productos_map !! nombre_norm))
       | _ => Raises AttributeError
       end.

Definition cols_dedup : list string :=
  ["fecha"; "producto"; "cantidad"; "precio_unitario"; "tienda"].

Definition columnas_finales : list string :=
  ["fecha"; "producto_id"; "cantidad"; "precio_unitario"; "total";
   "tienda"; "vendedor"].

(** [if c in df_work.columns: df_work[c] = df_work[c].apply(clean_string)] *)
Definition clean_column (df_work : loc) (c : string) : M unit :=
  f ← deref df_work;
  if bool_decide (c ∈ column_names f)
  then s ← df_getitem df_work c;
       s' ← lift (Series_apply s (λ v, Returns (clean_string v)));
       df_setitem df_work c s'
  else mret ().

(** The pattern of lines 95-97, 109-112, 115-118 and 135-138:
    [if mask.any(): rejected_rows.extend(df_work[mask].index.tolist());
     rejection_reasons.extend([reason] * n)]. *)
Definition reject (df_work : loc) (mask : list bool) (reason : string)
    (rejected : list Z * list string) : M (list Z * list string) :=
  if mask_any mask
  then f ← deref df_work;
       let nuevos_rechazos := index (getitem_mask f mask) in
       mret (rejected.1 ++ nuevos_rechazos,
             rejected.2 ++ replicate (length nuevos_rechazos) reason)
  else mret rejected.

Definition transform_ventas (df : option loc) (productos_map : dict)
  : M TransformResult :=
  let fail :=
    lift (TransformResult_init
            [("success", PBool false); ("error", PStr "DataFrame vacio o nulo")]) in
  match df with
  | None => fail
  | Some df =>
    f ← deref df;
    if df_empty f then fail else
    let rows_input := len f in
    (* df_work = df.copy() *)
    df_work ← df_copy df;
    let rejected := ([], []) in
    (* 1. Limpiar strings *)
    clean_column df_work "producto";;
    clean_column df_work "tienda";;
    clean_column df_work "vendedor";;
    (* 2. Parsear fechas *)
    s ← df_getitem df_work "fecha";
    s ← lift (Series_apply s parse_date_flexible);
    df_setitem df_work "fecha_parsed" s;;
    s ← df_getitem df_work "fecha_parsed";
    let mask_fecha_invalida := Series_isna s in
    rejected ← reject df_work mask_fecha_invalida "fecha_invalida" rejected;
    (* 3. Convertir tipos numericos *)
    s ← df_getitem df_work "cantidad";
    df_setitem df_work "cantidad" (to_numeric s);;
    s ← df_getitem df_work "precio_unitario";
    df_setitem df_work "precio_unitario" (to_numeric s);;
    (* 4. Validar rangos *)
    s ← df_getitem df_work "cantidad";
    let mask_cantidad_invalida := mask_or (Series_isna s) (Series_le0 s) in
    s ← df_getitem df_work "precio_unitario";
    let mask_precio_invalido := mask_or (Series_isna s) (Series_le0 s) in
    rejected ← reject df_work mask_cantidad_invalida "cantidad_invalida" rejected;
    rejected ← reject df_work mask_precio_invalido "precio_invalido" rejected;
    (* 5. Mapear productos a IDs *)
    s ← df_getitem df_work "producto";
    s ← lift (Series_apply s (map_producto productos_map));
    df_setitem df_work "producto_id" s;;
    s ← df_getitem df_work "producto_id";
    let mask_producto_no_encontrado := Series_isna s in
    rejected ← reject df_work mask_producto_no_encontrado
                 "producto_no_encontrado" rejected;
    let rejected_rows := rejected.1 in
    (* 6. Eliminar duplicados *)
    w ← deref df_work;
    let cols_existentes :=
      filter (λ c, c ∈ column_names w) cols_dedup in
    let duplicados_antes := len w in
    df_work ← alloc (drop_duplicates w cols_existentes);
    w ← deref df_work;
    let duplicados_eliminados := Z.of_nat duplicados_antes - Z.of_nat (len w) in
    (* 7. Filtrar filas validas *)
    let all_rejected := elements (list_to_set rejected_rows : gset Z) in
    f ← deref df;
    let df_rejected := getitem_mask f (isin (index f) all_rejected) in
    df_clean ← alloc (getitem_mask w (mask_not (isin (index w) all_rejected)));
    (* 8. Calcular total *)
    c ← df_getitem df_clean "cantidad";
    p ← df_getitem df_clean "precio_unitario";
    df_setitem df_clean "total" (Series_mul c p);;
    (* 9. Formatear fecha final *)
    s ← df_getitem df_clean "fecha_parsed";
    s ← lift (Series_dt_strftime s);
    df_setitem df_clean "fecha" s;;
    (* 10. Seleccionar columnas finales *)
    c ← deref df_clean;
    df_output ← lift (getitem_list c columnas_finales);
    let stats :=
      [("fechas_invalidas", Z.of_nat (mask_sum mask_fecha_invalida));
       ("cantidades_invalidas", Z.of_nat (mask_sum mask_cantidad_invalida));
       ("precios_invalidos", Z.of_nat (mask_sum mask_precio_invalido));
       ("productos_no_mapeados", Z.of_nat (mask_sum mask_producto_no_encontrado));
       ("duplicados_eliminados", duplicados_eliminados)] in
    lift (TransformResult_init
            [("succes", PBool true);
             ("data", PFrame df_output);
             ("rows_input", PInt (Z.of_nat rows_input));
             ("rows_output", PInt (Z.of_nat (len df_output)));
             ("rows_rejected", PInt (Z.of_nat (len df_rejected)));
             ("rejected_data", PFrame df_rejected);
             ("stats", PDict stats)])
  end.
End Transform.

(** * Properties *)

(** ** White space *)

Section Strings.
Implicit Types (s w : pystr) (ws : list pystr) (c : N).

(** A word: not empty, no white space. *)
Definition word (w : pystr) : Prop :=
  w ≠ [] ∧ Forall (λ c, Py_UNICODE_ISSPACE c = false) w.

Lemma lstrip_word w s : word w → lstrip (w ++ s) = w ++ s.
Proof.
  intros [Hne Hw]. destruct w as [|c w]; [done|].
  apply Forall_cons in Hw as [Hc _]. simpl. by rewrite Hc.
Qed.

Lemma rstrip_nil_inv s :
  rstrip s = [] → Forall (λ c, Py_UNICODE_ISSPACE c = true) s.
Proof.
  induction s as [|c s IH]; simpl; [constructor|].
  destruct (rstrip s) eqn:Hr; [|done].
  destruct (Py_UNICODE_ISSPACE c) eqn:Hc; [|done].
  constructor; auto.
Qed.

Lemma rstrip_spaces s :
  Forall (λ c, Py_UNICODE_ISSPACE c = true) s → rstrip s = [].
Proof.
  induction 1 as [|c s Hc _ IH]; simpl; [done|]. by rewrite IH, Hc.
Qed.

Lemma rstrip_word w : word w → rstrip w = w.
Proof.
  intros [Hne Hw]. induction Hw as [|c w Hc Hw IH]; [done|].
  destruct (decide (w = [])) as [->|Hw']; simpl; [by rewrite Hc|].
  rewrite IH by done. by destruct w.
Qed.

Lemma rstrip_app s1 s2 : rstrip s2 ≠ [] → rstrip (s1 ++ s2) = s1 ++ rstrip s2.
Proof.
  intros Hne. induction s1 as [|c s1 IH]; simpl; [done|].
  rewrite IH. destruct (s1 ++ rstrip s2) eqn:Heq; [|done].
  apply app_eq_nil in Heq as [_ ?]. done.
Qed.

Lemma rstrip_idemp s : rstrip (rstrip s) = rstrip s.
Proof.
  induction s as [|c s IH]; simpl; [done|].
  destruct (rstrip s) as [|c' r] eqn:Hr.
  - destruct (Py_UNICODE_ISSPACE c) eqn:Hc; simpl; [done|]. by rewrite Hc.
  - simpl in *. rewrite IH. done.
Qed.

Lemma lstrip_idemp s : lstrip (lstrip s) = lstrip s.
Proof.
  induction s as [|c s IH]; simpl; [done|].
  destruct (Py_UNICODE_ISSPACE c) eqn:Hc; [done|]. simpl. by rewrite Hc.
Qed.

(** Dropping white space at the end keeps a leading non-space. *)
Lemma lstrip_rstrip s : lstrip (rstrip s) = rstrip (lstrip s).
Proof.
  induction s as [|c s IH]; simpl; [done|].
  destruct (Py_UNICODE_ISSPACE c) eqn:Hc.
  - rewrite <- IH. destruct (rstrip s) eqn:Hr; simpl; by rewrite ?Hc.
  - simpl. destruct (rstrip s) eqn:Hr; simpl; by rewrite Hc.
Qed.

Lemma strip_idemp s : strip (strip s) = strip s.
Proof.
  unfold strip. by rewrite lstrip_rstrip, lstrip_idemp, rstrip_idemp.
Qed.

Lemma split_lstrip s : split (lstrip s) = split s.
Proof.
  induction s as [|c s IH]; [done|]. simpl lstrip.
  destruct (Py_UNICODE_ISSPACE c) eqn:Hc; [|done].
  rewrite IH. simpl. by rewrite Hc.
Qed.

Lemma split_spaces s :
  Forall (λ c, Py_UNICODE_ISSPACE c = true) s → split s = [].
Proof. induction 1 as [|c s Hc _ IH]; simpl; [done|]. by rewrite Hc. Qed.

Lemma split_rstrip s : split (rstrip s) = split s.
Proof.
  induction s as [|c s IH]; [done|]. simpl rstrip.
  destruct (rstrip s) as [|c' r] eqn:Hr.
  - apply rstrip_nil_inv in Hr.
    destruct (Py_UNICODE_ISSPACE c) eqn:Hc; simpl; rewrite Hc.
    + by rewrite split_spaces.
    + destruct s as [|c2 s]; [done|].
      pose proof Hr as Hr'. apply Forall_cons in Hr' as [-> _].
      by rewrite split_spaces.
  - destruct s as [|c2 s]; [done|].
    assert (c' = c2) as ->.
    { simpl in Hr. destruct (rstrip s), (Py_UNICODE_ISSPACE c2); congruence. }
    change (split (c :: c2 :: r)) with
      (if Py_UNICODE_ISSPACE c then split (c2 :: r)
       else if Py_UNICODE_ISSPACE c2 then [c] :: split (c2 :: r)
       else match split (c2 :: r) with w :: ws => (c :: w) :: ws | [] => [[c]] end).
    change (split (c :: c2 :: s)) with
      (if Py_UNICODE_ISSPACE c then split (c2 :: s)
       else if Py_UNICODE_ISSPACE c2 then [c] :: split (c2 :: s)
       else match split (c2 :: s) with w :: ws => (c :: w) :: ws | [] => [[c]] end).
    by rewrite IH.
Qed.

Lemma split_strip s : split (strip s) = split s.
Proof. unfold strip. by rewrite split_rstrip, split_lstrip. Qed.

Lemma split_words s : Forall word (split s).
Proof.
  induction s as [|c s IH]; simpl; [constructor|].
  destruct (Py_UNICODE_ISSPACE c) eqn:Hc; [done|].
  assert (word [c]) by (split; [done | by repeat constructor]).
  destruct s as [|c' s]; [by repeat constructor|].
  destruct (Py_UNICODE_ISSPACE c') eqn:Hc'; [by constructor|].
  destruct (split (c' :: s)) as [|w ws]; [by repeat constructor|].
  apply Forall_cons in IH as [[? Hw] ?]. constructor; [|done].
  split; [done | by constructor].
Qed.

Lemma join_words_nonempty sep w ws : word w → join sep (w :: ws) ≠ [].
Proof. intros [Hne _]. destruct ws; simpl; [done|]. by destruct w. Qed.

Lemma lstrip_join ws : Forall word ws → lstrip (join [32%N] ws) = join [32%N] ws.
Proof.
  destruct 1 as [|w ws Hw _]; [done|].
  destruct ws; simpl.
  - rewrite <- (app_nil_r w) at 1. rewrite lstrip_word by done. by rewrite app_nil_r.
  - by rewrite lstrip_word.
Qed.

Lemma rstrip_join ws : Forall word ws → rstrip (join [32%N] ws) = join [32%N] ws.
Proof.
  induction 1 as [|w ws Hw Hws IH]; [done|].
  destruct ws as [|w' ws]; [by apply rstrip_word|].
  change (join [32%N] (w :: w' :: ws)) with (w ++ [32%N] ++ join [32%N] (w' :: ws)).
  apply Forall_cons in Hws as [Hw' _].
  assert (rstrip (join [32%N] (w' :: ws)) ≠ []).
  { rewrite IH. by apply join_words_nonempty. }
  rewrite (rstrip_app w), (rstrip_app [32%N]), IH; try done.
  rewrite rstrip_app by done. done.
Qed.

(** The text that [clean_string] produces has nothing to strip. *)
Lemma strip_collapse s : strip (collapse s) = collapse s.
Proof.
  unfold strip, collapse.
  by rewrite lstrip_join, rstrip_join by apply split_words.
Qed.

Lemma collapse_strip s : collapse (strip s) = collapse s.
Proof. unfold collapse. by rewrite split_strip. Qed.

(** Two white-space code points in a row. *)
Fixpoint ws_run (s : pystr) : bool :=
  match s with
  | c :: (c' :: _) as s' =>
      Py_UNICODE_ISSPACE c && Py_UNICODE_ISSPACE c' || ws_run s'
  | _ => false
  end.

Lemma ws_run_word_app w s :
  Forall (λ c, Py_UNICODE_ISSPACE c = false) w → ws_run (w ++ s) = ws_run s.
Proof.
  induction 1 as [|c w Hc Hw IH]; [done|].
  simpl. rewrite Hc. simpl. destruct (w ++ s) eqn:Heq; [|done].
  apply app_eq_nil in Heq as [_ ->]. done.
Qed.

Lemma ws_run_cons c s :
  (∀ c' s', s = c' :: s' → Py_UNICODE_ISSPACE c' = false) →
  ws_run (c :: s) = ws_run s.
Proof.
  intros Hs. destruct s as [|c' s']; [done|].
  simpl. by rewrite (Hs c' s' eq_refl), andb_false_r.
Qed.

Lemma ws_run_join ws : Forall word ws → ws_run (join [32%N] ws) = false.
Proof.
  induction 1 as [|w ws Hw Hws IH]; [done|].
  destruct ws as [|w' ws].
  - simpl. rewrite <- (app_nil_r w). by rewrite ws_run_word_app by apply Hw.
  - change (join [32%N] (w :: w' :: ws)) with (w ++ [32%N] ++ join [32%N] (w' :: ws)).
    rewrite ws_run_word_app by apply Hw.
    simpl app. rewrite ws_run_cons; [done|].
    apply Forall_cons in Hws as [[Hne Hw'] _].
    destruct w' as [|c w']; [done|]. apply Forall_cons in Hw' as [Hc _].
    intros c' s'. destruct ws; simpl; congruence.
Qed.

Lemma ws_run_collapse s : ws_run (collapse s) = false.
Proof. apply ws_run_join, split_words. Qed.
End Strings.

(** ** A character-wise case mapping satisfies the laws of [Unicode] *)

Section CharMap.
Variable g : N → N.
Hypothesis g_space : ∀ c, Py_UNICODE_ISSPACE (g c) = Py_UNICODE_ISSPACE c.
Hypothesis g_blank : g 32%N = 32%N.
Implicit Types (s : pystr) (ws : list pystr).

Lemma lstrip_fmap s : lstrip (g <$> s) = g <$> lstrip s.
Proof.
  induction s as [|c s IH]; [done|]. simpl.
  rewrite g_space. by destruct (Py_UNICODE_ISSPACE c).
Qed.

Lemma rstrip_fmap s : rstrip (g <$> s) = g <$> rstrip s.
Proof.
  induction s as [|c s IH]; [done|].
  rewrite fmap_cons. simpl rstrip. rewrite IH, g_space.
  destruct (rstrip s); simpl; [|done]. by destruct (Py_UNICODE_ISSPACE c).
Qed.

Lemma strip_fmap s : strip (g <$> s) = g <$> strip s.
Proof. unfold strip. by rewrite lstrip_fmap, rstrip_fmap. Qed.

Lemma split_fmap s : split (g <$> s) = (fmap g : pystr → pystr) <$> split s.
Proof.
  induction s as [|c s IH]; [done|].
  destruct s as [|c' s].
  - simpl. rewrite g_space. by destruct (Py_UNICODE_ISSPACE c).
  - change (split (g <$> c :: c' :: s)) with
      (if Py_UNICODE_ISSPACE (g c) then split (g <$> c' :: s)
       else if Py_UNICODE_ISSPACE (g c') then [g c] :: split (g <$> c' :: s)
       else match split (g <$> c' :: s) with
            | w :: ws => (g c :: w) :: ws
            | [] => [[g c]]
            end).
    change (split (c :: c' :: s)) with
      (if Py_UNICODE_ISSPACE c then split (c' :: s)
       else if Py_UNICODE_ISSPACE c' then [c] :: split (c' :: s)
       else match split (c' :: s) with
            | w :: ws => (c :: w) :: ws
            | [] => [[c]]
            end).
    rewrite IH, !g_space.
    destruct (Py_UNICODE_ISSPACE c), (Py_UNICODE_ISSPACE c'); try done.
    by destruct (split (c' :: s)).
Qed.

Lemma join_fmap ws : g <$> join [32%N] ws = join [32%N] ((fmap g : pystr → pystr) <$> ws).
Proof.
  induction ws as [|w ws IH]; [done|].
  destruct ws as [|w' ws]; [done|].
  change (join [32%N] (w :: w' :: ws)) with (w ++ [32%N] ++ join [32%N] (w' :: ws)).
  rewrite !fmap_app, IH. simpl. by rewrite g_blank.
Qed.

Lemma collapse_fmap s : collapse (g <$> s) = g <$> collapse s.
Proof. unfold collapse. by rewrite split_fmap, join_fmap. Qed.
End CharMap.

Ltac split_N_tests :=
  repeat match goal with
         | |- context [(?a <=? ?b)%N] => destruct (N.leb_spec a b); try lia
         | |- context [(?a =? ?b)%N] => destruct (N.eqb_spec a b); try lia
         | H : context [(?a <=? ?b)%N] |- _ => destruct (N.leb_spec a b); try lia
         | H : context [(?a =? ?b)%N] |- _ => destruct (N.eqb_spec a b); try lia
         end.

Lemma letters_not_space c :
  (33 ≤ c ≤ 132 ∨ 161 ≤ c ≤ 5759)%N → Py_UNICODE_ISSPACE c = false.
Proof. intros Hc. unfold Py_UNICODE_ISSPACE. by split_N_tests. Qed.

Lemma latin1_lower_cases c :
  latin1_lower c = c ∨
  (latin1_lower c = (c + 32)%N ∧ (65 ≤ c ≤ 90 ∨ 192 ≤ c ≤ 222)%N).
Proof.
  unfold latin1_lower. split_N_tests; simpl; auto; right; split; auto; lia.
Qed.

Lemma latin1_lower_space c :
  Py_UNICODE_ISSPACE (latin1_lower c) = Py_UNICODE_ISSPACE c.
Proof.
  destruct (latin1_lower_cases c) as [->|[-> Hc]]; [done|].
  rewrite !letters_not_space; [done|lia|lia].
Qed.

Lemma latin1_lower_idemp c : latin1_lower (latin1_lower c) = latin1_lower c.
Proof.
  destruct (latin1_lower_cases c) as [Heq|[Heq Hc]]; rewrite Heq; [done|].
  unfold latin1_lower. split_N_tests; simpl; try done; lia.
Qed.

(** ** Reference instances

    A runtime on which the examples below are evaluated: Latin-1 case
    mapping and ASCII digits, integer quantities and prices written in
    decimal, and the [datetime64[ns]] range of pandas 2. On the inputs of
    the examples (ASCII and Latin-1 text, small integers, dates of this
    century) it agrees with CPython and pandas. *)

Definition latin1_str_lower (s : pystr) : pystr := latin1_lower <$> s.

Lemma latin1_str_lower_idemp s :
  latin1_str_lower (latin1_str_lower s) = latin1_str_lower s.
Proof.
  unfold latin1_str_lower. rewrite <- list_fmap_compose.
  apply list_fmap_ext. intros ? c _. apply latin1_lower_idemp.
Qed.

Lemma latin1_str_lower_strip s :
  latin1_str_lower (strip s) = strip (latin1_str_lower s).
Proof. symmetry. apply strip_fmap, latin1_lower_space. Qed.

Lemma latin1_str_lower_collapse s :
  latin1_str_lower (collapse s) = collapse (latin1_str_lower s).
Proof. symmetry. by apply collapse_fmap; [apply latin1_lower_space|]. Qed.

Definition latin1_unicode : Unicode := {|
  str_lower := latin1_str_lower;
  decimal_ext _ := None;
  str_lower_latin1 _ _ := eq_refl;
  str_lower_idemp := latin1_str_lower_idemp;
  str_lower_strip := latin1_str_lower_strip;
  str_lower_collapse := latin1_str_lower_collapse;
|}.

(** Decimal integers, with an optional minus sign. *)
Fixpoint parse_digits (s : pystr) (acc : Z) : option Z :=
  match s with
  | [] => Some acc
  | c :: s' =>
      if (48 <=? c)%N && (c <=? 57)%N
      then parse_digits s' (10 * acc + (Z.of_N c - 48))
      else None
  end.

Definition parse_int (s : pystr) : option Z :=
  match s with
  | [] => None
  | 45%N :: (_ :: _) as s' => Z.opp <$> parse_digits s' 0
  | _ => parse_digits s 0
  end.

(** [str] of an integer. *)
Fixpoint digits_of (fuel : nat) (n : N) (acc : pystr) : pystr :=
  match fuel with
  | O => acc
  | S fuel' =>
      let acc' := (48 + n mod 10)%N :: acc in
      if (n <? 10)%N then acc' else digits_of fuel' (n / 10)%N acc'
  end.

Definition str_of_int (x : Z) : pystr :=
  let n := Z.abs_N x in
  let digits := digits_of (S (N.to_nat (N.log2 n))) n [] in
  if x <? 0 then 45%N :: digits else digits.

Definition int_numeric : Numeric := {|
  num := Z;
  num_mul := Z.mul;
  num_le0 x := x <=? 0;
  num_str := str_of_int;
  str_to_num s := parse_int (strip s);
  datetime_to_num _ := None;
|}.

Definition pandas_ns : Pandas := {|
  datetime64_fits d := valid_date d && (1678 <=? year d) && (year d <=? 2261);
  strftime_Ymd := isoformat_date;
  strftime_Ymd_iso _ _ _ := eq_refl;
|}.


(** ** Running the monad *)

Section Run.
Context `{Unicode} `{Numeric} `{Pandas}.
Local Abbreviation dict := (list (pystr * cell)).
Local Abbreviation loc := nat.
Local Abbreviation heap := (list DataFrame).
Implicit Types (f fw : DataFrame) (h : heap) (l : loc) (c : string).

Lemma run_bind {A B} (m : M A) (k : A → M B) h a h' :
  m h = (Returns a, h') → (m ≫= k) h = k a h'.
Proof. intros Hm. unfold mbind, M_bind. by rewrite Hm. Qed.

Lemma run_bind_raises {A B} (m : M A) (k : A → M B) h e h' :
  m h = (Raises e, h') → (m ≫= k) h = (Raises e, h').
Proof. intros Hm. unfold mbind, M_bind. by rewrite Hm. Qed.

Lemma run_deref h l f : h !! l = Some f → deref l h = (Returns f, h).
Proof. intros Hl. unfold deref. by rewrite Hl. Qed.

Lemma lookup_top h f : (h ++ [f]) !! length h = Some f.
Proof. by apply list_lookup_middle. Qed.

Lemma lookup_below h l f fw : h !! l = Some f → (h ++ [fw]) !! l = Some f.
Proof. intros Hl. rewrite lookup_app_l; [done|]. by eapply lookup_lt_Some. Qed.

Lemma insert_top h f fw : <[length h := fw]> (h ++ [f]) = h ++ [fw].
Proof. by rewrite insert_app_r_alt, Nat.sub_diag by lia. Qed.

Lemma run_copy h l f : h !! l = Some f → df_copy l h = (Returns (length h), h ++ [f]).
Proof. intros Hl. unfold df_copy. by erewrite run_bind by by apply run_deref. Qed.

Lemma run_getitem h l f c dt :
  h !! l = Some f → assoc c (columns f) = Some dt →
  df_getitem l c h = (Returns (mk_Series dt ((λ r, r.2 !!! c) <$> rows f)), h).
Proof.
  intros Hl Hc. unfold df_getitem. erewrite run_bind by by apply run_deref.
  unfold lift, getitem. by rewrite Hc.
Qed.

Lemma run_getitem_missing h l f c :
  h !! l = Some f → assoc c (columns f) = None →
  df_getitem l c h = (Raises KeyError, h).
Proof.
  intros Hl Hc. unfold df_getitem. erewrite run_bind by by apply run_deref.
  unfold lift, getitem. by rewrite Hc.
Qed.

(** [df[c] = ...] with a value computed row by row. *)
Definition assign f c (dt : dtype) (u : Z * gmap string cell → cell) : DataFrame :=
  mk_DataFrame (set_assoc c dt (columns f))
    ((λ r, (r.1, <[c := u r]> r.2)) <$> rows f).

Lemma setitem_assign f c dt u :
  setitem f c (mk_Series dt (u <$> rows f)) = Returns (assign f c dt u).
Proof.
  unfold setitem, assign. simpl. rewrite length_fmap, decide_True by done.
  by rewrite zip_with_fmap_r, zip_with_diag.
Qed.

Lemma run_setitem h f c dt u :
  df_setitem (length h) c (mk_Series dt (u <$> rows f)) (h ++ [f])
  = (Returns (), h ++ [assign f c dt u]).
Proof.
  unfold df_setitem. erewrite run_bind by apply run_deref, lookup_top.
  unfold mbind, M_bind, lift, store. by rewrite setitem_assign, insert_top.
Qed.

Lemma map_outcome_total {A B} (g : A → outcome B) (φ : A → B) (xs : list A) :
  Forall (λ x, g x = Returns (φ x)) xs → map_outcome g xs = Returns (φ <$> xs).
Proof. induction 1 as [|x xs Hx _ IH]; simpl; [done|]. by rewrite Hx, IH. Qed.

Lemma Series_apply_total dt (g : cell → outcome cell) φ (vals : list cell) :
  Forall (λ x, g x = Returns (φ x)) vals →
  Series_apply (mk_Series dt vals) g
  = Returns (mk_Series (infer_dtype (φ <$> vals)) (φ <$> vals)).
Proof. intros Hg. unfold Series_apply. simpl. by rewrite (map_outcome_total g φ). Qed.

Lemma select_fmap {A B} (g : A → B) mask (xs : list A) :
  select mask (g <$> xs) = g <$> select mask xs.
Proof.
  revert xs. induction mask as [|b mask IH]; intros [|x xs]; simpl; try done.
  destruct b; simpl; by rewrite IH.
Qed.

Lemma select_none {A} mask (xs : list A) :
  mask_any mask = false → select mask xs = [].
Proof.
  revert xs. induction mask as [|b mask IH]; intros [|x xs]; simpl; try done.
  destruct b; simpl; [done|]. apply IH.
Qed.

Lemma run_reject h l f mask reason rejected_rows rejection_reasons :
  h !! l = Some f →
  ∃ reasons,
    reject l mask reason (rejected_rows, rejection_reasons) h
    = (Returns (rejected_rows ++ select mask (index f), reasons), h).
Proof.
  intros Hl. unfold reject, index, getitem_mask. simpl.
  destruct (mask_any mask) eqn:Hany.
  - erewrite run_bind by by apply run_deref. rewrite select_fmap. eauto.
  - rewrite (select_none mask (rows f).*1) by done.
    rewrite !app_nil_r. eauto.
Qed.

Lemma assoc_Some {A} c (cols : list (string * A)) :
  c ∈ cols.*1 → ∃ a, assoc c cols = Some a.
Proof.
  induction cols as [|[c' a] cols IH]; simpl; [by intros ?%elem_of_nil|].
  intros [->|Hc]%elem_of_cons; case_decide; eauto; done.
Qed.

Lemma assoc_elem_of {A} c (cols : list (string * A)) a :
  assoc c cols = Some a → c ∈ cols.*1.
Proof.
  induction cols as [|[c' a'] cols IH]; simpl; [done|].
  case_decide; [subst; intros _; apply elem_of_cons; auto|].
  intros ?. apply elem_of_cons. auto.
Qed.

Lemma assoc_set_assoc {A} c c' (a : A) cols :
  assoc c (set_assoc c' a cols) = if decide (c = c') then Some a else assoc c cols.
Proof.
  induction cols as [|[c2 a2] cols IH]; simpl.
  - by repeat case_decide.
  - repeat (case_decide; simpl; subst); try done.
Qed.

Lemma infer_dtype_no_date (vals : list cell) :
  Forall (λ v, match v with Date _ => False | _ => True end) vals →
  infer_dtype vals = dt_other.
Proof.
  intros Hv. unfold infer_dtype.
  replace (existsb _ vals) with false; [done|].
  induction Hv as [|v vals Hv _ IH]; simpl; [done|]. by destruct v.
Qed.

Lemma run_clean_column h f c dt :
  assoc c (columns f) = Some dt →
  clean_column (length h) c (h ++ [f])
  = (Returns (), h ++ [assign f c dt_other (λ r, clean_string (r.2 !!! c))]).
Proof.
  intros Hc. unfold clean_column.
  erewrite run_bind by apply run_deref, lookup_top.
  rewrite bool_decide_eq_true_2 by by eapply assoc_elem_of.
  erewrite run_bind by by apply run_getitem; [apply lookup_top|].
  rewrite (Series_apply_total _ _ clean_string) by by apply Forall_true.
  erewrite run_bind by done.
  rewrite infer_dtype_no_date.
  2:{ apply Forall_fmap, Forall_true. intros r. simpl. unfold clean_string.
      by destruct (isna _). }
  rewrite <- list_fmap_compose. apply run_setitem.
Qed.

Lemma strptime_cases (t : pystr) fmt :
  (∃ d, strptime t fmt = Returns d) ∨ strptime t fmt = Raises ValueError.
Proof.
  unfold strptime, datetime_new.
  repeat case_match; eauto.
Qed.

Lemma try_formats_resolver v fmts :
  try_formats v fmts
  = Returns (match omap (parses (strip (py_str v))) fmts with
             | d :: _ => Date d
             | [] => Null
             end).
Proof.
  induction fmts as [|fmt fmts IH]; simpl; [done|]. unfold parses at 1.
  destruct (strptime_cases (strip (py_str v)) fmt) as [[d ->]| ->]; [done|].
  apply IH.
Qed.

Lemma parse_date_flexible_resolver v :
  parse_date_flexible v = Returns (date_resolver v).
Proof.
  unfold parse_date_flexible, date_resolver.
  destruct (isna v || bool_decide (v = Str [])); [done|].
  apply try_formats_resolver.
Qed.

(** [map_producto] on the text cells that [clean_string] leaves. *)
Definition lookup_producto (productos_map : dict) (nombre : cell) : cell :=
  match nombre with
  | Str s => default Null (productos_map_lower productos_map !! strip (str_lower s))
  | _ => Null
  end.

Lemma map_producto_clean pm v :
  map_producto pm (clean_string v) = Returns (lookup_producto pm (clean_string v)).
Proof. unfold clean_string. by destruct (isna v). Qed.

Lemma TransformResult_init_ok d ri ro rr rd st :
  TransformResult_init
    [("succes", PBool true); ("data", d); ("rows_input", ri); ("rows_output", ro);
     ("rows_rejected", rr); ("rejected_data", rd); ("stats", st)]
  = Returns (mk_TransformResult (PBool true) d ri ro rr rd st PNone).
Proof. reflexivity. Qed.

Lemma TransformResult_init_typo b e :
  TransformResult_init [("success", b); ("error", e)] = Raises TypeError.
Proof. reflexivity. Qed.

Definition required_columns : list string :=
  ["fecha"; "producto"; "cantidad"; "precio_unitario"; "tienda"; "vendedor"].

Ltac heap_lookup :=
  first [ apply lookup_top | repeat apply lookup_below; eassumption ].
Ltac solve_assoc :=
  simpl; rewrite ?assoc_set_assoc;
  repeat first [ rewrite decide_True by done | rewrite decide_False by done ];
  first [ eassumption | reflexivity ].
Ltac step_with lem := erewrite run_bind; [| apply lem ].

(** *** The frames and masks of [transform_ventas], stage by stage *)

Definition column f c : list cell := (λ r, r.2 !!! c) <$> rows f.

(** [df_work] after step 1 *)
Definition df_work_1 f : DataFrame :=
  assign (assign (assign f
    "producto" dt_other (λ r, clean_string (r.2 !!! "producto")))
    "tienda" dt_other (λ r, clean_string (r.2 !!! "tienda")))
    "vendedor" dt_other (λ r, clean_string (r.2 !!! "vendedor")).

(** The dtype of the column [fecha_parsed] *)
Definition fecha_parsed_dtype f : dtype :=
  infer_dtype ((λ r, date_resolver (r.2 !!! "fecha")) <$> rows (df_work_1 f)).

(** [df_work] after step 2 *)
Definition df_work_2 f : DataFrame :=
  assign (df_work_1 f) "fecha_parsed" (fecha_parsed_dtype f)
    (λ r, date_resolver (r.2 !!! "fecha")).

Definition mask_fecha_invalida f : list bool :=
  isna <$> column (df_work_2 f) "fecha_parsed".

(** [df_work] after step 3 *)
Definition df_work_3 f : DataFrame :=
  assign (assign (df_work_2 f)
    "cantidad" dt_other (λ r, coerce (r.2 !!! "cantidad")))
    "precio_unitario" dt_other (λ r, coerce (r.2 !!! "precio_unitario")).

Definition le0 (v : cell) : bool :=
  match v with Num x => num_le0 x | _ => false end.

Definition mask_cantidad_invalida f : list bool :=
  mask_or (isna <$> column (df_work_3 f) "cantidad")
          (le0 <$> column (df_work_3 f) "cantidad").

Definition mask_precio_invalido f : list bool :=
  mask_or (isna <$> column (df_work_3 f) "precio_unitario")
          (le0 <$> column (df_work_3 f) "precio_unitario").

(** [df_work] after step 5 *)
Definition df_work_5 pm f : DataFrame :=
  assign (df_work_3 f) "producto_id"
    (infer_dtype ((λ r, lookup_producto pm (r.2 !!! "producto")) <$> rows (df_work_3 f)))
    (λ r, lookup_producto pm (r.2 !!! "producto")).

Definition mask_producto_no_encontrado pm f : list bool :=
  isna <$> column (df_work_5 pm f) "producto_id".

(** [rejected_rows] when step 5 is over *)
Definition rejected_rows pm f : list Z :=
  select (mask_fecha_invalida f) (index f)
  ++ select (mask_cantidad_invalida f) (index f)
  ++ select (mask_precio_invalido f) (index f)
  ++ select (mask_producto_no_encontrado pm f) (index f).

(** [df_work] after step 6 *)
Definition df_work_6 pm f : DataFrame :=
  drop_duplicates (df_work_5 pm f) cols_dedup.

Definition all_rejected pm f : list Z :=
  elements (list_to_set (rejected_rows pm f) : gset Z).

Definition df_rejected pm f : DataFrame :=
  getitem_mask f (isin (index f) (all_rejected pm f)).

(** [df_clean] after steps 7, 8 and 9 *)
Definition df_clean_7 pm f : DataFrame :=
  getitem_mask (df_work_6 pm f)
    (mask_not (isin (index (df_work_6 pm f)) (all_rejected pm f))).

Definition df_clean_8 pm f : DataFrame :=
  assign (df_clean_7 pm f) "total" dt_other
    (λ r, cell_mul (r.2 !!! "cantidad") (r.2 !!! "precio_unitario")).

Definition df_clean_9 pm f : DataFrame :=
  assign (df_clean_8 pm f) "fecha" dt_other
    (λ r, match r.2 !!! "fecha_parsed" with
          | Date d => Str (strftime_Ymd d)
          | _ => Null
          end).

Definition df_output pm f : DataFrame := project (df_clean_9 pm f) columnas_finales.

Definition stats_of pm f : list (string * Z) :=
  [("fechas_invalidas", Z.of_nat (mask_sum (mask_fecha_invalida f)));
   ("cantidades_invalidas", Z.of_nat (mask_sum (mask_cantidad_invalida f)));
   ("precios_invalidos", Z.of_nat (mask_sum (mask_precio_invalido f)));
   ("productos_no_mapeados", Z.of_nat (mask_sum (mask_producto_no_encontrado pm f)));
   ("duplicados_eliminados",
    Z.of_nat (len (df_work_5 pm f)) - Z.of_nat (len (df_work_6 pm f)))].

(** The value that [transform_ventas] returns when it returns. *)
Definition result_of pm f : TransformResult :=
  {| succes := PBool true;
     data := PFrame (df_output pm f);
     rows_input := PInt (Z.of_nat (len f));
     rows_output := PInt (Z.of_nat (len (df_output pm f)));
     rows_rejected := PInt (Z.of_nat (len (df_rejected pm f)));
     rejected_data := PFrame (df_rejected pm f);
     stats := PDict (stats_of pm f);
     error := PNone |}.

Lemma index_assign f c dt u : index (assign f c dt u) = index f.
Proof.
  unfold index, assign. simpl. rewrite <- list_fmap_compose.
  by apply list_fmap_ext.
Qed.

Lemma to_numeric_fmap {A} dt (u : A → cell) xs :
  to_numeric (mk_Series dt (u <$> xs)) = mk_Series dt_other ((λ x, coerce (u x)) <$> xs).
Proof. unfold to_numeric. simpl. by rewrite <- list_fmap_compose. Qed.

Lemma Series_mul_fmap {A} dt1 dt2 (u v : A → cell) xs :
  Series_mul (mk_Series dt1 (u <$> xs)) (mk_Series dt2 (v <$> xs))
  = mk_Series dt_other ((λ x, cell_mul (u x) (v x)) <$> xs).
Proof.
  unfold Series_mul. simpl.
  by rewrite zip_with_fmap_l, zip_with_fmap_r, zip_with_diag.
Qed.

(** *** The working copy, row by row *)

Definition work_row_1 (r : gmap string cell) : gmap string cell :=
  let r := <["producto" := clean_string (r !!! "producto")]> r in
  let r := <["tienda" := clean_string (r !!! "tienda")]> r in
  <["vendedor" := clean_string (r !!! "vendedor")]> r.

Definition work_row_2 (r : gmap string cell) : gmap string cell :=
  let r := work_row_1 r in
  <["fecha_parsed" := date_resolver (r !!! "fecha")]> r.

Definition work_row_3 (r : gmap string cell) : gmap string cell :=
  let r := work_row_2 r in
  let r := <["cantidad" := coerce (r !!! "cantidad")]> r in
  <["precio_unitario" := coerce (r !!! "precio_unitario")]> r.

(** A row of [df_work] when step 5 is over. *)
Definition work_row pm (r : gmap string cell) : gmap string cell :=
  let r := work_row_3 r in
  <["producto_id" := lookup_producto pm (r !!! "producto")]> r.

Lemma rows_assign f c dt u :
  rows (assign f c dt u) = (λ r, (r.1, <[c := u r]> r.2)) <$> rows f.
Proof. done. Qed.

Lemma columns_assign f c dt u :
  columns (assign f c dt u) = set_assoc c dt (columns f).
Proof. done. Qed.

Lemma rows_df_work_1 f :
  rows (df_work_1 f) = (λ r, (r.1, work_row_1 r.2)) <$> rows f.
Proof.
  unfold df_work_1. rewrite !rows_assign, <- !list_fmap_compose.
  by apply list_fmap_ext.
Qed.

Lemma rows_df_work_2 f :
  rows (df_work_2 f) = (λ r, (r.1, work_row_2 r.2)) <$> rows f.
Proof.
  unfold df_work_2. rewrite !rows_assign, rows_df_work_1, <- !list_fmap_compose.
  by apply list_fmap_ext.
Qed.

Lemma rows_df_work_3 f :
  rows (df_work_3 f) = (λ r, (r.1, work_row_3 r.2)) <$> rows f.
Proof.
  unfold df_work_3. rewrite !rows_assign, rows_df_work_2, <- !list_fmap_compose.
  by apply list_fmap_ext.
Qed.

Lemma rows_df_work_5 pm f :
  rows (df_work_5 pm f) = (λ r, (r.1, work_row pm r.2)) <$> rows f.
Proof.
  unfold df_work_5. rewrite !rows_assign, rows_df_work_3, <- !list_fmap_compose.
  by apply list_fmap_ext.
Qed.

Ltac map_lookup :=
  repeat first [ rewrite lookup_total_insert_eq
               | rewrite lookup_total_insert_ne by done ].

Lemma work_row_3_producto r :
  work_row_3 r !!! "producto" = clean_string (r !!! "producto").
Proof. unfold work_row_3, work_row_2, work_row_1. cbv zeta. by map_lookup. Qed.

Lemma index_df_work_2 f : index (df_work_2 f) = index f.
Proof. unfold df_work_2, df_work_1. by rewrite !index_assign. Qed.

Lemma index_df_work_3 f : index (df_work_3 f) = index f.
Proof. unfold df_work_3. by rewrite !index_assign, index_df_work_2. Qed.

Lemma index_df_work_5 pm f : index (df_work_5 pm f) = index f.
Proof. unfold df_work_5. by rewrite !index_assign, index_df_work_3. Qed.

Lemma filter_all {A} (P : A → Prop) `{∀ x, Decision (P x)} (xs : list A) :
  Forall P xs → filter P xs = xs.
Proof.
  induction 1 as [|x xs Hx _ IH]; [done|]. by rewrite filter_cons_True, IH.
Qed.

Lemma run_alloc h f : alloc f h = (Returns (length h), h ++ [f]).
Proof. done. Qed.

Lemma getitem_list_ok f cols :
  Forall (λ c, c ∈ column_names f) cols →
  getitem_list f cols = Returns (project f cols).
Proof.
  intros Hc. unfold getitem_list.
  replace (forallb _ cols) with true; [done|].
  symmetry. induction Hc as [|c cols Hc _ IH]; simpl; [done|].
  by rewrite bool_decide_eq_true_2, IH.
Qed.

Ltac step_reject :=
  match goal with
  | |- context [(reject _ ?m ?r (?rr, ?rs) ≫= _) (?h0 ++ [?fw])] =>
      let reasons := fresh "reasons" in
      let Hr := fresh "Hr" in
      destruct (run_reject (h0 ++ [fw]) (length h0) fw m r rr rs (lookup_top _ _))
        as [reasons Hr];
      erewrite run_bind by exact Hr; clear Hr
  end.

Lemma transform_ventas_run h l f pm :
  h !! l = Some f → df_empty f = false →
  Forall (λ c, c ∈ column_names f) required_columns →
  transform_ventas (Some l) pm h
  = match fecha_parsed_dtype f with
    | dt_datetime64 =>
        (Returns (result_of pm f),
         h ++ [df_work_5 pm f; df_work_6 pm f; df_clean_9 pm f])
    | dt_other =>
        (Raises AttributeError,
         h ++ [df_work_5 pm f; df_work_6 pm f; df_clean_8 pm f])
    end.
Proof.
  intros Hl Hne Hreq. unfold required_columns in Hreq.
  repeat (apply Forall_cons in Hreq as [[? ?]%assoc_Some Hreq]).
  unfold transform_ventas.
  erewrite run_bind by by apply run_deref.
  rewrite Hne.
  erewrite run_bind by by apply run_copy.
  (* 1 *)
  erewrite run_bind by by eapply run_clean_column.
  erewrite run_bind by (eapply run_clean_column; solve_assoc).
  erewrite run_bind by (eapply run_clean_column; solve_assoc).
  fold (df_work_1 f).
  (* 2 *)
  erewrite run_bind by (eapply run_getitem; [heap_lookup | solve_assoc]).
  rewrite (Series_apply_total _ _ date_resolver)
    by (apply Forall_true; intros; apply parse_date_flexible_resolver).
  erewrite run_bind by done.
  rewrite <- !list_fmap_compose.
  erewrite run_bind by apply run_setitem.
  change (assign (df_work_1 f) _ _ _) with (df_work_2 f).
  erewrite run_bind by (eapply run_getitem; [heap_lookup | solve_assoc]).
  change (Series_isna (mk_Series _ _)) with (mask_fecha_invalida f).
  step_reject. rewrite index_df_work_2, app_nil_l.
  (* 3 *)
  erewrite run_bind by (eapply run_getitem; [heap_lookup | solve_assoc]).
  rewrite to_numeric_fmap.
  erewrite run_bind by apply run_setitem.
  erewrite run_bind by (eapply run_getitem; [heap_lookup | solve_assoc]).
  rewrite to_numeric_fmap.
  erewrite run_bind by apply run_setitem.
  change (assign (assign (df_work_2 f) _ _ _) _ _ _) with (df_work_3 f).
  (* 4 *)
  erewrite run_bind by (eapply run_getitem; [heap_lookup | solve_assoc]).
  change (mask_or (Series_isna (mk_Series _ _)) _) with (mask_cantidad_invalida f).
  erewrite run_bind by (eapply run_getitem; [heap_lookup | solve_assoc]).
  change (mask_or (Series_isna (mk_Series _ _)) _) with (mask_precio_invalido f).
  step_reject. step_reject. rewrite !index_df_work_3.
  (* 5 *)
  erewrite run_bind by (eapply run_getitem; [heap_lookup | solve_assoc]).
  rewrite (Series_apply_total _ _ (lookup_producto pm)).
  2:{ rewrite rows_df_work_3. apply Forall_fmap, Forall_fmap, Forall_true.
      intros r. simpl. rewrite work_row_3_producto. apply map_producto_clean. }
  erewrite run_bind by done.
  rewrite <- !list_fmap_compose.
  erewrite run_bind by apply run_setitem.
  change (assign (df_work_3 f) _ _ _) with (df_work_5 pm f).
  erewrite run_bind by (eapply run_getitem; [heap_lookup | solve_assoc]).
  change (Series_isna (mk_Series _ _)) with (mask_producto_no_encontrado pm f).
  step_reject. rewrite index_df_work_5. cbn [fst].
  rewrite <- !(assoc_L (++)).
  change (select _ _ ++ _) with (rejected_rows pm f).
  (* 6 *)
  erewrite run_bind by (apply run_deref; heap_lookup).
  rewrite (filter_all _ cols_dedup).
  2:{ repeat constructor; eapply assoc_elem_of; solve_assoc. }
  erewrite run_bind by apply run_alloc.
  change (drop_duplicates _ _) with (df_work_6 pm f).
  erewrite run_bind by (apply run_deref; heap_lookup).
  (* 7 *)
  erewrite run_bind by (apply run_deref; heap_lookup).
  erewrite run_bind by apply run_alloc.
  change (getitem_mask (df_work_6 pm f) _) with (df_clean_7 pm f).
  change (getitem_mask f _) with (df_rejected pm f).
  (* 8 *)
  erewrite run_bind by (eapply run_getitem; [heap_lookup | solve_assoc]).
  erewrite run_bind by (eapply run_getitem; [heap_lookup | solve_assoc]).
  rewrite Series_mul_fmap.
  erewrite run_bind by apply run_setitem.
  change (assign (df_clean_7 pm f) _ _ _) with (df_clean_8 pm f).
  (* 9 *)
  erewrite run_bind by (eapply run_getitem; [heap_lookup | solve_assoc]).
  unfold Series_dt_strftime. cbn [s_dtype s_values].
  destruct (fecha_parsed_dtype f) eqn:Hdt.
  - erewrite run_bind by done.
    rewrite <- !list_fmap_compose.
    erewrite run_bind by apply run_setitem.
    change (assign (df_clean_8 pm f) _ _ _) with (df_clean_9 pm f).
    (* 10 *)
    erewrite run_bind by (apply run_deref; heap_lookup).
    rewrite getitem_list_ok.
    2:{ repeat constructor; eapply assoc_elem_of; solve_assoc. }
    erewrite run_bind by done.
    rewrite TransformResult_init_ok.
    unfold lift. by rewrite <- !(assoc_L (++)).
  - erewrite run_bind_raises by done.
    by rewrite <- !(assoc_L (++)).
Qed.

(** *** Frames that a program leaves alone *)

Local Open Scope nat_scope.

(** [keeps n m Q]: run on a heap with at least [n] frames, [m] leaves the
    first [n] frames as they are, and the value it returns satisfies
    [Q]. *)
Definition keeps {A} (n : nat) (m : M A) (Q : A → Prop) : Prop :=
  ∀ h, n ≤ length h →
    take n (m h).2 = take n h ∧ n ≤ length (m h).2 ∧
    ∀ a, (m h).1 = Returns a → Q a.

Lemma keeps_ret {A} n (a : A) (Q : A → Prop) : Q a → keeps n (mret a) Q.
Proof. intros HQ h Hn. simpl. repeat split; [done|]. by intros ? [= <-]. Qed.

Lemma keeps_lift {A} n (o : outcome A) : keeps n (lift o) (λ _, True).
Proof. by intros h Hn. Qed.

Lemma keeps_deref n l : keeps n (deref l) (λ _, True).
Proof. intros h Hn. unfold deref. by destruct (h !! l). Qed.

Lemma keeps_alloc n f : keeps n (alloc f) (λ l, n ≤ l).
Proof.
  intros h Hn. unfold alloc. cbn [fst snd]. rewrite take_app_le, length_app by done.
  repeat split; [lia|]. by intros ? [= <-].
Qed.

Lemma keeps_store n l f : n ≤ l → keeps n (store l f) (λ _, True).
Proof.
  intros Hl h Hn. unfold store. cbn [fst snd].
  by rewrite take_insert_ge, length_insert by done.
Qed.

Lemma keeps_bind {A B} n (m : M A) (k : A → M B) Q R :
  keeps n m Q → (∀ a, Q a → keeps n (k a) R) → keeps n (m ≫= k) R.
Proof.
  intros Hm Hk h Hn. destruct (Hm h Hn) as (Ht & Hlen & HQ).
  unfold mbind, M_bind. destruct (m h) as [[a|e] h1]; simpl in *; [|done].
  destruct (Hk a (HQ a eq_refl) h1 Hlen) as (Ht' & Hlen' & HR).
  repeat split; [congruence|done..].
Qed.

Lemma keeps_weaken {A} n (m : M A) (Q : A → Prop) :
  keeps n m Q → keeps n m (λ _, True).
Proof. intros Hm h Hn. destruct (Hm h Hn) as (? & ? & _). done. Qed.

Ltac keeps_step :=
  first [ apply keeps_lift | apply keeps_deref | apply keeps_alloc
        | apply keeps_store; assumption | apply keeps_ret; exact I ].

Lemma keeps_copy n l : keeps n (df_copy l) (λ l', n ≤ l').
Proof.
  eapply keeps_bind; [apply keeps_deref|]. intros f _. apply keeps_alloc.
Qed.

Lemma keeps_getitem n l c : keeps n (df_getitem l c) (λ _, True).
Proof. eapply keeps_bind; [apply keeps_deref|]. intros f _. apply keeps_lift. Qed.

Lemma keeps_setitem n l c s : n ≤ l → keeps n (df_setitem l c s) (λ _, True).
Proof.
  intros Hl. eapply keeps_bind; [apply keeps_deref|]. intros f _.
  eapply keeps_bind; [apply keeps_lift|]. intros f' _. by apply keeps_store.
Qed.

Lemma keeps_clean_column n l c : n ≤ l → keeps n (clean_column l c) (λ _, True).
Proof.
  intros Hl. eapply keeps_bind; [apply keeps_deref|]. intros f _.
  case_bool_decide; [|by apply keeps_ret].
  eapply keeps_bind; [apply keeps_getitem|]. intros s _.
  eapply keeps_bind; [apply keeps_lift|]. intros s' _. by apply keeps_setitem.
Qed.

Lemma keeps_reject n l mask reason rejected :
  keeps n (reject l mask reason rejected) (λ _, True).
Proof.
  unfold reject. destruct (mask_any mask); [|by apply keeps_ret].
  eapply keeps_bind; [apply keeps_deref|]. intros f _. by apply keeps_ret.
Qed.

Ltac keeps_auto :=
  repeat first
    [ eapply keeps_bind;
      [ first [ apply keeps_lift | apply keeps_deref | apply keeps_alloc
              | apply keeps_copy | apply keeps_getitem | apply keeps_reject
              | apply keeps_setitem; assumption
              | apply keeps_clean_column; assumption ]
      | intros ? ? ]
    | apply keeps_lift ].

Lemma keeps_transform_ventas n df pm :
  keeps n (transform_ventas df pm) (λ _, True).
Proof.
  unfold transform_ventas. destruct df as [l|]; [|apply keeps_lift].
  eapply keeps_bind; [apply keeps_deref|]. intros f _.
  destruct (df_empty f); [apply keeps_lift|].
  cbv zeta. keeps_auto.
Qed.
End Run.

(** ** The rules, row by row *)

Section Rows.
Context `{Unicode} `{Numeric} `{Pandas}.
Local Abbreviation dict := (list (pystr * cell)).
Implicit Types (f : DataFrame) (pm : dict) (r : gmap string cell) (v : cell).

(** The four rejection rules as predicates of a row of the input. *)
Definition fecha_invalida r : bool := isna (date_resolver (r !!! "fecha")).
Definition numero_invalido v : bool := isna v || le0 v.
Definition cantidad_invalida r : bool := numero_invalido (coerce (r !!! "cantidad")).
Definition precio_invalido r : bool := numero_invalido (coerce (r !!! "precio_unitario")).
Definition producto_no_encontrado pm r : bool :=
  isna (lookup_producto pm (clean_string (r !!! "producto"))).

(** A row that some rule rejects. *)
Definition marked pm r : bool :=
  fecha_invalida r || cantidad_invalida r || precio_invalido r
  || producto_no_encontrado pm r.

(** The key on which step 6 compares two rows of [df_work]. *)
Definition dedup_key r : list cell :=
  [r !!! "fecha"; clean_string (r !!! "producto"); coerce (r !!! "cantidad");
   coerce (r !!! "precio_unitario"); clean_string (r !!! "tienda")].

(** [keep='first'] in the words of the specification: going through the
    rows in order, a row is kept unless an earlier row had its key. *)
Fixpoint keep_first {A K} `{EqDecision K} (key : A → K) (seen : list K)
    (xs : list A) : list A :=
  match xs with
  | [] => []
  | x :: xs' =>
      if decide (key x ∈ seen) then keep_first key seen xs'
      else x :: keep_first key (key x :: seen) xs'
  end.

Ltac row_lookup :=
  unfold work_row, work_row_3, work_row_2, work_row_1; cbv zeta;
  repeat first [ rewrite lookup_total_insert_eq
               | rewrite lookup_total_insert_ne by done ].

Lemma work_row_fecha pm r : work_row pm r !!! "fecha" = r !!! "fecha".
Proof. by row_lookup. Qed.
Lemma work_row_producto pm r :
  work_row pm r !!! "producto" = clean_string (r !!! "producto").
Proof. by row_lookup. Qed.
Lemma work_row_tienda pm r :
  work_row pm r !!! "tienda" = clean_string (r !!! "tienda").
Proof. by row_lookup. Qed.
Lemma work_row_vendedor pm r :
  work_row pm r !!! "vendedor" = clean_string (r !!! "vendedor").
Proof. by row_lookup. Qed.
Lemma work_row_cantidad pm r :
  work_row pm r !!! "cantidad" = coerce (r !!! "cantidad").
Proof. by row_lookup. Qed.
Lemma work_row_precio pm r :
  work_row pm r !!! "precio_unitario" = coerce (r !!! "precio_unitario").
Proof. by row_lookup. Qed.
Lemma work_row_fecha_parsed pm r :
  work_row pm r !!! "fecha_parsed" = date_resolver (r !!! "fecha").
Proof. by row_lookup. Qed.
Lemma work_row_producto_id pm r :
  work_row pm r !!! "producto_id"
  = lookup_producto pm (clean_string (r !!! "producto")).
Proof. by row_lookup. Qed.

Lemma row_key_work_row pm r : row_key cols_dedup (work_row pm r) = dedup_key r.
Proof.
  unfold row_key, cols_dedup, dedup_key. cbn [fmap list_fmap].
  by rewrite work_row_fecha, work_row_producto, work_row_cantidad,
    work_row_precio, work_row_tienda.
Qed.

Lemma mask_fecha_invalida_rows f :
  mask_fecha_invalida f = (λ x, fecha_invalida x.2) <$> rows f.
Proof.
  unfold mask_fecha_invalida, column.
  rewrite rows_df_work_2, <- !list_fmap_compose. apply list_fmap_ext.
  intros _ [l r] _. unfold fecha_invalida. simpl. by row_lookup.
Qed.

Lemma mask_or_fmap {A} (p q : A → bool) (xs : list A) :
  mask_or (p <$> xs) (q <$> xs) = (λ x, p x || q x) <$> xs.
Proof.
  unfold mask_or. by rewrite zip_with_fmap_l, zip_with_fmap_r, zip_with_diag.
Qed.

Lemma mask_cantidad_invalida_rows f :
  mask_cantidad_invalida f = (λ x, cantidad_invalida x.2) <$> rows f.
Proof.
  unfold mask_cantidad_invalida, column.
  rewrite rows_df_work_3, <- !list_fmap_compose, mask_or_fmap.
  apply list_fmap_ext. intros _ [l r] _.
  unfold cantidad_invalida, numero_invalido. simpl. by row_lookup.
Qed.

Lemma mask_precio_invalido_rows f :
  mask_precio_invalido f = (λ x, precio_invalido x.2) <$> rows f.
Proof.
  unfold mask_precio_invalido, column.
  rewrite rows_df_work_3, <- !list_fmap_compose, mask_or_fmap.
  apply list_fmap_ext. intros _ [l r] _.
  unfold precio_invalido, numero_invalido. simpl. by row_lookup.
Qed.

Lemma mask_producto_no_encontrado_rows pm f :
  mask_producto_no_encontrado pm f
  = (λ x, producto_no_encontrado pm x.2) <$> rows f.
Proof.
  unfold mask_producto_no_encontrado, column.
  rewrite rows_df_work_5, <- !list_fmap_compose. apply list_fmap_ext.
  intros _ [l r] _. unfold producto_no_encontrado. simpl.
  by rewrite work_row_producto_id.
Qed.

Lemma select_fmap_filter {A B} (p : A → bool) (g : A → B) (xs : list A) :
  select (p <$> xs) (g <$> xs) = g <$> filter (λ x, p x) xs.
Proof.
  induction xs as [|x xs IH]; [done|]. cbn [fmap list_fmap select].
  rewrite filter_cons. destruct (decide (p x)) as [Hp|Hp].
  - apply Is_true_true in Hp. by rewrite Hp, fmap_cons, <- IH.
  - apply Is_true_false in Hp. by rewrite Hp.
Qed.

Lemma select_filter {A} (p : A → bool) (xs : list A) :
  select (p <$> xs) xs = filter (λ x, p x) xs.
Proof.
  rewrite <- (list_fmap_id xs) at 2. by rewrite select_fmap_filter, list_fmap_id.
Qed.

Lemma mask_sum_fmap {A} (p : A → bool) (xs : list A) :
  mask_sum (p <$> xs) = length (filter (λ x, p x) xs).
Proof.
  unfold mask_sum. induction xs as [|x xs IH]; [done|].
  rewrite fmap_cons, !filter_cons. cbn beta.
  destruct (p x); simpl; by rewrite IH.
Qed.

(** The labels that reach [rejected_rows] are those of the rows that fail
    a rule. *)
Lemma elem_of_select_fmap {A} (p : A → bool) (xs : list (Z * A)) l :
  l ∈ select ((λ x, p x.2) <$> xs) xs.*1 ↔ ∃ a, (l, a) ∈ xs ∧ p a = true.
Proof.
  rewrite select_fmap_filter, list_elem_of_fmap. split.
  - intros ([l' a] & -> & [Hp Hin]%list_elem_of_filter). exists a.
    by apply Is_true_true in Hp.
  - intros (a & Hin & Hp). exists (l, a). split; [done|].
    apply list_elem_of_filter. split; [|done]. simpl. by rewrite Hp.
Qed.

Lemma elem_of_rejected_rows pm f l :
  l ∈ rejected_rows pm f ↔ ∃ r, (l, r) ∈ rows f ∧ marked pm r = true.
Proof.
  unfold rejected_rows, index, marked.
  rewrite mask_fecha_invalida_rows, mask_cantidad_invalida_rows,
    mask_precio_invalido_rows, mask_producto_no_encontrado_rows.
  rewrite !elem_of_app, !elem_of_select_fmap. split.
  - intros [Hl|[Hl|[Hl|Hl]]]; destruct Hl as (r & Hin & Hp);
      exists r; rewrite Hp, ?orb_true_r; done.
  - intros (r & Hin & Hm).
    destruct (fecha_invalida r) eqn:H2; [left; eauto|].
    destruct (cantidad_invalida r) eqn:H3; [right; left; eauto|].
    destruct (precio_invalido r) eqn:H4; [right; right; left; eauto|].
    right; right; right; eauto.
Qed.

Lemma elem_of_all_rejected pm f l :
  l ∈ all_rejected pm f ↔ ∃ r, (l, r) ∈ rows f ∧ marked pm r = true.
Proof.
  unfold all_rejected. by rewrite elem_of_elements, elem_of_list_to_set,
    elem_of_rejected_rows.
Qed.

Lemma rows_df_rejected pm f :
  rows (df_rejected pm f) = filter (λ x, x.1 ∈ all_rejected pm f) (rows f).
Proof.
  unfold df_rejected, getitem_mask, isin, index. simpl.
  rewrite <- list_fmap_compose, select_filter.
  apply list_filter_iff. intros x. simpl. by rewrite bool_decide_spec.
Qed.

(** *** Duplicates *)

Lemma select_duplicated {A K} `{EqDecision K} (key : A → K) seen (xs : list A) :
  select (mask_not (duplicated_from seen (key <$> xs))) xs = keep_first key seen xs.
Proof.
  unfold mask_not. revert seen.
  induction xs as [|x xs IH]; intros seen; [done|].
  rewrite fmap_cons. cbn [duplicated_from].
  cbn [keep_first]. destruct (decide (key x ∈ seen)).
  - rewrite fmap_cons. cbn [select negb]. apply IH.
  - rewrite fmap_cons. cbn [select negb]. f_equal. apply IH.
Qed.

Lemma keep_first_fmap {A B K} `{EqDecision K} (key : B → K) (g : A → B) seen xs :
  keep_first key seen (g <$> xs) = g <$> keep_first (λ x, key (g x)) seen xs.
Proof.
  revert seen. induction xs as [|x xs IH]; intros seen; [done|].
  cbn [fmap list_fmap keep_first]. case_decide; by rewrite IH.
Qed.

Lemma keep_first_ext {A K} `{EqDecision K} (key key' : A → K) seen xs :
  (∀ x, key x = key' x) → keep_first key seen xs = keep_first key' seen xs.
Proof.
  intros Hk. revert seen. induction xs as [|x xs IH]; intros seen; [done|].
  simpl. rewrite Hk. case_decide; by rewrite IH.
Qed.

Lemma keep_first_sublist {A K} `{EqDecision K} (key : A → K) seen xs :
  keep_first key seen xs `sublist_of` xs.
Proof.
  revert seen. induction xs as [|x xs IH]; intros seen; [done|]. simpl.
  case_decide; [by apply sublist_cons | by apply sublist_skip].
Qed.

Lemma elem_of_keep_first {A K} `{EqDecision K} (key : A → K) seen xs x :
  x ∈ keep_first key seen xs → x ∈ xs ∧ key x ∉ seen.
Proof.
  revert seen. induction xs as [|y xs IH]; intros seen; simpl.
  { by intros ?%elem_of_nil. }
  case_decide as Hy.
  - intros [? ?]%IH. split; [by apply elem_of_cons; right | done].
  - intros [->|[? Hs]%IH]%elem_of_cons.
    + split; [by apply elem_of_cons; left | done].
    + split; [by apply elem_of_cons; right|].
      intros ?. apply Hs. apply elem_of_cons. by right.
Qed.

(** A row is kept exactly when it is the first row with its key. *)
Lemma keep_first_lookup {A K} `{EqDecision K} (key : A → K) seen xs n x :
  NoDup xs → xs !! n = Some x →
  (x ∈ keep_first key seen xs ↔
   (key x ∉ seen) ∧ (∀ m y, (m < n)%nat → xs !! m = Some y → key y ≠ key x)).
Proof.
  revert seen n. induction xs as [|y xs IH]; intros seen n Hnd Hn; [done|].
  apply NoDup_cons in Hnd as [Hy Hnd]. destruct n as [|n]; simpl in *.
  - injection Hn as ->. case_decide as Hs.
    + split; [by intros [_ ?]%elem_of_keep_first | by intros [? _]].
    + split; [|intros _; by apply elem_of_cons; left].
      intros _. split; [done|]. intros m ? ?. lia.
  - assert (x ≠ y) as Hxy.
    { intros ->. apply Hy. by eapply list_elem_of_lookup_2. }
    case_decide as Hs.
    + rewrite (IH _ n) by done. split.
      * intros [Hx Hbefore]. split; [done|]. intros [|m] y' Hm Hy'; simpl in *.
        -- injection Hy' as <-. intros Heq. apply Hx. by rewrite <- Heq.
        -- apply (Hbefore m); [lia|done].
      * intros [Hx Hbefore]. split; [done|]. intros m y' Hm Hy'.
        apply (Hbefore (S m)); [lia|done].
    + rewrite elem_of_cons, (IH _ n) by done. split.
      * intros [?|[Hx Hbefore]]; [done|]. split.
        -- intros ?. apply Hx. apply elem_of_cons. by right.
        -- intros [|m] y' Hm Hy'; simpl in *.
           ++ injection Hy' as <-. intros Heq. apply Hx. rewrite Heq.
              apply elem_of_cons. by left.
           ++ apply (Hbefore m); [lia|done].
      * intros [Hx Hbefore]. right. split.
        -- intros [Heq|?]%elem_of_cons; [|done].
           by apply (Hbefore 0%nat y); [lia|done|].
        -- intros m y' Hm Hy'. apply (Hbefore (S m)); [lia|done].
Qed.

Lemma lookup_lt_Forall_take {A} (P : A → Prop) (xs : list A) n :
  Forall P (take n xs) → ∀ m y, (m < n)%nat → xs !! m = Some y → P y.
Proof.
  intros Hall m y Hm Hy. apply (proj1 (Forall_lookup _ _) Hall m y).
  by rewrite lookup_take_lt.
Qed.

(** The same by position, for every list, also one in which an element
    occurs twice: the kept elements are those at the positions [kept],
    which increase, and position [n] is kept exactly when no earlier
    position has its key. *)
Lemma keep_first_positions {A K} `{EqDecision K} (key : A → K) seen xs :
  ∃ kept : list nat,
    StronglySorted lt kept ∧
    Forall2 (λ n x, xs !! n = Some x) kept (keep_first key seen xs) ∧
    ∀ n x, xs !! n = Some x →
      (n ∈ kept ↔
       (key x ∉ seen) ∧
       (∀ m y, (m < n)%nat → xs !! m = Some y → key y ≠ key x)).
Proof.
  revert seen. induction xs as [|y xs IH]; intros seen.
  { exists []. split; [constructor|]. split; [constructor|]. by intros n x. }
  cbn [keep_first]. destruct (decide (key y ∈ seen)) as [Hs|Hs].
  - destruct (IH seen) as (kept & Hsorted & Hkept & Hiff).
    exists (S <$> kept). split; [|split].
    + apply (StronglySorted_fmap S lt lt); [intros; lia | done].
    + by apply Forall2_fmap_l.
    + intros [|n] x Hn; cbn [lookup list_lookup] in Hn.
      * injection Hn as ->. split; [|by intros [? _]].
        by intros (? & ? & _)%list_elem_of_fmap.
      * rewrite (list_elem_of_fmap_inj S), (Hiff n x Hn). split.
        -- intros [Hx Hbefore]. split; [done|]. intros [|m] y' Hm Hy'.
           ++ injection Hy' as <-. intros Heq. apply Hx. by rewrite <- Heq.
           ++ apply (Hbefore m); [lia|done].
        -- intros [Hx Hbefore]. split; [done|]. intros m y' Hm Hy'.
           apply (Hbefore (S m)); [lia|done].
  - destruct (IH (key y :: seen)) as (kept & Hsorted & Hkept & Hiff).
    exists (0%nat :: (S <$> kept)). split; [|split].
    + constructor.
      * apply (StronglySorted_fmap S lt lt); [intros; lia | done].
      * apply Forall_fmap, Forall_true. intros n. simpl. lia.
    + constructor; [done|]. by apply Forall2_fmap_l.
    + intros [|n] x Hn; cbn [lookup list_lookup] in Hn.
      * injection Hn as ->. split; [|intros _; by apply elem_of_cons; left].
        intros _. split; [done|]. intros m ? ?. lia.
      * rewrite elem_of_cons, (list_elem_of_fmap_inj S), (Hiff n x Hn). split.
        -- intros [?|[Hx Hbefore]]; [done|]. split.
           ++ intros ?. apply Hx. apply elem_of_cons. by right.
           ++ intros [|m] y' Hm Hy'.
              ** injection Hy' as <-. intros Heq. apply Hx. rewrite Heq.
                 apply elem_of_cons. by left.
              ** apply (Hbefore m); [lia|done].
        -- intros [Hx Hbefore]. right. split.
           ++ intros [Heq|?]%elem_of_cons; [|done].
              by apply (Hbefore 0%nat y); [lia|done|].
           ++ intros m y' Hm Hy'. apply (Hbefore (S m)); [lia|done].
Qed.

Definition labelled_work_row pm (x : Z * gmap string cell) : Z * gmap string cell :=
  (x.1, work_row pm x.2).

(** The rows of the input that survive step 6. *)
Definition survivors f : list (Z * gmap string cell) :=
  keep_first (λ x, dedup_key x.2) [] (rows f).

Lemma rows_df_work_6 pm f :
  rows (df_work_6 pm f) = labelled_work_row pm <$> survivors f.
Proof.
  unfold df_work_6, drop_duplicates, getitem_mask, duplicated, survivors.
  cbn [rows]. rewrite select_duplicated, rows_df_work_5.
  change (λ r : Z * gmap string cell, (r.1, work_row pm r.2))
    with (labelled_work_row pm).
  rewrite keep_first_fmap. f_equal. apply keep_first_ext.
  intros x. apply row_key_work_row.
Qed.

Lemma index_df_work_6 pm f : index (df_work_6 pm f) = (survivors f).*1.
Proof.
  unfold index. rewrite rows_df_work_6, <- list_fmap_compose.
  by apply list_fmap_ext.
Qed.

(** The rows of the input that reach the accepted output. *)
Definition accepted pm f : list (Z * gmap string cell) :=
  filter (λ x, x.1 ∉ all_rejected pm f) (survivors f).

Lemma rows_df_clean_7 pm f :
  rows (df_clean_7 pm f) = labelled_work_row pm <$> accepted pm f.
Proof.
  unfold df_clean_7, getitem_mask, mask_not, isin, accepted. cbn [rows].
  rewrite index_df_work_6, rows_df_work_6, <- !list_fmap_compose.
  rewrite select_fmap_filter. f_equal.
  apply list_filter_iff. intros x. simpl.
  by rewrite negb_True, bool_decide_spec.
Qed.

(** A row of the accepted output, from the row of the input. *)
Definition clean_row pm r : gmap string cell :=
  let w := work_row pm r in
  let w := <["total" := cell_mul (w !!! "cantidad") (w !!! "precio_unitario")]> w in
  <["fecha" := match w !!! "fecha_parsed" with
               | Date d => Str (strftime_Ymd d)
               | _ => Null
               end]> w.

Definition output_row pm r : gmap string cell :=
  list_to_map ((λ c, (c, clean_row pm r !!! c)) <$> columnas_finales).

Lemma rows_df_output pm f :
  rows (df_output pm f) = (λ x, (x.1, output_row pm x.2)) <$> accepted pm f.
Proof.
  unfold df_output, project, df_clean_9, df_clean_8. cbn [rows].
  rewrite !rows_assign, rows_df_clean_7, <- !list_fmap_compose.
  by apply list_fmap_ext.
Qed.

Lemma index_df_output pm f : index (df_output pm f) = (accepted pm f).*1.
Proof.
  unfold index. rewrite rows_df_output, <- list_fmap_compose.
  by apply list_fmap_ext.
Qed.

(** *** Frames whose index labels are all different *)

Lemma NoDup_index_inj {A} (xs : list (Z * A)) i a a' :
  NoDup xs.*1 → (i, a) ∈ xs → (i, a') ∈ xs → a = a'.
Proof.
  intros Hnd [n Hn]%list_elem_of_lookup [m Hm]%list_elem_of_lookup.
  assert (n = m) as ->.
  { apply (NoDup_lookup xs.*1 n m i Hnd); by rewrite list_lookup_fmap, ?Hn, ?Hm. }
  congruence.
Qed.

Lemma elem_of_index_sub {A} (xs sub : list (Z * A)) i a :
  NoDup xs.*1 → (∀ x, x ∈ sub → x ∈ xs) → (i, a) ∈ xs →
  i ∈ sub.*1 ↔ (i, a) ∈ sub.
Proof.
  intros Hnd Hsub Hin. rewrite list_elem_of_fmap. split.
  - intros ([i' a'] & -> & Hx). simpl.
    by rewrite (NoDup_index_inj xs i' a a' Hnd Hin (Hsub _ Hx)).
  - intros ?. by exists (i, a).
Qed.

Lemma survivors_sublist f : survivors f `sublist_of` rows f.
Proof. apply keep_first_sublist. Qed.

Lemma accepted_sublist pm f : accepted pm f `sublist_of` survivors f.
Proof. apply sublist_filter. Qed.

(** The positions of the batch that survive step 6, whatever the labels. *)
Lemma survivors_positions f :
  ∃ kept : list nat,
    StronglySorted lt kept ∧
    Forall2 (λ n x, rows f !! n = Some x) kept (survivors f) ∧
    ∀ n i raw, rows f !! n = Some (i, raw) →
      (n ∈ kept ↔
       ∀ m j raw', (m < n)%nat → rows f !! m = Some (j, raw') →
                   dedup_key raw' ≠ dedup_key raw).
Proof.
  destruct (keep_first_positions (λ x : Z * gmap string cell, dedup_key x.2)
              [] (rows f)) as (kept & Hsorted & Hkept & Hiff).
  exists kept. split; [done|]. split; [done|].
  intros n i raw Hn. rewrite (Hiff n (i, raw) Hn). split.
  - intros [_ Hb] m j raw' Hm Hj. by apply (Hb m (j, raw')).
  - intros Hb. split; [by intros ?%elem_of_nil|].
    intros m [j raw'] Hm Hj. by eapply Hb.
Qed.

(** With labels all different, a label survives step 6 exactly when no
    earlier row has the key of its row. *)
Lemma elem_of_index_survivors f n i raw :
  NoDup (index f) → rows f !! n = Some (i, raw) →
  i ∈ (survivors f).*1 ↔
  ∀ m j raw', (m < n)%nat → rows f !! m = Some (j, raw') →
              dedup_key raw' ≠ dedup_key raw.
Proof.
  intros Hnd Hn.
  rewrite (elem_of_index_sub (rows f) _ i raw Hnd).
  - unfold survivors.
    rewrite (keep_first_lookup _ [] (rows f) n (i, raw))
      by (by eapply NoDup_fmap_1 || done).
    split.
    + intros [_ Hb] m j raw' Hm Hj. by apply (Hb m (j, raw')).
    + intros Hb. split; [by intros ?%elem_of_nil|].
      intros m [j raw'] Hm Hj. by eapply Hb.
  - intros x Hx. by eapply elem_of_sublist, survivors_sublist.
  - by eapply list_elem_of_lookup_2.
Qed.

Lemma not_elem_of_index_survivors f n i raw :
  NoDup (index f) → rows f !! n = Some (i, raw) →
  i ∉ (survivors f).*1 ↔
  ∃ m j raw', (m < n)%nat ∧ rows f !! m = Some (j, raw') ∧
              dedup_key raw' = dedup_key raw.
Proof.
  intros Hnd Hn. rewrite (elem_of_index_survivors f n i raw) by done. split.
  - intros Hnot.
    assert (¬ Forall (λ y, dedup_key y.2 ≠ dedup_key raw) (take n (rows f)))
      as Hex.
    { intros Hall. apply Hnot. intros m j raw' Hm Hj.
      apply (proj1 (Forall_lookup _ _) Hall m (j, raw')).
      by rewrite lookup_take_lt. }
    apply not_Forall_Exists in Hex; [|apply _].
    apply Exists_exists in Hex as ([j raw'] & [m Hm]%list_elem_of_lookup & Hk).
    apply lookup_take_Some in Hm as [Hm Hlt]. exists m, j, raw'.
    split; [done|]. split; [done|].
    simpl in Hk. by destruct (decide (dedup_key raw' = dedup_key raw)).
  - intros (m & j & raw' & Hm & Hj & Hk) Hall. by apply (Hall m j raw').
Qed.

Lemma filter_iff_in {A} (P Q : A → Prop) `{∀ x, Decision (P x)}
    `{∀ x, Decision (Q x)} (xs : list A) :
  (∀ x, x ∈ xs → P x ↔ Q x) → filter P xs = filter Q xs.
Proof.
  induction xs as [|x xs IH]; intros HPQ; [done|].
  rewrite !filter_cons.
  assert (P x ↔ Q x) as Hx by (apply HPQ; by apply elem_of_cons; left).
  rewrite IH by (intros y Hy; apply HPQ; by apply elem_of_cons; right).
  destruct (decide (P x)), (decide (Q x)); tauto || done.
Qed.

(** With labels all different, the rejected output holds the rows that
    fail a rule. *)
Lemma rows_df_rejected_marked pm f :
  NoDup (index f) →
  rows (df_rejected pm f) = filter (λ x, marked pm x.2) (rows f).
Proof.
  intros Hnd. rewrite rows_df_rejected. apply filter_iff_in.
  intros [i raw] Hin. simpl. rewrite elem_of_all_rejected. split.
  - intros (raw' & Hin' & Hm).
    by rewrite (NoDup_index_inj (rows f) i raw raw' Hnd Hin Hin'), Hm.
  - intros Hm. exists raw. split; [done|]. by apply Is_true_true.
Qed.

(** The number of rules that a row fails. *)
Definition rules_failed pm (r : gmap string cell) : nat :=
  Nat.b2n (fecha_invalida r) + Nat.b2n (cantidad_invalida r)
  + Nat.b2n (precio_invalido r) + Nat.b2n (producto_no_encontrado pm r).

Lemma count_rules pm (xs : list (Z * gmap string cell)) :
  (length (filter (λ x, fecha_invalida x.2) xs)
   + length (filter (λ x, cantidad_invalida x.2) xs)
   + length (filter (λ x, precio_invalido x.2) xs)
   + length (filter (λ x, producto_no_encontrado pm x.2) xs)
   = sum_list ((λ x, rules_failed pm x.2) <$> xs))%nat.
Proof.
  induction xs as [|x xs IH]; [done|].
  rewrite fmap_cons, !filter_cons. cbn [sum_list]. rewrite <- IH.
  unfold rules_failed. cbn beta.
  destruct (fecha_invalida x.2), (cantidad_invalida x.2),
    (precio_invalido x.2), (producto_no_encontrado pm x.2); simpl; lia.
Qed.

Lemma count_marked pm (xs : list (Z * gmap string cell)) :
  (length (filter (λ x, marked pm x.2) xs)
   ≤ sum_list ((λ x, rules_failed pm x.2) <$> xs))%nat ∧
  ((∃ x, x ∈ xs ∧ 2 ≤ rules_failed pm x.2)%nat →
   (length (filter (λ x, marked pm x.2) xs)
    < sum_list ((λ x, rules_failed pm x.2) <$> xs))%nat).
Proof.
  induction xs as [|x xs [IH1 IH2]].
  { split; [done|]. by intros (x & ?%elem_of_nil & _). }
  rewrite fmap_cons, filter_cons. cbn [sum_list sum_list_with id]. cbn beta.
  assert (length (if decide (marked pm x.2)
                  then x :: filter (λ x, marked pm x.2) xs
                  else filter (λ x, marked pm x.2) xs)
          = Nat.b2n (marked pm x.2) + length (filter (λ x, marked pm x.2) xs))%nat
    as ->.
  { by destruct (marked pm x.2). }
  assert (Nat.b2n (marked pm x.2) ≤ rules_failed pm x.2)%nat as Hx.
  { unfold marked, rules_failed.
    destruct (fecha_invalida x.2), (cantidad_invalida x.2),
      (precio_invalido x.2), (producto_no_encontrado pm x.2); simpl; lia. }
  split; [lia|]. intros (y & [->|Hy]%elem_of_cons & H2).
  - assert (Nat.b2n (marked pm x.2) ≤ 1)%nat by (destruct (marked pm x.2); simpl; lia).
    lia.
  - assert (length (filter (λ x, marked pm x.2) xs)
            < sum_list ((λ x, rules_failed pm x.2) <$> xs))%nat
      by (apply IH2; by exists y).
    lia.
Qed.
End Rows.

(** ** Product names *)

Section Names.
Context `{Unicode} `{Numeric} `{Pandas}.
Local Abbreviation dict := (list (pystr * cell)).
Implicit Types (pm : dict) (name k : pystr) (v : cell).

(** The normal form of a product name: [name.lower().strip()]. *)
Definition normalize name : pystr := strip (str_lower name).

Lemma normalize_idemp name : normalize (normalize name) = normalize name.
Proof.
  unfold normalize. by rewrite str_lower_strip, strip_idemp, str_lower_idemp.
Qed.

(** The key under which a cleaned name is looked up. *)
Lemma normalize_collapse name :
  normalize (collapse (strip name)) = collapse (str_lower name).
Proof.
  unfold normalize.
  by rewrite str_lower_collapse, strip_collapse, str_lower_strip, collapse_strip.
Qed.

Lemma str_lower_nil : str_lower [] = [].
Proof. by rewrite str_lower_latin1 by constructor. Qed.

Lemma clean_string_Str name : clean_string (Str name) = Str (collapse (strip name)).
Proof. done. Qed.

Lemma clean_string_cases v :
  clean_string v = Str [] ∨ clean_string v = Str (collapse (strip (py_str v))).
Proof. unfold clean_string. destruct (isna v); auto. Qed.

Lemma clean_string_no_run v s :
  clean_string v = Str s → ws_run (normalize s) = false.
Proof.
  destruct (clean_string_cases v) as [-> | ->]; intros [= <-].
  - unfold normalize. by rewrite str_lower_nil.
  - rewrite normalize_collapse. apply ws_run_collapse.
Qed.

Lemma productos_map_lower_snoc pm k v :
  productos_map_lower (pm ++ [(k, v)])
  = <[normalize k := v]> (productos_map_lower pm).
Proof. unfold productos_map_lower. by rewrite foldl_app. Qed.

Lemma productos_map_lower_lookup pm key v :
  productos_map_lower pm !! key = Some v →
  ∃ k, (k, v) ∈ pm ∧ normalize k = key.
Proof.
  induction pm as [|[k v'] pm IH] using rev_ind; [done|].
  rewrite productos_map_lower_snoc.
  destruct (decide (normalize k = key)) as [<-|Hne].
  - rewrite lookup_insert_eq. intros [= ->]. exists k.
    split; [|done]. apply elem_of_app. right. by apply list_elem_of_singleton.
  - rewrite lookup_insert_ne by done. intros (k' & Hin & Hk)%IH.
    exists k'. split; [|done]. apply elem_of_app. by left.
Qed.

(** Keys whose normal form has a run of white space are dead entries:
    without them every run-free key is looked up the same. *)
Lemma productos_map_lower_filter pm key :
  ws_run key = false →
  productos_map_lower (filter (λ kv, ws_run (normalize kv.1) = false) pm) !! key
  = productos_map_lower pm !! key.
Proof.
  intros Hkey. induction pm as [|[k v] pm IH] using rev_ind; [done|].
  rewrite filter_app, productos_map_lower_snoc, filter_cons, filter_nil.
  destruct (decide (normalize k = key)) as [<-|Hne].
  - rewrite decide_True by done.
    by rewrite productos_map_lower_snoc, !lookup_insert_eq.
  - rewrite lookup_insert_ne by done. case_decide.
    + by rewrite productos_map_lower_snoc, lookup_insert_ne.
    + by rewrite app_nil_r.
Qed.
End Names.

(** * The claims *)

Section Claims.
Context `{Unicode} `{Numeric} `{Pandas}.
Local Abbreviation dict := (list (pystr * cell)).
Local Abbreviation loc := nat.
Local Abbreviation heap := (list DataFrame).
Implicit Types (f : DataFrame) (h : heap) (l : loc) (pm : dict)
  (r : gmap string cell) (v : cell).

(** C5. [parse_date_flexible] is the Date Resolver of the specification:
    a missing, null or empty value gives [None]; any other value is
    trimmed and tried against the six patterns YYYY-MM-DD, DD/MM/YYYY,
    MM/DD/YYYY, DD-MM-YYYY, MM-DD-YYYY, YYYY/MM/DD in this order, the
    first pattern that parses the whole text gives the date, and [None]
    is returned when none does. It never raises, and "03/04/2024" is the
    3rd of April (DD/MM/YYYY), not the 4th of March. *)
Theorem parse_date_flexible_first_match :
  formats = spec_patterns ∧
  (∀ v, parse_date_flexible v = Returns (date_resolver v)) ∧
  (∀ v, isna v = true ∨ v = Str [] → parse_date_flexible v = Returns Null) ∧
  (∀ v fmt d before after,
     isna v = false → v ≠ Str [] →
     formats = before ++ fmt :: after →
     Forall (λ fmt', strptime (strip (py_str v)) fmt' = Raises ValueError) before →
     strptime (strip (py_str v)) fmt = Returns d →
     parse_date_flexible v = Returns (Date d)) ∧
  (∀ v,
     Forall (λ fmt, strptime (strip (py_str v)) fmt = Raises ValueError) formats →
     parse_date_flexible v = Returns Null) ∧
  parse_date_flexible (Str (py "03/04/2024")) = Returns (Date (mk_datetime 2024 4 3)) ∧
  strptime (py "03/04/2024") "%m/%d/%Y" = Returns (mk_datetime 2024 3 4).
Proof.
  split; [done|]. split; [apply parse_date_flexible_resolver|].
  split; [|split; [|split; [|split]]].
  - intros v Hv. unfold parse_date_flexible.
    destruct Hv as [-> | ->]; [done|]. by rewrite orb_true_r.
  - intros v fmt d before after Hna Hne Heq Hbefore Hfmt.
    unfold parse_date_flexible.
    rewrite Hna, bool_decide_eq_false_2, Heq by done.
    cbn [orb]. clear Heq.
    induction Hbefore as [|fmt' before Hf _ IH]; cbn [app try_formats].
    + by rewrite Hfmt.
    + rewrite Hf. apply IH.
  - intros v Hall. unfold parse_date_flexible.
    destruct (isna v || bool_decide (v = Str [])); [done|].
    induction Hall as [|fmt fmts Hf _ IH]; cbn [try_formats]; [done|].
    rewrite Hf. apply IH.
  - by vm_compute.
  - by vm_compute.
Qed.

(** A row with the six fields of the specification, and the frame that
    [pd.read_csv] builds from such rows. *)
Definition mk_row (fecha producto cantidad precio_unitario tienda vendedor : cell)
  : gmap string cell :=
  list_to_map [("fecha", fecha); ("producto", producto); ("cantidad", cantidad);
               ("precio_unitario", precio_unitario); ("tienda", tienda);
               ("vendedor", vendedor)].

Definition csv_columns : list (string * dtype) :=
  (λ c, (c, dt_other)) <$> required_columns.

Definition csv_frame (rs : list (gmap string cell)) : DataFrame :=
  mk_DataFrame csv_columns (zip (Z.of_nat <$> seq 0 (length rs)) rs).

Lemma csv_frame_required rs :
  Forall (λ c, c ∈ column_names (csv_frame rs)) required_columns.
Proof. by apply Forall_forall. Qed.

(** Scenario A of the specification, with a store and a salesperson. *)
Definition scenario_A : DataFrame :=
  csv_frame [mk_row (Str (py "2024-13-45")) (Str (py "X")) (Str (py "2"))
               (Str (py "5")) (Str (py "Centro")) (Str (py "Ana"))].

(** C2 (what the code does). For an absent batch and for a batch without
    rows [transform_ventas] raises [TypeError]: the error result is built
    with the keyword [success], and the field of the dataclass is
    [succes]. No [TransformResult] is returned. *)
Theorem transform_ventas_empty_raises pm h cols :
  transform_ventas None pm h = (Raises TypeError, h) ∧
  transform_ventas (Some (length h)) pm (h ++ [mk_DataFrame cols []])
  = (Raises TypeError, h ++ [mk_DataFrame cols []]).
Proof.
  split; [done|]. unfold transform_ventas.
  by erewrite run_bind by apply run_deref, lookup_top.
Qed.

(** A batch in which no date can be resolved: the column [fecha_parsed]
    holds [None] only, keeps the dtype [object], and line 159 raises. *)
Lemma transform_ventas_no_date_raises pm h l f :
  h !! l = Some f → df_empty f = false →
  Forall (λ c, c ∈ column_names f) required_columns →
  Forall (λ x, date_resolver (x.2 !!! "fecha") = Null) (rows f) →
  (transform_ventas (Some l) pm h).1 = Raises AttributeError.
Proof.
  intros Hl Hne Hreq Hnull. rewrite (transform_ventas_run h l f) by done.
  replace (fecha_parsed_dtype f) with dt_other; [done|].
  symmetry. apply infer_dtype_no_date.
  rewrite rows_df_work_1, <- list_fmap_compose.
  apply Forall_fmap, Forall_impl with (1 := Hnull).
  intros [i r] Hr. simpl in *.
  replace (work_row_1 r !!! "fecha") with (r !!! "fecha"); [by rewrite Hr|].
  unfold work_row_1. cbv zeta. by rewrite !lookup_total_insert_ne by done.
Qed.

(** C3 (what the code does). On the batch of scenario A, whose single row
    has the date "2024-13-45", [transform_ventas] raises
    [AttributeError]; the row is not returned as rejected. *)
Theorem transform_ventas_scenario_A_raises pm h :
  (transform_ventas (Some (length h)) pm (h ++ [scenario_A])).1
  = Raises AttributeError.
Proof.
  apply (transform_ventas_no_date_raises pm _ _ scenario_A).
  - apply lookup_top.
  - done.
  - apply csv_frame_required.
  - constructor; [by vm_compute | constructor].
Qed.

(** "Café Negro", " café negro " and "CAFÉ NEGRO" *)
Definition cafe_negro_1 : pystr := py "Caf" ++ [233%N] ++ py " Negro".
Definition cafe_negro_2 : pystr := py " caf" ++ [233%N] ++ py " negro ".
Definition cafe_negro_3 : pystr := py "CAF" ++ [201%N] ++ py " NEGRO".

Lemma normalize_latin1 name :
  Forall (λ c, (c < 256)%N) name → normalize name = strip (latin1_lower <$> name).
Proof. intros Hn. unfold normalize. by rewrite str_lower_latin1. Qed.

Lemma normalize_cafe_negro :
  normalize cafe_negro_1 = py "caf" ++ [233%N] ++ py " negro" ∧
  normalize cafe_negro_2 = py "caf" ++ [233%N] ++ py " negro" ∧
  normalize cafe_negro_3 = py "caf" ++ [233%N] ++ py " negro".
Proof.
  repeat split; (rewrite normalize_latin1; [by vm_compute|]);
    apply Forall_forall; intros c Hc; vm_compute in Hc;
    repeat (apply elem_of_cons in Hc as [->|Hc]; [done|]);
    by apply elem_of_nil in Hc.
Qed.

(** The key under which a missing name is looked up: [clean_string]
    turns it into the empty text, whose normal form is empty. *)
Lemma normalize_nil : normalize [] = [].
Proof. unfold normalize. by rewrite str_lower_nil. Qed.

Lemma map_producto_missing pm :
  map_producto pm (clean_string Null)
  = Returns (default Null (productos_map_lower pm !! [])).
Proof.
  change (clean_string Null) with (Str []). unfold map_producto. cbn [isna].
  fold (normalize []). by rewrite normalize_nil.
Qed.

Lemma producto_no_encontrado_missing pm row :
  row !!! "producto" = Null →
  producto_no_encontrado pm row
  = isna (default Null (productos_map_lower pm !! [])).
Proof.
  intros Hrow. unfold producto_no_encontrado. rewrite Hrow.
  change (clean_string Null) with (Str []). cbn [lookup_producto].
  fold (normalize []). by rewrite normalize_nil.
Qed.

(** C7, as the code has it. Product resolution ([map_producto], alone
    and after [clean_string]) does not see letter case or surrounding
    white space: a name and its normal form (lower case, trimmed) resolve
    alike, two names with the same normal form resolve alike, and in
    [transform_ventas], where names are cleaned first, two names that are
    equal up to case and white space resolve alike. "Café Negro",
    " café negro " and "CAFÉ NEGRO" have one normal form, and resolve to
    the identifier of that product in a map that has it. Called on a
    missing name, [map_producto] gives not-found; but [transform_ventas]
    cleans the name first, which turns a missing name into the empty
    text, and the empty text is looked up like any other name: it
    resolves to what the map gives for the empty key, which is nothing
    when no key of the map has an empty normal form, and the identifier
    of the last key that is empty or made of white space when the map
    has one. *)
Theorem map_producto_case_whitespace pm :
  (∀ name, map_producto pm (Str (normalize name)) = map_producto pm (Str name)) ∧
  (∀ n1 n2, normalize n1 = normalize n2 →
     map_producto pm (Str n1) = map_producto pm (Str n2)) ∧
  (∀ n1 n2, collapse (str_lower n1) = collapse (str_lower n2) →
     map_producto pm (clean_string (Str n1)) = map_producto pm (clean_string (Str n2))) ∧
  (map_producto pm (Str cafe_negro_1) = map_producto pm (Str cafe_negro_2) ∧
   map_producto pm (Str cafe_negro_2) = map_producto pm (Str cafe_negro_3)) ∧
  (∀ id, Forall (λ name, map_producto [(cafe_negro_1, id)] (Str name)
                         = Returns id)
           [cafe_negro_1; cafe_negro_2; cafe_negro_3]) ∧
  map_producto pm Null = Returns Null ∧
  clean_string Null = Str [] ∧
  map_producto pm (clean_string Null)
  = Returns (default Null (productos_map_lower pm !! [])) ∧
  (∀ row, row !!! "producto" = Null →
     producto_no_encontrado pm row
     = isna (default Null (productos_map_lower pm !! []))) ∧
  ((∀ k id, (k, id) ∈ pm → normalize k ≠ []) →
   map_producto pm (clean_string Null) = Returns Null ∧
   ∀ row, row !!! "producto" = Null → producto_no_encontrado pm row = true) ∧
  (∀ k id, normalize k = [] →
     map_producto (pm ++ [(k, id)]) (clean_string Null) = Returns id ∧
     ∀ row, row !!! "producto" = Null →
            producto_no_encontrado (pm ++ [(k, id)]) row = isna id).
Proof.
  assert (∀ n1 n2, normalize n1 = normalize n2 →
            map_producto pm (Str n1) = map_producto pm (Str n2)) as Hnorm.
  { intros n1 n2 Hn. unfold map_producto. cbn [isna]. fold (normalize n1).
    fold (normalize n2). by rewrite Hn. }
  destruct normalize_cafe_negro as (Hc1 & Hc2 & Hc3).
  split; [intros name; apply Hnorm, normalize_idemp|].
  split; [done|].
  split.
  { intros n1 n2 Hn. rewrite !clean_string_Str. apply Hnorm.
    by rewrite !normalize_collapse. }
  split; [split; apply Hnorm; congruence|].
  split.
  { intros id. assert (∀ name, normalize name = normalize cafe_negro_1 →
      map_producto [(cafe_negro_1, id)] (Str name) = Returns id) as Hid.
    { intros name Hn. unfold map_producto. cbn [isna]. fold (normalize name).
      rewrite Hn. unfold productos_map_lower. cbn [foldl fst snd].
      fold (normalize cafe_negro_1). by rewrite lookup_insert_eq. }
    repeat constructor; apply Hid; congruence. }
  split; [done|]. split; [done|].
  split; [apply map_producto_missing|].
  split; [apply producto_no_encontrado_missing|].
  split.
  - intros Hkeys.
    assert (productos_map_lower pm !! [] = None) as Hnone.
    { destruct (productos_map_lower pm !! []) as [id|] eqn:Hlook; [|done].
      apply productos_map_lower_lookup in Hlook as (k & Hin & Hk).
      by destruct (Hkeys k id Hin). }
    split; [by rewrite map_producto_missing, Hnone|].
    intros row Hrow. by rewrite producto_no_encontrado_missing, Hnone.
  - intros k id Hk.
    assert (productos_map_lower (pm ++ [(k, id)]) !! [] = Some id) as Hsome.
    { by rewrite productos_map_lower_snoc, Hk, lookup_insert_eq. }
    split; [by rewrite map_producto_missing, Hsome|].
    intros row Hrow. by rewrite producto_no_encontrado_missing, Hsome.
Qed.

(** C10. A key of the product map whose normal form has two white-space
    characters in a row is never matched: every name that reaches the
    lookup has been cleaned, and a cleaned name has no such run. The map
    without these keys resolves every row alike, so a row that no other
    key matches is marked [producto_no_encontrado] and is in the rejected
    output; with such keys only, every row is. *)
Theorem keys_with_whitespace_run_never_match pm :
  (∀ k value s,
     ws_run (normalize k) = true → clean_string value = Str s →
     normalize s ≠ normalize k) ∧
  (∀ value,
     map_producto pm (clean_string value)
     = map_producto (filter (λ kv, ws_run (normalize kv.1) = false) pm)
         (clean_string value)) ∧
  (∀ row,
     (∀ k id s, (k, id) ∈ pm → clean_string (row !!! "producto") = Str s →
        normalize k = normalize s → ws_run (normalize k) = true) →
     producto_no_encontrado pm row = true) ∧
  (∀ row,
     Forall (λ kv, ws_run (normalize kv.1) = true) pm →
     producto_no_encontrado pm row = true) ∧
  (∀ h l f res h' i row,
     h !! l = Some f →
     Forall (λ c, c ∈ column_names f) required_columns →
     transform_ventas (Some l) pm h = (Returns res, h') →
     (i, row) ∈ rows f → producto_no_encontrado pm row = true →
     ∃ rej, rejected_data res = PFrame rej ∧ (i, row) ∈ rows rej).
Proof.
  assert (∀ row,
    (∀ k id s, (k, id) ∈ pm → clean_string (row !!! "producto") = Str s →
       normalize k = normalize s → ws_run (normalize k) = true) →
    producto_no_encontrado pm row = true) as Hrow.
  { intros row Hkeys. unfold producto_no_encontrado.
    destruct (clean_string_cases (row !!! "producto")) as [Hs|Hs];
      rewrite Hs; cbn [lookup_producto]; fold (normalize []);
      fold (normalize (collapse (strip (py_str (row !!! "producto")))));
      (destruct (productos_map_lower pm !! _) as [id|] eqn:Hlook; [|done]);
      apply productos_map_lower_lookup in Hlook as (k & Hin & Hk);
      specialize (Hkeys k id _ Hin Hs Hk);
      rewrite Hk in Hkeys;
      by rewrite (clean_string_no_run _ _ Hs) in Hkeys. }
  split; [|split; [|split; [done|split]]].
  - intros k value s Hrun Hs Heq.
    apply clean_string_no_run in Hs. congruence.
  - intros value. destruct (clean_string value) as [|s| |] eqn:Hs; try done.
    unfold map_producto. cbn [isna]. fold (normalize s).
    by rewrite productos_map_lower_filter by by eapply clean_string_no_run.
  - intros row Hall. apply Hrow. intros k id s Hin _ _.
    by apply (proj1 (Forall_forall _ _) Hall (k, id)).
  - intros h l f res h' i row Hl Hreq Hrun Hin Hnf.
    destruct (df_empty f) eqn:Hne.
    { unfold transform_ventas in Hrun.
      erewrite run_bind in Hrun by by apply run_deref. by rewrite Hne in Hrun. }
    rewrite (transform_ventas_run h l f) in Hrun by done.
    destruct (fecha_parsed_dtype f); [|done].
    injection Hrun as <- <-. eexists. split; [done|].
    rewrite rows_df_rejected. apply list_elem_of_filter. split; [|done].
    apply elem_of_all_rejected. exists row. split; [done|].
    unfold marked. by rewrite Hnf, !orb_true_r.
Qed.

(** What a run that returns has returned, and the frames it has left in
    the heap: the working copy before and after step 6, and the accepted
    frame. *)
Lemma transform_ventas_returns pm h l f res h' :
  h !! l = Some f →
  Forall (λ c, c ∈ column_names f) required_columns →
  transform_ventas (Some l) pm h = (Returns res, h') →
  res = result_of pm f ∧
  h' = h ++ [df_work_5 pm f; df_work_6 pm f; df_clean_9 pm f].
Proof.
  intros Hl Hreq Hrun. destruct (df_empty f) eqn:Hne.
  { unfold transform_ventas in Hrun.
    erewrite run_bind in Hrun by by apply run_deref. by rewrite Hne in Hrun. }
  rewrite (transform_ventas_run h l f) in Hrun by done.
  destruct (fecha_parsed_dtype f); [|done]. by injection Hrun as <- <-.
Qed.

(** C8. Whatever its outcome, [transform_ventas] leaves every frame that
    was in the heap before the call as it was, the batch among them; and
    the rejected output consists of rows of the batch itself, with its
    columns and in its order: the values as submitted, not the cleaned,
    coerced or derived ones. *)
Theorem transform_ventas_keeps_batch pm df h :
  (∀ l f, h !! l = Some f → (transform_ventas df pm h).2 !! l = Some f) ∧
  (∀ l f res h',
     df = Some l → h !! l = Some f →
     Forall (λ c, c ∈ column_names f) required_columns →
     transform_ventas df pm h = (Returns res, h') →
     ∃ rej, rejected_data res = PFrame rej ∧ columns rej = columns f ∧
            rows rej `sublist_of` rows f ∧
            h' !! l = Some f ∧ ∀ x, x ∈ rows rej → x ∈ rows f).
Proof.
  assert (∀ l f, h !! l = Some f → (transform_ventas df pm h).2 !! l = Some f)
    as Hkeep.
  { intros l f Hl.
    destruct (keeps_transform_ventas (length h) df pm h) as (Ht & _); [done|].
    rewrite firstn_all in Ht. rewrite <- Hl.
    rewrite <- (lookup_take_lt _ (length h)) by by eapply lookup_lt_Some.
    by rewrite Ht. }
  split; [done|]. intros l f res h' -> Hl Hreq Hrun.
  pose proof (Hkeep l f Hl) as Hl'. rewrite Hrun in Hl'.
  apply (transform_ventas_returns pm h l f) in Hrun as [-> ->]; [|done..].
  exists (df_rejected pm f). repeat split; [|done|].
  - rewrite rows_df_rejected. apply sublist_filter.
  - intros x. rewrite rows_df_rejected. by intros [_ ?]%list_elem_of_filter.
Qed.

Lemma strptime_valid (t : pystr) fmt d :
  strptime t fmt = Returns d → valid_date d = true.
Proof.
  unfold strptime.
  destruct (format_regex _ _ _) as [|[[[y m] d'] [|??]] ?]; try done.
  unfold valid_date, datetime_new.
  destruct (_ && _) eqn:Hok; [|done]. intros [= <-]. simpl.
  by rewrite Hok, bool_decide_eq_true_2.
Qed.

Lemma date_resolver_cases v :
  date_resolver v = Null ∨
  ∃ d, date_resolver v = Date d ∧ valid_date d = true.
Proof.
  unfold date_resolver. destruct (isna v || bool_decide (v = Str [])); [by left|].
  destruct (omap _ _) as [|d ds] eqn:Hd; [by left|]. right. exists d.
  split; [done|].
  assert (d ∈ omap (parses (strip (py_str v))) spec_patterns) as Hin.
  { rewrite Hd. by apply elem_of_cons; left. }
  apply list_elem_of_omap in Hin as (fmt & _ & Hp).
  unfold parses in Hp.
  destruct (strptime _ fmt) as [d'|] eqn:Hs; [|done].
  injection Hp as ->. by eapply strptime_valid.
Qed.

Lemma coerce_cases v : coerce v = Null ∨ ∃ x, coerce v = Num x.
Proof.
  destruct v as [|s|x|d]; simpl; eauto.
  - destruct (str_to_num s); simpl; eauto.
  - destruct (datetime_to_num d); simpl; eauto.
Qed.

Lemma numero_valido v :
  numero_invalido (coerce v) = false →
  ∃ x, coerce v = Num x ∧ num_le0 x = false.
Proof.
  unfold numero_invalido. destruct (coerce_cases v) as [->|[x ->]]; [done|].
  simpl. eauto.
Qed.

Lemma elem_of_accepted pm f x :
  x ∈ accepted pm f → x ∈ rows f ∧ marked pm x.2 = false.
Proof.
  unfold accepted, survivors.
  intros [Hrej [Hin _]%elem_of_keep_first]%list_elem_of_filter.
  split; [done|]. destruct (marked pm x.2) eqn:Hm; [|done].
  destruct Hrej. apply elem_of_all_rejected. exists x.2. by destruct x.
Qed.

Lemma NoDup_columnas_finales : NoDup columnas_finales.
Proof. apply (bool_decide_unpack _). by vm_compute. Qed.

Lemma lookup_output_row pm r c :
  c ∈ columnas_finales → output_row pm r !! c = Some (clean_row pm r !!! c).
Proof.
  intros Hc. unfold output_row. apply elem_of_list_to_map_1.
  - rewrite <- list_fmap_compose.
    replace (fst ∘ _ <$> columnas_finales) with columnas_finales
      by (symmetry; apply list_fmap_id).
    apply NoDup_columnas_finales.
  - apply list_elem_of_fmap. by exists c.
Qed.

Lemma dom_output_row pm r :
  dom (output_row pm r) = list_to_set columnas_finales.
Proof.
  unfold output_row. rewrite dom_list_to_map_L, <- list_fmap_compose.
  f_equal.
Qed.

(** C4. In the accepted output every row has exactly the columns fecha,
    producto_id, cantidad, precio_unitario, total, tienda and vendedor;
    cantidad and precio_unitario are the two numbers that the row of the
    batch with the same label was coerced to, total is their product, and
    fecha is the date that [parse_date_flexible] resolved for that row,
    formatted by [strftime('%Y-%m-%d')], which is YYYY-MM-DD for a year
    of four digits. *)
Theorem accepted_rows_total_and_fecha pm h l f res h' :
  h !! l = Some f →
  Forall (λ c, c ∈ column_names f) required_columns →
  transform_ventas (Some l) pm h = (Returns res, h') →
  ∃ out, data res = PFrame out ∧ column_names out = columnas_finales ∧
    Forall (λ x, ∃ raw q p d,
      (x.1, raw) ∈ rows f ∧
      dom x.2 = list_to_set columnas_finales ∧
      coerce (raw !!! "cantidad") = Num q ∧
      coerce (raw !!! "precio_unitario") = Num p ∧
      parse_date_flexible (raw !!! "fecha") = Returns (Date d) ∧
      x.2 !! "cantidad" = Some (Num q) ∧
      x.2 !! "precio_unitario" = Some (Num p) ∧
      x.2 !! "total" = Some (Num (num_mul q p)) ∧
      x.2 !! "fecha" = Some (Str (strftime_Ymd d)) ∧
      (1000 ≤ year d → strftime_Ymd d = isoformat_date d)) (rows out).
Proof.
  intros Hl Hreq Hrun.
  apply (transform_ventas_returns pm h l f) in Hrun as [-> _]; [|done..].
  exists (df_output pm f). split; [done|]. split; [done|].
  rewrite rows_df_output. apply Forall_fmap, Forall_forall.
  intros [i raw] [Hin Hm]%elem_of_accepted. cbn [fst snd] in *.
  unfold marked in Hm. apply orb_false_elim in Hm as [Hm Hprod].
  apply orb_false_elim in Hm as [Hm Hprecio].
  apply orb_false_elim in Hm as [Hfecha Hcantidad].
  apply numero_valido in Hcantidad as (q & Hq & _).
  apply numero_valido in Hprecio as (p & Hp & _).
  unfold fecha_invalida in Hfecha.
  destruct (date_resolver_cases (raw !!! "fecha")) as [Hd|(d & Hd & Hvalid)];
    [by rewrite Hd in Hfecha|].
  exists raw, q, p, d. cbn [fst snd].
  rewrite !lookup_output_row by (unfold columnas_finales; set_solver).
  rewrite parse_date_flexible_resolver, Hd.
  repeat split; try done.
  all: try apply dom_output_row.
  all: try (intros; by apply strftime_Ymd_iso).
  all: unfold clean_row; cbv zeta; f_equal;
    repeat first [ rewrite lookup_total_insert_eq
                 | rewrite lookup_total_insert_ne by done ];
    by rewrite ?work_row_cantidad, ?work_row_precio, ?work_row_fecha_parsed,
      ?Hq, ?Hp, ?Hd.
Qed.

(** The labels that [drop_duplicates] takes out of [df_work]. *)
Definition removed_as_duplicate (before after : DataFrame) : list Z :=
  filter (λ i, i ∉ index after) (index before).

(** C6. Step 6 replaces [df_work] by [drop_duplicates] of it on the key
    (date as submitted, cleaned product name, coerced quantity, coerced
    unit price, cleaned store). For every batch, by position: the rows
    that survive are the rows of [df_work] at the positions [kept], which
    increase, and the position [n] is in [kept] exactly when no earlier
    position has the key of row [n]: the first row with a key is kept and
    every later row with that key is dropped. The surviving rows and the
    accepted rows are in the order of the batch. When the labels of the
    batch are all different, the same holds of the labels. *)
Theorem drop_duplicates_keeps_first_occurrence pm h l f res h' :
  h !! l = Some f →
  Forall (λ c, c ∈ column_names f) required_columns →
  transform_ventas (Some l) pm h = (Returns res, h') →
  ∃ before after out (kept : list nat),
    h' !! length h = Some before ∧ h' !! S (length h) = Some after ∧
    data res = PFrame out ∧
    after = drop_duplicates before cols_dedup ∧
    rows before = (λ x, (x.1, work_row pm x.2)) <$> rows f ∧
    (∀ raw, row_key cols_dedup (work_row pm raw)
            = [raw !!! "fecha"; clean_string (raw !!! "producto");
               coerce (raw !!! "cantidad"); coerce (raw !!! "precio_unitario");
               clean_string (raw !!! "tienda")]) ∧
    StronglySorted lt kept ∧
    Forall2 (λ n x, rows before !! n = Some x) kept (rows after) ∧
    (∀ n i raw, rows f !! n = Some (i, raw) →
       (n ∈ kept ↔
        ∀ m j raw', (m < n)%nat → rows f !! m = Some (j, raw') →
          row_key cols_dedup (work_row pm raw')
          ≠ row_key cols_dedup (work_row pm raw))) ∧
    rows after `sublist_of` rows before ∧
    index after `sublist_of` index f ∧
    index out `sublist_of` index after ∧
    (NoDup (index f) →
     ∀ n i raw, rows f !! n = Some (i, raw) →
       (i ∈ index after ↔
        ∀ m j raw', (m < n)%nat → rows f !! m = Some (j, raw') →
          row_key cols_dedup (work_row pm raw')
          ≠ row_key cols_dedup (work_row pm raw))).
Proof.
  intros Hl Hreq Hrun.
  apply (transform_ventas_returns pm h l f) in Hrun as [-> ->]; [|done..].
  destruct (survivors_positions f) as (kept & Hsorted & Hkept & Hiff).
  exists (df_work_5 pm f), (df_work_6 pm f), (df_output pm f), kept.
  split; [by apply list_lookup_middle|].
  split; [by rewrite (lookup_app_r h), Nat.sub_succ_l, Nat.sub_diag by lia|].
  split; [done|]. split; [done|]. split; [apply rows_df_work_5|].
  split; [apply row_key_work_row|].
  split; [done|].
  split.
  { rewrite rows_df_work_6. apply Forall2_fmap_r.
    apply Forall2_impl with (1 := Hkept). intros n x Hn.
    by rewrite rows_df_work_5, list_lookup_fmap, Hn. }
  split.
  { intros n i raw Hn. rewrite (Hiff n i raw Hn).
    by setoid_rewrite row_key_work_row. }
  split.
  { rewrite rows_df_work_6, rows_df_work_5.
    apply fmap_sublist, survivors_sublist. }
  split.
  { rewrite index_df_work_6. apply fmap_sublist, survivors_sublist. }
  split.
  { rewrite index_df_output, index_df_work_6.
    apply fmap_sublist, accepted_sublist. }
  intros Hnd n i raw Hn. rewrite index_df_work_6.
  rewrite (elem_of_index_survivors f n i raw) by done.
  by setoid_rewrite row_key_work_row.
Qed.

(** C1, as the code has it. When the labels of the batch are all
    different, every row of the batch is in the accepted output, in the
    rejected output or among the rows that [drop_duplicates] removed; an
    accepted row is in neither of the other two sets. A row is in the
    rejected output exactly when it fails a rule, whether or not step 6
    removed it (the rejected output is selected from the batch itself),
    and it is removed exactly when an earlier row has its key: a row that
    fails a rule and repeats an earlier row is in both sets. *)
Theorem accepted_rejected_removed_cover pm h l f res h' :
  h !! l = Some f →
  Forall (λ c, c ∈ column_names f) required_columns →
  NoDup (index f) →
  transform_ventas (Some l) pm h = (Returns res, h') →
  ∃ out rej before after,
    data res = PFrame out ∧ rejected_data res = PFrame rej ∧
    h' !! length h = Some before ∧ h' !! S (length h) = Some after ∧
    (∀ i, i ∈ index f →
       i ∈ index out ∨ i ∈ index rej ∨ i ∈ removed_as_duplicate before after) ∧
    (∀ i, i ∈ index out →
       i ∈ index f ∧ (i ∉ index rej) ∧ (i ∉ removed_as_duplicate before after)) ∧
    (∀ i, i ∈ index rej → i ∈ index f) ∧
    (∀ i, i ∈ removed_as_duplicate before after → i ∈ index f) ∧
    (∀ i raw, (i, raw) ∈ rows f → (i ∈ index rej ↔ marked pm raw = true)) ∧
    (∀ n i raw, rows f !! n = Some (i, raw) →
       (i ∈ removed_as_duplicate before after ↔
        ∃ m j raw', (m < n)%nat ∧ rows f !! m = Some (j, raw') ∧
                    dedup_key raw' = dedup_key raw)) ∧
    (∀ i raw, (i, raw) ∈ rows f →
       (i ∈ index out ↔
        marked pm raw = false ∧ (i ∉ removed_as_duplicate before after))).
Proof.
  intros Hl Hreq Hnd Hrun.
  apply (transform_ventas_returns pm h l f) in Hrun as [-> ->]; [|done..].
  exists (df_output pm f), (df_rejected pm f), (df_work_5 pm f), (df_work_6 pm f).
  split; [done|]. split; [done|].
  split; [by apply list_lookup_middle|].
  split; [by rewrite (lookup_app_r h), Nat.sub_succ_l, Nat.sub_diag by lia|].
  assert (∀ i, i ∈ removed_as_duplicate (df_work_5 pm f) (df_work_6 pm f)
               ↔ i ∈ index f ∧ i ∉ (survivors f).*1) as Hrem.
  { intros i. unfold removed_as_duplicate.
    rewrite list_elem_of_filter, index_df_work_5, index_df_work_6. tauto. }
  assert (∀ i raw, (i, raw) ∈ rows f →
            (i ∈ index (df_rejected pm f) ↔ marked pm raw = true)) as Hrej.
  { intros i raw Hin. unfold index.
    rewrite (elem_of_index_sub (rows f) _ i raw Hnd); [| |done].
    - rewrite rows_df_rejected_marked, list_elem_of_filter by done.
      simpl. rewrite Is_true_true. tauto.
    - intros x. rewrite rows_df_rejected. by intros [_ ?]%list_elem_of_filter. }
  assert (∀ i raw, (i, raw) ∈ rows f →
            (i ∈ index (df_output pm f)
             ↔ marked pm raw = false ∧ i ∈ (survivors f).*1)) as Hout.
  { intros i raw Hin. rewrite index_df_output.
    rewrite (elem_of_index_sub (rows f) _ i raw Hnd); [| |done].
    - rewrite (elem_of_index_sub (rows f) (survivors f) i raw Hnd); [| |done].
      + unfold accepted. rewrite list_elem_of_filter. simpl.
        rewrite elem_of_all_rejected. split.
        * intros [Hnot Hs]. split; [|done].
          destruct (marked pm raw) eqn:Hm; [|done]. destruct Hnot. eauto.
        * intros [Hm Hs]. split; [|done]. intros (raw' & Hin' & Hm').
          rewrite (NoDup_index_inj (rows f) i raw raw' Hnd Hin Hin') in Hm.
          congruence.
      + intros x Hx. by eapply elem_of_sublist, survivors_sublist.
    - intros x Hx. eapply elem_of_sublist, survivors_sublist.
      by eapply elem_of_sublist, accepted_sublist. }
  assert (∀ i, i ∈ index f → ∃ raw, (i, raw) ∈ rows f) as Hraw.
  { intros i ([i' raw] & -> & Hin)%list_elem_of_fmap. by exists raw. }
  assert (∀ i, i ∈ index (df_output pm f) → i ∈ index f) as Hsub.
  { intros i Hi. rewrite index_df_output in Hi. unfold index.
    eapply elem_of_sublist; [done|]. apply fmap_sublist.
    etrans; [apply accepted_sublist|apply survivors_sublist]. }
  split.
  { intros i Hi. destruct (Hraw i Hi) as [raw Hin].
    destruct (marked pm raw) eqn:Hm; [right; left; by apply (Hrej i raw)|].
    destruct (decide (i ∈ (survivors f).*1)).
    - left. by apply (Hout i raw).
    - right; right. by apply Hrem. }
  split.
  { intros i Hi. destruct (Hraw i (Hsub i Hi)) as [raw Hin].
    destruct (proj1 (Hout i raw Hin) Hi) as [Hmk Hsv].
    split; [by apply Hsub|]. split.
    - intros Hr. apply (Hrej i raw Hin) in Hr. congruence.
    - by intros [_ ?]%Hrem. }
  split.
  { intros i Hi. unfold index in *. rewrite rows_df_rejected in Hi.
    eapply elem_of_sublist; [done|]. apply fmap_sublist, sublist_filter. }
  split; [by intros i [? _]%Hrem|].
  split; [done|].
  split.
  { intros n i raw Hn.
    rewrite <- (not_elem_of_index_survivors f n i raw) by done.
    rewrite Hrem. split; [by intros [_ ?]|]. intros ?. split; [|done].
    apply list_elem_of_fmap. exists (i, raw).
    split; [done|]. by eapply list_elem_of_lookup_2. }
  intros i raw Hin. rewrite (Hout i raw Hin), Hrem. split.
  - intros [? ?]. split; [done|]. by intros [_ ?].
  - intros [? Hnot]. split; [done|].
    destruct (decide (i ∈ (survivors f).*1)) as [|Hs]; [done|].
    destruct Hnot. split; [|done].
    apply list_elem_of_fmap. by exists (i, raw).
Qed.


(** The rejected output holds the rows whose label is a rejected label. *)
Lemma rows_df_rejected_labels pm f :
  rows (df_rejected pm f)
  = filter (λ x, x.1 ∈ (list_to_set (rejected_rows pm f) : gset Z)) (rows f).
Proof.
  rewrite rows_df_rejected. apply list_filter_iff. intros x.
  unfold all_rejected. by rewrite elem_of_elements.
Qed.

(** There are at least as many such rows as rejected labels, and as rows
    that fail a rule. *)
Lemma size_rejected_labels pm f :
  (size (list_to_set (rejected_rows pm f) : gset Z)
   ≤ length (filter (λ x, x.1 ∈ (list_to_set (rejected_rows pm f) : gset Z))
               (rows f)))%nat.
Proof.
  set (labels := list_to_set (rejected_rows pm f) : gset Z).
  rewrite <- (length_fmap fst (filter _ _)). unfold size, set_size. simpl.
  apply submseteq_length, NoDup_submseteq; [apply NoDup_elements|].
  intros i Hi. apply elem_of_elements in Hi.
  pose proof Hi as Hi'. unfold labels in Hi'.
  apply elem_of_list_to_set, elem_of_rejected_rows in Hi' as (raw & Hin & _).
  apply list_elem_of_fmap. exists (i, raw). split; [done|].
  by apply list_elem_of_filter.
Qed.

Lemma marked_rejected_labels pm f :
  (length (filter (λ x, marked pm x.2) (rows f))
   ≤ length (filter (λ x, x.1 ∈ (list_to_set (rejected_rows pm f) : gset Z))
               (rows f)))%nat.
Proof.
  set (labels := list_to_set (rejected_rows pm f) : gset Z).
  replace (filter (λ x, marked pm x.2) (rows f))
    with (filter (λ x : Z * gmap string cell, marked pm x.2)
            (filter (λ x, x.1 ∈ labels) (rows f))); [apply length_filter|].
  rewrite list_filter_filter. apply filter_iff_in.
  intros [i raw] Hin. simpl. split; [tauto|]. intros Hm. split; [done|].
  apply elem_of_list_to_set, elem_of_rejected_rows. exists raw.
  split; [done|]. by apply Is_true_true.
Qed.

(** C9, as the code has it. [rows_rejected] is the number of rows of the
    rejected output, which holds every row of the batch whose label is a
    rejected label; a label is rejected when a row with that label fails
    a rule. This number is at least the number of distinct rejected
    labels and at least the number of rows that fail a rule, and it is
    both of them when the labels of the batch are all different; it can
    be more than the number of distinct rejected labels when a label
    repeats. Each of the four
    statistics counts the rows of the whole batch that fail its rule, the
    rows that step 6 removes included. The four statistics add up to the
    number of failed rules over all rows: at least the number of rows
    that fail a rule, and more as soon as one row fails two rules. *)
Theorem rows_rejected_and_statistics pm h l f res h' :
  h !! l = Some f →
  Forall (λ c, c ∈ column_names f) required_columns →
  transform_ventas (Some l) pm h = (Returns res, h') →
  let failing (rule : gmap string cell → bool) : nat :=
    length (filter (λ x, rule x.2) (rows f)) in
  let labels : gset Z := list_to_set (rejected_rows pm f) in
  let labelled : nat := length (filter (λ x, x.1 ∈ labels) (rows f)) in
  ∃ duplicados,
    (∀ i, i ∈ labels ↔ ∃ raw, (i, raw) ∈ rows f ∧ marked pm raw = true) ∧
    rows_rejected res = PInt (Z.of_nat labelled) ∧
    (size labels ≤ labelled)%nat ∧
    (failing (marked pm) ≤ labelled)%nat ∧
    (NoDup (index f) →
     rows_rejected res = PInt (Z.of_nat (size labels)) ∧
     rows_rejected res = PInt (Z.of_nat (failing (marked pm)))) ∧
    stats res
    = PDict [("fechas_invalidas", Z.of_nat (failing fecha_invalida));
             ("cantidades_invalidas", Z.of_nat (failing cantidad_invalida));
             ("precios_invalidos", Z.of_nat (failing precio_invalido));
             ("productos_no_mapeados",
              Z.of_nat (failing (producto_no_encontrado pm)));
             ("duplicados_eliminados", duplicados)] ∧
    (failing fecha_invalida + failing cantidad_invalida
     + failing precio_invalido + failing (producto_no_encontrado pm)
     = sum_list ((λ x, rules_failed pm x.2) <$> rows f))%nat ∧
    (failing (marked pm)
     ≤ failing fecha_invalida + failing cantidad_invalida
       + failing precio_invalido + failing (producto_no_encontrado pm))%nat ∧
    ((∃ x, x ∈ rows f ∧ 2 ≤ rules_failed pm x.2)%nat →
     (failing (marked pm)
      < failing fecha_invalida + failing cantidad_invalida
        + failing precio_invalido + failing (producto_no_encontrado pm))%nat).
Proof.
  intros Hl Hreq Hrun failing labels labelled.
  apply (transform_ventas_returns pm h l f) in Hrun as [-> _]; [|done..].
  eexists. cbn [rows_rejected stats result_of].
  assert (len (df_rejected pm f) = labelled) as Hlen.
  { unfold len, labelled, labels. by rewrite rows_df_rejected_labels. }
  assert (NoDup (index f) → labelled = failing (marked pm)) as Hmarked.
  { intros Hnd. rewrite <- Hlen. unfold len, failing.
    by rewrite rows_df_rejected_marked. }
  assert (NoDup (index f) → size labels = failing (marked pm)) as Hsize.
  { intros Hnd. unfold failing, labels.
    replace (list_to_set (rejected_rows pm f) : gset Z)
      with (list_to_set (filter (λ x, marked pm x.2) (rows f)).*1 : gset Z).
    - rewrite size_list_to_set, length_fmap; [done|].
      eapply sublist_NoDup; [exact Hnd|]. apply fmap_sublist, sublist_filter.
    - apply set_eq. intros i.
      rewrite !elem_of_list_to_set, elem_of_rejected_rows, list_elem_of_fmap.
      split.
      + intros ([i' raw] & -> & [Hm Hin]%list_elem_of_filter).
        exists raw. split; [done|]. by apply Is_true_true.
      + intros (raw & Hin & Hm). exists (i, raw). split; [done|].
        apply list_elem_of_filter. split; [|done]. by apply Is_true_true. }
  pose proof (count_rules pm (rows f)) as Hsum.
  destruct (count_marked pm (rows f)) as [Hle Hlt].
  split.
  { intros i. unfold labels. by rewrite elem_of_list_to_set, elem_of_rejected_rows. }
  split; [by rewrite Hlen|].
  split; [apply size_rejected_labels|].
  split; [apply marked_rejected_labels|].
  split.
  { intros Hnd. by rewrite Hlen, (Hsize Hnd), (Hmarked Hnd). }
  split.
  { unfold stats_of.
    by rewrite mask_fecha_invalida_rows, mask_cantidad_invalida_rows,
      mask_precio_invalido_rows, mask_producto_no_encontrado_rows,
      !mask_sum_fmap. }
  split; [done|]. unfold failing. rewrite Hsum. by split.
Qed.
End Claims.

(** * The theorems at a concrete batch *)

Section Examples.
Local Existing Instance latin1_unicode.
Local Existing Instance int_numeric.
Local Existing Instance pandas_ns.

Definition txt (s : string) : cell := Str (py s).

(** Five rows: a valid sale; a sale with a negative quantity, twice; a
    row that fails three rules; and the valid sale once more. *)
Definition batch : DataFrame :=
  csv_frame
    [mk_row (txt "15/01/2024") (txt "Widget") (txt "2") (txt "5") (txt "Centro") (txt "Ana");
     mk_row (txt "2024-01-16") (txt " widget ") (txt "-3") (txt "5") (txt "Norte") (txt "Luis");
     mk_row (txt "2024-01-16") (txt " widget ") (txt "-3") (txt "5") (txt "Norte") (txt "Luis");
     mk_row (txt "2024-13-45") (txt "Gadget") (txt "x") (txt "5") (txt "Sur") (txt "Eva");
     mk_row (txt "15/01/2024") (txt "Widget") (txt "2") (txt "5") (txt "Centro") (txt "Ana")].

Definition catalogo : list (pystr * cell) := [(py "Widget", Num 7)].

Lemma batch_required :
  Forall (λ c, c ∈ column_names batch) required_columns.
Proof. apply csv_frame_required. Defined.

Lemma batch_NoDup : NoDup (index batch).
Proof. apply (bool_decide_unpack _). by vm_compute. Defined.

Lemma batch_run :
  transform_ventas (Some 0%nat) catalogo [batch]
  = (Returns (result_of catalogo batch),
     [batch; df_work_5 catalogo batch; df_work_6 catalogo batch;
      df_clean_9 catalogo batch]).
Proof.
  rewrite (transform_ventas_run [batch] 0%nat batch catalogo eq_refl eq_refl
             batch_required).
  by replace (fecha_parsed_dtype batch) with dt_datetime64 by by vm_compute.
Qed.

(** The accepted output of the batch is row 0 alone: 2024-01-15, product
    7, 2 at 5, total 10. *)
Example batch_output :
  rows (df_output catalogo batch)
  = [(0, list_to_map [("fecha", txt "2024-01-15"); ("producto_id", Num 7);
                      ("cantidad", Num 2); ("precio_unitario", Num 5);
                      ("total", Num 10); ("tienda", txt "Centro");
                      ("vendedor", txt "Ana")])].
Proof. apply (bool_decide_unpack _). by vm_compute. Qed.

(** C4 at the batch: the accepted frame has the seven columns, and in
    each of its rows total is cantidad times precio_unitario. *)
Lemma accepted_rows_total_and_fecha_witness :
  ∃ out, data (result_of catalogo batch) = PFrame out ∧
         column_names out = columnas_finales ∧
         Forall (λ x, ∃ q p, x.2 !! "cantidad" = Some (Num q) ∧
                             x.2 !! "precio_unitario" = Some (Num p) ∧
                             x.2 !! "total" = Some (Num (q * p))) (rows out).
Proof.
  destruct (accepted_rows_total_and_fecha catalogo [batch] 0%nat batch
              (result_of catalogo batch) _ eq_refl batch_required batch_run)
    as (out & Hdata & Hcols & Hrows).
  exists out. split; [done|]. split; [done|].
  apply Forall_impl with (1 := Hrows).
  intros x (raw & q & p & d & _ & _ & _ & _ & _ & Hq & Hp & Ht & _).
  by exists q, p.
Defined.

(** C6 at the batch: the rows at the positions 0, 1 and 3 survive step
    6; row 2 repeats row 1 and row 4 repeats row 0, and both are dropped. *)
Lemma drop_duplicates_keeps_first_occurrence_witness :
  ∃ before after kept,
    after = drop_duplicates before cols_dedup ∧
    Forall2 (λ n x, rows before !! n = Some x) kept (rows after) ∧
    (0%nat ∈ kept ∧ 1%nat ∈ kept ∧ 3%nat ∈ kept) ∧
    (2%nat ∉ kept) ∧ (4%nat ∉ kept).
Proof.
  destruct (drop_duplicates_keeps_first_occurrence catalogo [batch] 0%nat batch
              (result_of catalogo batch) _ eq_refl batch_required batch_run)
    as (before & after & out & kept & _ & _ & _ & Hdrop & _ & _ & _ & Hkept
        & Hiff & _).
  exists before, after, kept. split; [done|]. split; [done|].
  assert (∀ n i raw, rows batch !! n = Some (i, raw) →
            Forall (λ y, row_key cols_dedup (work_row catalogo y.2)
                         ≠ row_key cols_dedup (work_row catalogo raw))
              (take n (rows batch)) → n ∈ kept) as Hfirst.
  { intros n i raw Hn Hall. apply (Hiff n i raw Hn). intros m j raw' Hm Hj.
    exact (lookup_lt_Forall_take _ (rows batch) n Hall m (j, raw') Hm Hj). }
  assert (∀ n m i j raw, (m < n)%nat → rows batch !! n = Some (i, raw) →
            rows batch !! m = Some (j, raw) → n ∉ kept) as Hlater.
  { intros n m i j raw Hm Hn Hj Hin.
    exact (proj1 (Hiff n i raw Hn) Hin m j raw Hm Hj eq_refl). }
  split; [split; [|split]|split].
  - eapply (Hfirst 0%nat); [reflexivity|]. constructor.
  - eapply (Hfirst 1%nat); [reflexivity|].
    apply (bool_decide_unpack _). by vm_compute.
  - eapply (Hfirst 3%nat); [reflexivity|].
    apply (bool_decide_unpack _). by vm_compute.
  - eapply (Hlater 2%nat 1%nat); [lia|reflexivity|reflexivity].
  - eapply (Hlater 4%nat 0%nat); [lia|reflexivity|reflexivity].
Defined.

(** C1 at the batch: every row is accepted, rejected or removed. *)
Lemma accepted_rejected_removed_cover_witness :
  ∃ out rej before after,
    data (result_of catalogo batch) = PFrame out ∧
    rejected_data (result_of catalogo batch) = PFrame rej ∧
    ∀ i, i ∈ index batch →
      i ∈ index out ∨ i ∈ index rej ∨ i ∈ removed_as_duplicate before after.
Proof.
  destruct (accepted_rejected_removed_cover catalogo [batch] 0%nat batch
              (result_of catalogo batch) _ eq_refl batch_required batch_NoDup
              batch_run)
    as (out & rej & before & after & Hout & Hrej & _ & _ & Hcover & _).
  by exists out, rej, before, after.
Defined.

(** The three sets are not disjoint: row 2 of the batch repeats row 1
    and has a negative quantity; it is in the rejected output and among
    the rows that step 6 removed. *)
Lemma removed_duplicate_is_also_rejected :
  ∃ res h' rej before after,
    transform_ventas (Some 0%nat) catalogo [batch] = (Returns res, h') ∧
    rejected_data res = PFrame rej ∧
    h' !! 1%nat = Some before ∧ h' !! 2%nat = Some after ∧
    after = drop_duplicates before cols_dedup ∧
    2 ∈ index batch ∧ 2 ∈ index rej ∧ 2 ∈ removed_as_duplicate before after.
Proof.
  eexists _, _, _, _, _. split; [apply batch_run|].
  split; [done|]. split; [done|]. split; [done|]. split; [done|].
  repeat split; apply (bool_decide_unpack _); by vm_compute.
Qed.

(** C9 at the batch, whose labels are all different: rows 1, 2 and 3 are
    rejected; one date, three quantities, no price and one product fail;
    rows 2 and 4 are removed as duplicates. *)
Lemma rows_rejected_and_statistics_witness :
  rows_rejected (result_of catalogo batch) = PInt 3 ∧
  stats (result_of catalogo batch)
  = PDict [("fechas_invalidas", 1); ("cantidades_invalidas", 3);
           ("precios_invalidos", 0); ("productos_no_mapeados", 1);
           ("duplicados_eliminados", 2)] ∧
  rows_rejected (result_of catalogo batch)
  = PInt (Z.of_nat (size (list_to_set (rejected_rows catalogo batch) : gset Z))) ∧
  ∃ duplicados,
    stats (result_of catalogo batch)
    = PDict [("fechas_invalidas",
              Z.of_nat (length (filter (λ x, fecha_invalida x.2) (rows batch))));
             ("cantidades_invalidas",
              Z.of_nat (length (filter (λ x, cantidad_invalida x.2) (rows batch))));
             ("precios_invalidos",
              Z.of_nat (length (filter (λ x, precio_invalido x.2) (rows batch))));
             ("productos_no_mapeados",
              Z.of_nat (length (filter (λ x, producto_no_encontrado catalogo x.2)
                                  (rows batch))));
             ("duplicados_eliminados", duplicados)].
Proof.
  split; [vm_cast_no_check (eq_refl (PInt 3))|].
  split; [vm_cast_no_check
            (eq_refl (PDict [("fechas_invalidas", 1); ("cantidades_invalidas", 3);
                             ("precios_invalidos", 0); ("productos_no_mapeados", 1);
                             ("duplicados_eliminados", 2)]))|].
  destruct (rows_rejected_and_statistics catalogo [batch] 0%nat batch
              (result_of catalogo batch) _ eq_refl batch_required batch_run)
    as (duplicados & _ & _ & _ & _ & Hdistinct & Hstats & _).
  split; [exact (proj1 (Hdistinct batch_NoDup))|].
  exists duplicados. exact Hstats.
Defined.

(** Two rows with the label 0: a valid sale, and a sale with a negative
    quantity. *)
Definition batch_etiqueta_repetida : DataFrame :=
  mk_DataFrame csv_columns
    [(0, mk_row (txt "15/01/2024") (txt "Widget") (txt "2") (txt "5")
           (txt "Centro") (txt "Ana"));
     (0, mk_row (txt "2024-01-16") (txt "Widget") (txt "-1") (txt "5")
           (txt "Norte") (txt "Luis"))].

Lemma batch_etiqueta_repetida_run :
  transform_ventas (Some 0%nat) catalogo [batch_etiqueta_repetida]
  = (Returns (result_of catalogo batch_etiqueta_repetida),
     [batch_etiqueta_repetida; df_work_5 catalogo batch_etiqueta_repetida;
      df_work_6 catalogo batch_etiqueta_repetida;
      df_clean_9 catalogo batch_etiqueta_repetida]).
Proof.
  rewrite (transform_ventas_run [batch_etiqueta_repetida] 0%nat
             batch_etiqueta_repetida catalogo eq_refl eq_refl
             (csv_frame_required [])).
  by replace (fecha_parsed_dtype batch_etiqueta_repetida) with dt_datetime64
    by by vm_compute.
Qed.

(** [rows_rejected] is not the number of distinct rejected labels: in
    this batch one row fails a rule and one label is rejected, and
    [rows_rejected] is 2, because both rows have that label. *)
Lemma rows_rejected_counts_repeated_label :
  ∃ res h' rej,
    transform_ventas (Some 0%nat) catalogo [batch_etiqueta_repetida]
    = (Returns res, h') ∧
    rejected_data res = PFrame rej ∧
    index batch_etiqueta_repetida = [0; 0] ∧
    rows_rejected res = PInt 2 ∧
    size (list_to_set (rejected_rows catalogo batch_etiqueta_repetida) : gset Z)
    = 1%nat ∧
    size (list_to_set (index rej) : gset Z) = 1%nat ∧
    length (filter (λ x, marked catalogo x.2) (rows batch_etiqueta_repetida))
    = 1%nat.
Proof.
  eexists _, _, _. split; [apply batch_etiqueta_repetida_run|].
  split; [done|]. split; [done|].
  split; [vm_cast_no_check (eq_refl (PInt 2))|].
  repeat split; apply (bool_decide_unpack _); by vm_compute.
Qed.

(** A product map with a key made of white space, and a batch whose
    single row has no product name. *)
Definition catalogo_clave_vacia : list (pystr * cell) :=
  [(py "Widget", Num 7); (py " ", Num 9)].

Definition batch_sin_nombre : DataFrame :=
  csv_frame [mk_row (txt "15/01/2024") Null (txt "2") (txt "5") (txt "Centro")
               (txt "Ana")].

Lemma batch_sin_nombre_run :
  transform_ventas (Some 0%nat) catalogo_clave_vacia [batch_sin_nombre]
  = (Returns (result_of catalogo_clave_vacia batch_sin_nombre),
     [batch_sin_nombre; df_work_5 catalogo_clave_vacia batch_sin_nombre;
      df_work_6 catalogo_clave_vacia batch_sin_nombre;
      df_clean_9 catalogo_clave_vacia batch_sin_nombre]).
Proof.
  rewrite (transform_ventas_run [batch_sin_nombre] 0%nat batch_sin_nombre
             catalogo_clave_vacia eq_refl eq_refl (csv_frame_required _)).
  by replace (fecha_parsed_dtype batch_sin_nombre) with dt_datetime64
    by by vm_compute.
Qed.

(** A missing name is not always not-found: with this map the name of the
    row, which is missing, resolves to the identifier 9 of the key " ",
    and the row is in the accepted output. *)
Lemma missing_name_resolves_to_blank_key :
  map_producto catalogo_clave_vacia (clean_string Null) = Returns (Num 9) ∧
  ∃ res h' out,
    transform_ventas (Some 0%nat) catalogo_clave_vacia [batch_sin_nombre]
    = (Returns res, h') ∧
    data res = PFrame out ∧
    Forall (λ x, x.2 !! "producto" = Some Null) (rows batch_sin_nombre) ∧
    rows_output res = PInt 1 ∧ rows_rejected res = PInt 0 ∧
    index out = [0] ∧
    Forall (λ x, x.2 !! "producto_id" = Some (Num 9)) (rows out).
Proof.
  split; [apply (bool_decide_unpack _); by vm_compute|].
  eexists _, _, _. split; [apply batch_sin_nombre_run|].
  split; [done|].
  split; [apply (bool_decide_unpack _); by vm_compute|].
  split; [vm_cast_no_check (eq_refl (PInt 1))|].
  split; [vm_cast_no_check (eq_refl (PInt 0))|].
  split; apply (bool_decide_unpack _); by vm_compute.
Qed.
End Examples.

(** * Further properties of the transform stage *)

(** ** [clean_string] and [parse_date_flexible] *)

Section Words.
Implicit Types (s w : pystr) (ws : list pystr) (c : N).

Lemma split_word_space w c s :
  word w → Py_UNICODE_ISSPACE c = true → split (w ++ c :: s) = w :: split (c :: s).
Proof.
  intros [Hne Hw] Hc. induction w as [|a w IH]; [done|].
  apply Forall_cons in Hw as [Ha Hw].
  destruct w as [|b w].
  - simpl. by rewrite Ha, Hc.
  - change (split ((a :: b :: w) ++ c :: s))
      with (if Py_UNICODE_ISSPACE a then split ((b :: w) ++ c :: s)
            else if Py_UNICODE_ISSPACE b then [a] :: split ((b :: w) ++ c :: s)
            else match split ((b :: w) ++ c :: s) with
                 | w' :: ws => (a :: w') :: ws
                 | [] => [[a]]
                 end).
    rewrite Ha. pose proof Hw as [Hb _]%Forall_cons. rewrite Hb.
    by rewrite IH.
Qed.

Lemma split_word w : word w → split w = [w].
Proof.
  intros [Hne Hw]. induction w as [|a w IH]; [done|].
  apply Forall_cons in Hw as [Ha Hw].
  destruct w as [|b w].
  - simpl. by rewrite Ha.
  - change (split (a :: b :: w))
      with (if Py_UNICODE_ISSPACE a then split (b :: w)
            else if Py_UNICODE_ISSPACE b then [a] :: split (b :: w)
            else match split (b :: w) with
                 | w' :: ws => (a :: w') :: ws
                 | [] => [[a]]
                 end).
    rewrite Ha. pose proof Hw as [Hb _]%Forall_cons. rewrite Hb.
    by rewrite IH.
Qed.

(** [" ".join(words).split()] gives the words back. *)
Lemma split_join ws : Forall word ws → split (join [32%N] ws) = ws.
Proof.
  induction 1 as [|w ws Hw Hws IH]; [done|].
  destruct ws as [|w' ws]; [by apply split_word|].
  change (join [32%N] (w :: w' :: ws)) with (w ++ 32%N :: join [32%N] (w' :: ws)).
  rewrite split_word_space by done.
  change (split (32%N :: ?s)) with (split s). by rewrite IH.
Qed.

Lemma collapse_idemp s : collapse (collapse s) = collapse s.
Proof. unfold collapse. by rewrite split_join by apply split_words. Qed.

Lemma join_blanks ws :
  Forall word ws →
  Forall (λ c, Py_UNICODE_ISSPACE c = true → c = 32%N) (join [32%N] ws).
Proof.
  induction 1 as [|w ws [_ Hw] Hws IH]; [done|].
  assert (Forall (λ c, Py_UNICODE_ISSPACE c = true → c = 32%N) w) as Hw'.
  { apply Forall_impl with (1 := Hw). congruence. }
  destruct ws as [|w' ws]; [done|].
  change (join [32%N] (w :: w' :: ws)) with (w ++ 32%N :: join [32%N] (w' :: ws)).
  apply Forall_app. split; [done|]. by constructor.
Qed.
End Words.

Section Cleaning.
Context `{Unicode} `{Numeric} `{Pandas}.
Implicit Types (v : cell) (s : pystr).

(** [clean_string] is idempotent, and its result is a text in normal
    form: [strip] and [" ".join(s.split())] leave it as it is, it has no
    two white-space characters in a row, and its only white-space
    character is the blank U+0020. A missing value gives the empty text. *)
Theorem clean_string_normal_form v :
  clean_string (clean_string v) = clean_string v ∧
  (isna v = true → clean_string v = Str []) ∧
  ∃ s, clean_string v = Str s ∧ strip s = s ∧ collapse s = s ∧
       ws_run s = false ∧
       Forall (λ c, Py_UNICODE_ISSPACE c = true → c = 32%N) s.
Proof.
  assert (∃ t, clean_string v = Str (collapse t)) as [t Ht].
  { destruct (clean_string_cases v) as [->| ->]; [by exists []|eauto]. }
  split; [|split].
  - rewrite Ht, clean_string_Str. by rewrite collapse_strip, collapse_idemp.
  - intros Hv. unfold clean_string. by rewrite Hv.
  - exists (collapse t). split; [done|].
    split; [apply strip_collapse|]. split; [apply collapse_idemp|].
    split; [apply ws_run_collapse|]. apply join_blanks, split_words.
Qed.

Lemma omap_parses_nil : omap (parses []) spec_patterns = [].
Proof. reflexivity. Qed.

(** [parse_date_flexible] does not see the white space around a date:
    a text and its [strip] resolve alike, and a text of white space only
    is unresolved, like the empty text. *)
Theorem parse_date_flexible_strip s :
  parse_date_flexible (Str (strip s)) = parse_date_flexible (Str s) ∧
  (strip s = [] → parse_date_flexible (Str s) = Returns Null).
Proof.
  assert (strip s = [] → parse_date_flexible (Str s) = Returns Null) as Hnil.
  { intros Hs. rewrite parse_date_flexible_resolver. unfold date_resolver.
    destruct (isna _ || _); [done|]. cbn [py_str]. by rewrite Hs, omap_parses_nil. }
  split; [|done].
  rewrite !parse_date_flexible_resolver. unfold date_resolver. cbn [isna py_str orb].
  rewrite strip_idemp.
  destruct (decide (strip s = [])) as [Hs|Hs].
  - rewrite Hs, omap_parses_nil. by repeat case_bool_decide.
  - rewrite bool_decide_eq_false_2 by congruence.
    rewrite bool_decide_eq_false_2; [done|]. by intros [= ->].
Qed.

(** [parse_date_flexible] returns [None] or a date of the calendar: a
    year in 1..9999, a month in 1..12 and a day that the month has in
    that year. *)
Theorem parse_date_flexible_calendar v :
  parse_date_flexible v = Returns Null ∨
  ∃ d, parse_date_flexible v = Returns (Date d) ∧
       1 ≤ year d ≤ 9999 ∧ 1 ≤ month d ≤ 12 ∧
       1 ≤ day d ≤ days_in_month (year d) (month d).
Proof.
  rewrite parse_date_flexible_resolver.
  destruct (date_resolver_cases v) as [->|(d & -> & Hd)]; [by left|].
  right. exists d. split; [done|].
  unfold valid_date, datetime_new in Hd. apply bool_decide_eq_true in Hd.
  destruct (_ && _) eqn:Hok; [|done].
  repeat (apply andb_true_iff in Hok as [Hok ?]). lia.
Qed.
End Cleaning.

(** ** Dates written by step 9 and read again *)

Section RoundTrip.
Context `{Unicode} `{Numeric} `{Pandas}.

Lemma digit_char_range n : (48 ≤ digit_char n ≤ 57)%N.
Proof. unfold digit_char. pose proof (Z.mod_pos_bound n 10). lia. Qed.

Lemma digit_char_decimal n : Py_UNICODE_TODECIMAL (digit_char n) = Some (n mod 10).
Proof.
  pose proof (digit_char_range n) as Hn. unfold Py_UNICODE_TODECIMAL.
  destruct (N.ltb_spec (digit_char n) 128); [|lia].
  destruct (N.leb_spec 48 (digit_char n)); [|lia].
  destruct (N.leb_spec (digit_char n) 57); [|lia].
  cbn [fmap option_fmap option_map]. f_equal. unfold digit_char.
  pose proof (Z.mod_pos_bound n 10). lia.
Qed.

Lemma re_Y_pad4 y r : 0 ≤ y ≤ 9999 → re_Y (pad4 y ++ r) = [(y, r)].
Proof.
  intros Hy. unfold re_Y, re_seq, re_digit, re_class, re_ret, pad4. simpl.
  repeat (rewrite digit_char_decimal; simpl). do 2 f_equal.
  Z.to_euclidean_division_equations. lia.
Qed.

Lemma re_seq_fmap {A B C} (p : regex A) (k : A → regex B) (k' : A → regex C)
    (g : B * pystr → C * pystr) :
  (∀ a r, k' a r = g <$> k a r) → ∀ s, re_seq p k' s = g <$> re_seq p k s.
Proof.
  intros Hk s. unfold re_seq. induction (p s) as [|[a r] l IH]; [done|].
  change (((a, r) :: l) ≫= (λ '(a, r), k' a r))
    with (k' a r ++ (l ≫= (λ '(a, r), k' a r))).
  change (((a, r) :: l) ≫= (λ '(a, r), k a r))
    with (k a r ++ (l ≫= (λ '(a, r), k a r))).
  by rewrite fmap_app, <- IH, Hk.
Qed.

(** The year that a format without [%Y] passes on is the one it started
    from. *)
Lemma format_regex_md_year y s :
  format_regex (py "-%m-%d") (y, 1, 1) s
  = (λ x, ((y, x.1.1.2, x.1.2), x.2)) <$> format_regex (py "-%m-%d") (0, 1, 1) s.
Proof.
  change (format_regex (py "-%m-%d") (y, 1, 1) s)
    with (re_seq (re_char 45) (λ _, re_seq re_m (λ m,
          re_seq (re_char 45) (λ _, re_seq re_d (λ d, re_ret (y, m, d))))) s).
  change (format_regex (py "-%m-%d") (0, 1, 1) s)
    with (re_seq (re_char 45) (λ _, re_seq re_m (λ m,
          re_seq (re_char 45) (λ _, re_seq re_d (λ d, re_ret (0, m, d))))) s).
  apply re_seq_fmap. intros _ r1. apply re_seq_fmap. intros m r2.
  apply re_seq_fmap. intros _ r3. apply re_seq_fmap. intros d r4. done.
Qed.

Definition md_parsed (m d : Z) : Prop :=
  head (format_regex (py "-%m-%d") (0, 1, 1) (45%N :: pad2 m ++ 45%N :: pad2 d))
  = Some ((0, m, d), []).

Local Instance md_parsed_dec m d : Decision (md_parsed m d).
Proof. unfold md_parsed. apply _. Defined.

Lemma md_parsed_all :
  Forall (λ m, Forall (md_parsed m) (seqZ 1 31)) (seqZ 1 12).
Proof. apply (bool_decide_unpack _). by vm_compute. Qed.

Lemma format_regex_md y m d :
  1 ≤ m ≤ 12 → 1 ≤ d ≤ 31 →
  ∃ rest, format_regex (py "-%m-%d") (y, 1, 1) (45%N :: pad2 m ++ 45%N :: pad2 d)
          = ((y, m, d), []) :: rest.
Proof.
  intros Hm Hd. pose proof md_parsed_all as Hall.
  rewrite Forall_forall in Hall. specialize (Hall m).
  rewrite Forall_forall in Hall. specialize (Hall ltac:(apply elem_of_seqZ; lia) d
                                              ltac:(apply elem_of_seqZ; lia)).
  unfold md_parsed in Hall. rewrite format_regex_md_year.
  destruct (format_regex _ (0, 1, 1) _) as [|x rest]; [done|].
  injection Hall as ->. by exists ((λ x, (y, x.1.1.2, x.1.2, x.2)) <$> rest).
Qed.

Lemma isoformat_date_word d : word (isoformat_date d).
Proof.
  split; [done|]. unfold isoformat_date, pad4, pad2.
  repeat (apply Forall_cons; split); try done;
    apply letters_not_space; left;
    match goal with |- (_ ≤ digit_char ?n ≤ _)%N => pose proof (digit_char_range n) end;
    lia.
Qed.

Lemma format_regex_Ymd s :
  format_regex (py "%Y-%m-%d") (1900, 1, 1) s
  = re_seq re_Y (λ y, format_regex (py "-%m-%d") (y, 1, 1)) s.
Proof. by simpl. Qed.

Lemma isoformat_date_app d :
  isoformat_date d
  = pad4 (year d) ++ 45%N :: pad2 (month d) ++ 45%N :: pad2 (day d).
Proof. reflexivity. Qed.

(** A date in the form [YYYY-MM-DD] is read back as the same date: the
    first format, [%Y-%m-%d], parses it. The dates that step 9 writes
    ([strftime('%Y-%m-%d')], for a year of four digits) are of this
    form. *)
Theorem parse_date_flexible_isoformat d :
  valid_date d = true →
  strptime (isoformat_date d) "%Y-%m-%d" = Returns d ∧
  parse_date_flexible (Str (isoformat_date d)) = Returns (Date d) ∧
  (1000 ≤ year d → parse_date_flexible (Str (strftime_Ymd d)) = Returns (Date d)).
Proof.
  intros Hvalid.
  assert (strptime (isoformat_date d) "%Y-%m-%d" = Returns d) as Hparse.
  { pose proof Hvalid as Hnew. unfold valid_date in Hnew.
    apply bool_decide_eq_true in Hnew.
    assert (1 ≤ year d ≤ 9999 ∧ 1 ≤ month d ≤ 12 ∧ 1 ≤ day d ≤ 31)
      as (Hy & Hm & Hd).
    { unfold datetime_new in Hnew. destruct (_ && _) eqn:Hok; [|done].
      repeat (apply andb_true_iff in Hok as [Hok ?]).
      assert (days_in_month (year d) (month d) ≤ 31); [|lia].
      unfold days_in_month. repeat case_match; lia. }
    unfold strptime.
    rewrite format_regex_Ymd, isoformat_date_app. unfold re_seq at 1.
    rewrite re_Y_pad4 by lia. cbn [mbind list_bind]. rewrite app_nil_r.
    destruct (format_regex_md (year d) (month d) (day d)) as [rest ->]; [done..|].
    done. }
  assert (parse_date_flexible (Str (isoformat_date d)) = Returns (Date d)) as Hiso.
  { unfold parse_date_flexible. cbn [isna orb py_str formats try_formats].
    rewrite bool_decide_eq_false_2 by done.
    assert (strip (isoformat_date d) = isoformat_date d) as ->.
    { unfold strip.
      rewrite <- (app_nil_r (isoformat_date d)) at 1.
      rewrite lstrip_word, app_nil_r by apply isoformat_date_word.
      apply rstrip_word, isoformat_date_word. }
    by rewrite Hparse. }
  split; [done|]. split; [done|].
  intros Hy. by rewrite strftime_Ymd_iso.
Qed.
End RoundTrip.

(** ** Which key of the product map a name resolves to *)

Section LastKey.
Context `{Unicode} `{Numeric} `{Pandas}.
Local Abbreviation dict := (list (pystr * cell)).
Implicit Types (pm : dict) (name k : pystr).

(** [productos_map_lower] is built by going through the items of
    [productos_map] in order, so of the keys with the normal form of a
    name the last one gives the identifier; the name is not found when
    no key has its normal form. *)
Theorem map_producto_last_key pm name :
  map_producto pm (Str name)
  = Returns (default Null
               (snd <$> last (filter (λ kv, normalize kv.1 = normalize name) pm))) ∧
  (Forall (λ kv, normalize kv.1 ≠ normalize name) pm →
   map_producto pm (Str name) = Returns Null) ∧
  (∀ k id, normalize k = normalize name →
     map_producto (pm ++ [(k, id)]) (Str name) = Returns id).
Proof.
  assert (∀ pm, productos_map_lower pm !! normalize name
                = snd <$> last (filter (λ kv, normalize kv.1 = normalize name) pm))
    as Hlast.
  { clear pm. intros pm. induction pm as [|[k v] pm IH] using rev_ind; [done|].
    rewrite productos_map_lower_snoc, filter_app.
    destruct (decide (normalize k = normalize name)) as [Hk|Hk].
    - rewrite Hk, lookup_insert_eq, filter_cons_True, filter_nil by done.
      by rewrite last_snoc.
    - rewrite lookup_insert_ne, filter_cons_False, filter_nil, app_nil_r by done.
      apply IH. }
  assert (∀ pm, map_producto pm (Str name)
                = Returns (default Null (productos_map_lower pm !! normalize name)))
    as Hmap by done.
  split; [by rewrite Hmap, Hlast|]. split.
  - intros Hnone. rewrite Hmap, Hlast.
    replace (filter _ pm) with (@nil (pystr * cell)); [done|].
    symmetry. induction Hnone as [|kv pm Hkv _ IH]; [done|].
    by rewrite filter_cons_False.
  - intros k id Hk. rewrite Hmap, productos_map_lower_snoc, Hk.
    by rewrite lookup_insert_eq.
Qed.
End LastKey.

(** ** Every outcome of [transform_ventas] on a batch with rows *)

Section Outcomes.
Context `{Unicode} `{Numeric} `{Pandas}.
Local Abbreviation dict := (list (pystr * cell)).
Local Abbreviation loc := nat.
Local Abbreviation heap := (list DataFrame).
Implicit Types (f g : DataFrame) (h : heap) (l : loc) (c : string) (pm : dict).

(** Step 1 on a column that may not be there. *)
Definition clean_if f c : DataFrame :=
  match assoc c (columns f) with
  | Some _ => assign f c dt_other (λ r, clean_string (r.2 !!! c))
  | None => f
  end.

Lemma assoc_None {A} c (cols : list (string * A)) :
  assoc c cols = None ↔ c ∉ cols.*1.
Proof.
  split.
  - intros Hc [a Ha]%assoc_Some. congruence.
  - intros Hc. destruct (assoc c cols) eqn:Ha; [|done].
    by apply assoc_elem_of in Ha.
Qed.

Lemma run_clean_column_if h f c :
  clean_column (length h) c (h ++ [f]) = (Returns (), h ++ [clean_if f c]).
Proof.
  unfold clean_if. destruct (assoc c (columns f)) as [dt|] eqn:Hc.
  - by eapply run_clean_column.
  - unfold clean_column. erewrite run_bind by apply run_deref, lookup_top.
    by rewrite bool_decide_eq_false_2 by by apply assoc_None.
Qed.

Lemma assoc_clean_if f c c' :
  c ≠ c' → assoc c (columns (clean_if f c')) = assoc c (columns f).
Proof.
  intros Hc. unfold clean_if. destruct (assoc c' (columns f)); [|done].
  by rewrite columns_assign, assoc_set_assoc, decide_False.
Qed.

Lemma column_clean_if f c c' :
  c ≠ c' → column (clean_if f c') c = column f c.
Proof.
  intros Hc. unfold clean_if, column. destruct (assoc c' (columns f)); [|done].
  rewrite rows_assign, <- list_fmap_compose. apply list_fmap_ext.
  intros i r _. simpl. by rewrite lookup_total_insert_ne.
Qed.

(** [df_work] when step 1 is over *)
Definition cleaned f : DataFrame :=
  clean_if (clean_if (clean_if f "producto") "tienda") "vendedor".

Lemma elem_of_column_names f c :
  c ∈ column_names f ↔ is_Some (assoc c (columns f)).
Proof.
  split; [by intros [a ->]%assoc_Some|]. intros [a Ha]. by eapply assoc_elem_of.
Qed.

Lemma column_names_clean_if f c c' :
  c ∈ column_names (clean_if f c') ↔ c ∈ column_names f.
Proof.
  rewrite !elem_of_column_names.
  destruct (decide (c = c')) as [->|Hc]; [|by rewrite assoc_clean_if].
  unfold clean_if. destruct (assoc c' (columns f)) as [dt|] eqn:Hf; [|by rewrite Hf].
  rewrite columns_assign, assoc_set_assoc, decide_True by done. by split.
Qed.

Lemma column_names_cleaned f c :
  c ∈ column_names (cleaned f) ↔ c ∈ column_names f.
Proof. unfold cleaned. by rewrite !column_names_clean_if. Qed.

Lemma assoc_cleaned_None f c :
  assoc c (columns (cleaned f)) = None → c ∉ column_names f.
Proof. rewrite <- column_names_cleaned. apply assoc_None. Qed.

Lemma assoc_cleaned_Some f c dt :
  assoc c (columns (cleaned f)) = Some dt → c ∈ column_names f.
Proof. rewrite <- column_names_cleaned. apply assoc_elem_of. Qed.

Lemma column_cleaned_fecha f : column (cleaned f) "fecha" = column f "fecha".
Proof. unfold cleaned. by rewrite !column_clean_if. Qed.

Lemma column_cleaned_producto f dt :
  assoc "producto" (columns (cleaned f)) = Some dt →
  column (cleaned f) "producto" = clean_string <$> column f "producto".
Proof.
  intros Hc%assoc_cleaned_Some. apply assoc_Some in Hc as [dt' Hc].
  unfold cleaned. rewrite !column_clean_if by done.
  unfold clean_if, column. rewrite Hc, rows_assign, <- !list_fmap_compose.
  apply list_fmap_ext. intros i r _. simpl. by rewrite lookup_total_insert_eq.
Qed.

Ltac heap_lookup :=
  first [ apply lookup_top | repeat apply lookup_below; eassumption ].
Ltac solve_assoc :=
  simpl; rewrite ?assoc_set_assoc;
  repeat first [ rewrite decide_True by done | rewrite decide_False by done ];
  first [ eassumption | reflexivity ].
Ltac step_getitem :=
  erewrite run_bind by (eapply run_getitem; [heap_lookup | solve_assoc]).
Ltac step_reject :=
  match goal with
  | |- context [(reject _ ?m ?r (?rr, ?rs) ≫= _) (?h0 ++ [?fw])] =>
      let reasons := fresh "reasons" in
      let Hr := fresh "Hr" in
      destruct (run_reject (h0 ++ [fw]) (length h0) fw m r rr rs (lookup_top _ _))
        as [reasons Hr];
      erewrite run_bind by exact Hr; clear Hr
  end.

Lemma getitem_list_missing f cols c :
  c ∈ cols → c ∉ column_names f → getitem_list f cols = Raises KeyError.
Proof.
  intros Hin Hc. unfold getitem_list.
  replace (forallb _ cols) with false; [done|]. symmetry.
  induction cols as [|c' cols IH]; [by apply elem_of_nil in Hin|].
  apply elem_of_cons in Hin as [<-|Hin]; simpl.
  - by rewrite bool_decide_eq_false_2.
  - rewrite IH by done. apply andb_false_r.
Qed.

Definition first_columns : list string :=
  ["fecha"; "cantidad"; "precio_unitario"; "producto"].
Definition last_columns : list string := ["tienda"; "vendedor"].

(** The outcome of [transform_ventas] on a frame with rows, column by
    column in the order in which the code asks for them. *)
Definition outcome_of pm f : outcome TransformResult :=
  if bool_decide (Forall (λ c, c ∈ column_names f) first_columns)
  then match infer_dtype (date_resolver <$> column f "fecha") with
       | dt_other => Raises AttributeError
       | dt_datetime64 =>
           if bool_decide (Forall (λ c, c ∈ column_names f) last_columns)
           then Returns (result_of pm f)
           else Raises KeyError
       end
  else Raises KeyError.

Lemma required_columns_split f :
  Forall (λ c, c ∈ column_names f) required_columns ↔
  Forall (λ c, c ∈ column_names f) first_columns ∧
  Forall (λ c, c ∈ column_names f) last_columns.
Proof.
  unfold required_columns, first_columns, last_columns.
  rewrite !Forall_cons, !Forall_nil. tauto.
Qed.

Ltac missing_first :=
  match goal with
  | Hc : assoc ?c (columns (cleaned ?f)) = None |- _ =>
      unfold outcome_of; rewrite bool_decide_eq_false_2; [done|];
      let HF := fresh in
      intros HF; apply assoc_cleaned_None in Hc; destruct Hc;
      apply (proj1 (Forall_forall _ _) HF);
      unfold first_columns; repeat first [ by left | right ]
  end.

Lemma transform_ventas_outcome_missing h l f pm :
  h !! l = Some f → df_empty f = false →
  ¬ Forall (λ c, c ∈ column_names f) required_columns →
  (transform_ventas (Some l) pm h).1 = outcome_of pm f.
Proof.
  intros Hl Hne Hmiss. unfold transform_ventas.
  erewrite run_bind by by apply run_deref.
  rewrite Hne.
  erewrite run_bind by by apply run_copy.
  do 3 erewrite run_bind by apply run_clean_column_if.
  fold (cleaned f).
  (* 2 *)
  destruct (assoc "fecha" (columns (cleaned f))) as [dt_fecha|] eqn:Hfecha.
  2:{ erewrite run_bind_raises
        by (eapply run_getitem_missing; [heap_lookup|solve_assoc]).
      missing_first. }
  step_getitem.
  rewrite (Series_apply_total _ _ date_resolver)
    by (apply Forall_true; intros; apply parse_date_flexible_resolver).
  erewrite run_bind by done.
  rewrite <- !list_fmap_compose.
  erewrite run_bind by apply run_setitem.
  step_getitem. step_reject.
  (* 3 *)
  destruct (assoc "cantidad" (columns (cleaned f))) as [dt_cantidad|] eqn:Hcantidad.
  2:{ erewrite run_bind_raises
        by (eapply run_getitem_missing; [heap_lookup|solve_assoc]).
      missing_first. }
  step_getitem. rewrite to_numeric_fmap.
  erewrite run_bind by apply run_setitem.
  destruct (assoc "precio_unitario" (columns (cleaned f))) as [dt_precio|] eqn:Hprecio.
  2:{ erewrite run_bind_raises
        by (eapply run_getitem_missing; [heap_lookup|solve_assoc]).
      missing_first. }
  step_getitem. rewrite to_numeric_fmap.
  erewrite run_bind by apply run_setitem.
  (* 4 *)
  step_getitem. step_getitem. step_reject. step_reject.
  (* 5 *)
  destruct (assoc "producto" (columns (cleaned f))) as [dt_producto|] eqn:Hproducto.
  2:{ erewrite run_bind_raises
        by (eapply run_getitem_missing; [heap_lookup|solve_assoc]).
      missing_first. }
  step_getitem.
  rewrite (Series_apply_total _ _ (lookup_producto pm)).
  2:{ rewrite !rows_assign, <- !list_fmap_compose. apply Forall_fmap.
      pose proof (column_cleaned_producto f _ Hproducto) as Hcol.
      assert (Forall (λ v, map_producto pm v = Returns (lookup_producto pm v))
                (column (cleaned f) "producto")) as Hall.
      { rewrite Hcol. apply Forall_fmap, Forall_true. intros v.
        apply map_producto_clean. }
      unfold column in Hall. apply Forall_fmap in Hall.
      apply Forall_impl with (1 := Hall). intros r Hr. simpl.
      by rewrite !lookup_total_insert_ne. }
  erewrite run_bind by done.
  rewrite <- !list_fmap_compose.
  erewrite run_bind by apply run_setitem.
  step_getitem. step_reject.
  (* 6 *)
  erewrite run_bind by (apply run_deref; heap_lookup).
  erewrite run_bind by apply run_alloc.
  erewrite run_bind by (apply run_deref; heap_lookup).
  (* 7 *)
  erewrite run_bind by (apply run_deref; heap_lookup).
  erewrite run_bind by apply run_alloc.
  (* 8 *)
  step_getitem. step_getitem.
  rewrite Series_mul_fmap.
  erewrite run_bind by apply run_setitem.
  (* 9 *)
  step_getitem.
  unfold Series_dt_strftime. cbn [s_dtype s_values].
  assert (Forall (λ c, c ∈ column_names f) first_columns) as Hfirst.
  { unfold first_columns. repeat constructor; by eapply assoc_cleaned_Some. }
  unfold outcome_of. rewrite bool_decide_eq_true_2 by done.
  assert (date_resolver ∘ (λ r : Z * gmap string cell, r.2 !!! "fecha")
            <$> rows (cleaned f) = date_resolver <$> column f "fecha") as ->.
  { rewrite <- column_cleaned_fecha. unfold column.
    by rewrite <- list_fmap_compose. }
  destruct (infer_dtype (date_resolver <$> column f "fecha")).
  2:{ by erewrite run_bind_raises by done. }
  erewrite run_bind by done.
  rewrite <- !list_fmap_compose.
  erewrite run_bind by apply run_setitem.
  (* 10 *)
  erewrite run_bind by (apply run_deref; heap_lookup).
  rewrite bool_decide_eq_false_2.
  2:{ intros Hlast. destruct Hmiss. by apply required_columns_split. }
  assert (∃ c, (c = "tienda" ∨ c = "vendedor") ∧
               assoc c (columns (cleaned f)) = None) as (c & Hc & Hnone).
  { destruct (assoc "tienda" (columns (cleaned f))) eqn:Htienda; [|eauto].
    destruct (assoc "vendedor" (columns (cleaned f))) eqn:Hvendedor; [|eauto].
    destruct Hmiss. apply required_columns_split. split; [done|].
    unfold last_columns. repeat constructor; by eapply assoc_cleaned_Some. }
  erewrite run_bind_raises; [done|].
  unfold lift. erewrite (getitem_list_missing _ _ c); [done| |].
  - unfold columnas_finales. destruct Hc as [-> | ->]; set_solver.
  - apply assoc_None.
    destruct Hc as [-> | ->]; simpl; rewrite ?assoc_set_assoc;
      repeat first [ rewrite decide_True by done | rewrite decide_False by done ];
      done.
Qed.

Lemma transform_ventas_outcome_1 h l f pm :
  h !! l = Some f → df_empty f = false →
  assoc "fecha" (columns (cleaned f)) = None →
  (transform_ventas (Some l) pm h).1 = Raises KeyError.
Proof.
  intros Hl Hne Hfecha. unfold transform_ventas.
  erewrite run_bind by by apply run_deref.
  rewrite Hne.
  erewrite run_bind by by apply run_copy.
  do 3 erewrite run_bind by apply run_clean_column_if.
  fold (cleaned f).
  by erewrite run_bind_raises by (eapply run_getitem_missing; [heap_lookup|done]).
Qed.

Lemma fecha_parsed_dtype_column f :
  fecha_parsed_dtype f = infer_dtype (date_resolver <$> column f "fecha").
Proof.
  unfold fecha_parsed_dtype, column.
  rewrite rows_df_work_1, <- !list_fmap_compose. f_equal.
  apply list_fmap_ext. intros i r _. simpl. f_equal.
  unfold work_row_1. cbv zeta. by rewrite !lookup_total_insert_ne.
Qed.

Lemma transform_ventas_outcome_of h l f pm :
  h !! l = Some f → df_empty f = false →
  (transform_ventas (Some l) pm h).1 = outcome_of pm f.
Proof.
  intros Hl Hne.
  destruct (decide (Forall (λ c, c ∈ column_names f) required_columns))
    as [Hreq|Hreq]; [|by apply transform_ventas_outcome_missing].
  rewrite (transform_ventas_run h l f) by done.
  rewrite fecha_parsed_dtype_column. unfold outcome_of.
  apply required_columns_split in Hreq as [Hfirst Hlast].
  rewrite !bool_decide_eq_true_2 by done.
  by destruct (infer_dtype _).
Qed.

(** The column [fecha_parsed] is a [datetime64] column when some date
    of the batch is resolved and every resolved date fits. *)
Definition dated f : Prop :=
  (∃ v d, v ∈ column f "fecha" ∧ date_resolver v = Date d) ∧
  (∀ v d, v ∈ column f "fecha" → date_resolver v = Date d →
          datetime64_fits d = true).

Lemma infer_dtype_dated f :
  infer_dtype (date_resolver <$> column f "fecha") = dt_datetime64 ↔ dated f.
Proof.
  unfold infer_dtype, dated.
  destruct (existsb _ _) eqn:Hex; simpl.
  - apply existsb_exists in Hex as (x & Hx & Hd).
    apply list_elem_of_In, list_elem_of_fmap in Hx as (v & -> & Hv).
    destruct (date_resolver v) as [| | |d] eqn:Hdv; try done.
    destruct (forallb _ _) eqn:Hall.
    + split; [intros _|done]. split; [eauto|].
      intros v' d' Hv' Hd'. rewrite forallb_forall in Hall.
      specialize (Hall (date_resolver v')). rewrite Hd' in Hall.
      apply Hall, list_elem_of_In, list_elem_of_fmap. eauto.
    + split; [done|]. intros [_ Hfit].
      assert (forallb (λ x, match x with
                            | Date d => datetime64_fits d
                            | Null => true
                            | _ => false
                            end) (date_resolver <$> column f "fecha") = true)
        as Hall'; [|congruence].
      apply forallb_forall. intros x [v' [-> Hv']]%list_elem_of_In%list_elem_of_fmap.
      destruct (date_resolver_cases v') as [->|(d' & Hd' & _)]; [done|].
      rewrite Hd'. eauto.
  - split; [done|]. intros [(v & d & Hv & Hd) _].
    assert (existsb (λ x, match x with Date _ => true | _ => false end)
              (date_resolver <$> column f "fecha") = true) as Hex'; [|congruence].
    apply existsb_exists. exists (Date d). split; [|done].
    apply list_elem_of_In, list_elem_of_fmap. eauto.
Qed.

(** On a batch with rows, [transform_ventas] asks for the columns in a
    fixed order and fails at the first thing it does not find:
    [KeyError] when [fecha], [cantidad], [precio_unitario] or [producto]
    is not a column; otherwise [AttributeError] when the column
    [fecha_parsed] is not a [datetime64] column; otherwise [KeyError]
    when [tienda] or [vendedor] is not a column. In the one case left it
    returns. *)
Theorem transform_ventas_outcomes h l f pm :
  h !! l = Some f → df_empty f = false →
  let has c := c ∈ column_names f in
  (¬ (has "fecha" ∧ has "cantidad" ∧ has "precio_unitario" ∧ has "producto") →
   (transform_ventas (Some l) pm h).1 = Raises KeyError) ∧
  (has "fecha" → has "cantidad" → has "precio_unitario" → has "producto" →
   ¬ dated f →
   (transform_ventas (Some l) pm h).1 = Raises AttributeError) ∧
  (has "fecha" → has "cantidad" → has "precio_unitario" → has "producto" →
   dated f → ¬ (has "tienda" ∧ has "vendedor") →
   (transform_ventas (Some l) pm h).1 = Raises KeyError) ∧
  (has "fecha" → has "cantidad" → has "precio_unitario" → has "producto" →
   dated f → has "tienda" → has "vendedor" →
   (transform_ventas (Some l) pm h).1 = Returns (result_of pm f)).
Proof.
  intros Hl Hne has. rewrite (transform_ventas_outcome_of h l f) by done.
  unfold outcome_of, first_columns, last_columns.
  pose proof (infer_dtype_dated f) as Hdated.
  repeat split.
  - intros Hnot. rewrite bool_decide_eq_false_2; [done|].
    rewrite !Forall_cons. tauto.
  - intros ? ? ? ? Hnd. rewrite bool_decide_eq_true_2 by by repeat constructor.
    destruct (infer_dtype _); [|done]. destruct Hnd. by apply Hdated.
  - intros ? ? ? ? Hd Hnot. rewrite bool_decide_eq_true_2 by by repeat constructor.
    apply Hdated in Hd as ->. rewrite bool_decide_eq_false_2; [done|].
    rewrite !Forall_cons. tauto.
  - intros ? ? ? ? Hd ? ?. rewrite !bool_decide_eq_true_2 by by repeat constructor.
    by apply Hdated in Hd as ->.
Qed.

Lemma transform_ventas_returned df pm h res h' :
  transform_ventas df pm h = (Returns res, h') →
  ∃ l f, df = Some l ∧ h !! l = Some f ∧ df_empty f = false ∧
         Forall (λ c, c ∈ column_names f) required_columns ∧ dated f ∧
         res = result_of pm f.
Proof.
  intros Hrun. destruct df as [l|]; [|done]. exists l.
  destruct (h !! l) as [f|] eqn:Hl.
  2:{ unfold transform_ventas in Hrun.
      erewrite run_bind_raises in Hrun by (unfold deref; by rewrite Hl). done. }
  exists f. destruct (df_empty f) eqn:Hne.
  { unfold transform_ventas in Hrun.
    erewrite run_bind in Hrun by by apply run_deref. by rewrite Hne in Hrun. }
  pose proof (transform_ventas_outcome_of h l f pm Hl Hne) as Hout.
  rewrite Hrun in Hout. simpl in Hout. unfold outcome_of in Hout.
  case_bool_decide as Hfirst; [|done].
  destruct (infer_dtype _) eqn:Hdt; [|done].
  case_bool_decide as Hlast; [|done]. injection Hout as ->.
  split; [done|]. split; [done|]. split; [done|].
  split; [by apply required_columns_split|].
  split; [by apply infer_dtype_dated|done].
Qed.

(** What a call that returns has been given and gives back: the batch is
    a frame with rows, the six columns of the input format and a date
    that is resolved, and the result has [succes = True] and no error
    text. No call returns a result with [succes = False]. *)
Theorem transform_ventas_returns_success df pm h res h' :
  transform_ventas df pm h = (Returns res, h') →
  succes res = PBool true ∧ error res = PNone ∧
  ∃ l f, df = Some l ∧ h !! l = Some f ∧ df_empty f = false ∧
         Forall (λ c, c ∈ column_names f) required_columns ∧ dated f ∧
         rows_input res = PInt (Z.of_nat (len f)).
Proof.
  intros (l & f & -> & Hl & Hne & Hreq & Hd & ->)%transform_ventas_returned.
  split; [done|]. split; [done|]. by exists l, f.
Qed.
End Outcomes.

(** ** The accepted rows, and how the counts add up *)

Section Counts.
Context `{Unicode} `{Numeric} `{Pandas}.
Local Abbreviation dict := (list (pystr * cell)).
Local Abbreviation loc := nat.
Local Abbreviation heap := (list DataFrame).
Implicit Types (f : DataFrame) (h : heap) (l : loc) (pm : dict)
  (r : gmap string cell).

Lemma lookup_clean_row pm r c :
  c ≠ "total" → c ≠ "fecha" → clean_row pm r !!! c = work_row pm r !!! c.
Proof.
  intros ? ?. unfold clean_row. cbv zeta. by rewrite !lookup_total_insert_ne.
Qed.

(** Every accepted row has passed the four rules: its quantity and its
    unit price are numbers above zero, its product identifier is the one
    that [map_producto] finds for the cleaned name and is not missing,
    and its store and salesperson are the cleaned texts of the batch. *)
Theorem accepted_rows_pass_every_rule pm h l f res h' :
  h !! l = Some f →
  transform_ventas (Some l) pm h = (Returns res, h') →
  ∃ out, data res = PFrame out ∧ rows_output res = PInt (Z.of_nat (len out)) ∧
    Forall (λ x, ∃ raw q p id,
      (x.1, raw) ∈ rows f ∧
      x.2 !! "cantidad" = Some (Num q) ∧ num_le0 q = false ∧
      x.2 !! "precio_unitario" = Some (Num p) ∧ num_le0 p = false ∧
      x.2 !! "producto_id" = Some id ∧ id ≠ Null ∧
      map_producto pm (clean_string (raw !!! "producto")) = Returns id ∧
      x.2 !! "tienda" = Some (clean_string (raw !!! "tienda")) ∧
      x.2 !! "vendedor" = Some (clean_string (raw !!! "vendedor"))) (rows out).
Proof.
  intros Hl Hrun.
  pose proof Hrun as (l' & f' & [= <-] & Hl' & _ & _ & _ & ->)%transform_ventas_returned.
  assert (f' = f) as -> by congruence.
  exists (df_output pm f). split; [done|]. split; [done|].
  rewrite rows_df_output. apply Forall_fmap, Forall_forall.
  intros [i raw] [Hin Hm]%elem_of_accepted. cbn [fst snd] in *.
  unfold marked in Hm. apply orb_false_elim in Hm as [Hm Hprod].
  apply orb_false_elim in Hm as [Hm Hprecio].
  apply orb_false_elim in Hm as [_ Hcantidad].
  apply numero_valido in Hcantidad as (q & Hq & Hq0).
  apply numero_valido in Hprecio as (p & Hp & Hp0).
  exists raw, q, p, (lookup_producto pm (clean_string (raw !!! "producto"))).
  cbn [fst snd].
  rewrite !lookup_output_row by (unfold columnas_finales; set_solver).
  rewrite !lookup_clean_row by done.
  rewrite work_row_cantidad, work_row_precio, work_row_producto_id,
    work_row_tienda, work_row_vendedor, Hq, Hp.
  split; [done|]. split; [done|]. split; [done|]. split; [done|].
  split; [done|]. split; [done|]. split.
  { unfold producto_no_encontrado in Hprod. by destruct (lookup_producto _ _). }
  split; [apply map_producto_clean|done].
Qed.

Lemma count_two {A} (m k : A → bool) (xs : list A) :
  (length (filter (λ x, negb (m x) && k x) xs) + length (filter (λ x, m x) xs)
   + length (filter (λ x, negb (k x)) xs)
   = length xs + length (filter (λ x, m x && negb (k x)) xs))%nat.
Proof.
  induction xs as [|x xs IH]; [done|]. rewrite !filter_cons. cbn beta.
  destruct (m x), (k x); simpl; lia.
Qed.

Lemma sublist_filter_index {A} (xs sub : list (Z * A)) :
  NoDup xs.*1 → sub `sublist_of` xs → sub = filter (λ x, x.1 ∈ sub.*1) xs.
Proof.
  intros Hnd Hsub. induction Hsub as [|x sub xs Hsub IH|x sub xs Hsub IH].
  - done.
  - apply NoDup_cons in Hnd as [Hx Hnd].
    rewrite filter_cons_True by (simpl; set_solver). f_equal.
    rewrite (IH Hnd) at 1. apply filter_iff_in. intros y Hy. simpl.
    rewrite elem_of_cons. split; [auto|]. intros [Heq|?]; [|done].
    destruct Hx. rewrite <- Heq. apply list_elem_of_fmap. by exists y.
  - apply NoDup_cons in Hnd as [Hx Hnd].
    rewrite filter_cons_False; [by apply IH|].
    intros Hin. destruct Hx. eapply elem_of_sublist; [done|].
    by apply fmap_sublist.
Qed.

Lemma filter_fmap_fst {A} (P : Z → Prop) `{∀ i, Decision (P i)} (xs : list (Z * A)) :
  filter P xs.*1 = (filter (λ x, P x.1) xs).*1.
Proof.
  induction xs as [|x xs IH]; [done|]. rewrite fmap_cons, !filter_cons.
  case_decide; by rewrite ?fmap_cons, IH.
Qed.

(** The four counts of a result. When the labels of the batch are all
    different, [rows_output + rows_rejected + duplicados_eliminados]
    is [rows_input] plus the number of rows that are both in the
    rejected output and among the rows that step 6 removed; so the
    accepted and the rejected rows together are never more than the
    batch, and with the removed rows they are never fewer. *)
Theorem row_counts_reconcile pm h l f res h' :
  h !! l = Some f → NoDup (index f) →
  transform_ventas (Some l) pm h = (Returns res, h') →
  ∃ rej before after d (n_out n_rej n_dup : nat),
    rejected_data res = PFrame rej ∧
    h' !! length h = Some before ∧ h' !! S (length h) = Some after ∧
    rows_input res = PInt (Z.of_nat (len f)) ∧
    rows_output res = PInt (Z.of_nat n_out) ∧
    rows_rejected res = PInt (Z.of_nat n_rej) ∧
    stats res = PDict d ∧
    assoc "duplicados_eliminados" d = Some (Z.of_nat n_dup) ∧
    n_dup = length (removed_as_duplicate before after) ∧
    (n_out + n_rej + n_dup
     = len f + length (filter (λ i, i ∈ index rej)
                         (removed_as_duplicate before after)))%nat ∧
    (n_out + n_rej ≤ len f ≤ n_out + n_rej + n_dup)%nat.
Proof.
  intros Hl Hnd Hrun.
  pose proof Hrun as (l' & f' & [= <-] & Hl' & _ & Hreq & _ & ->)%transform_ventas_returned.
  assert (f' = f) as -> by congruence.
  apply (transform_ventas_returns pm h l f) in Hrun as [_ ->]; [|done..].
  set (kept := λ x : Z * gmap string cell, bool_decide (x.1 ∈ (survivors f).*1)).
  set (bad := λ x : Z * gmap string cell, marked pm x.2).
  assert (survivors f = filter (λ x, kept x) (rows f)) as Hsurv.
  { rewrite (sublist_filter_index (rows f) (survivors f) Hnd (survivors_sublist f)) at 1.
    apply filter_iff_in. intros x _. unfold kept. by rewrite bool_decide_spec. }
  assert (∀ x, x ∈ rows f → (x.1 ∈ all_rejected pm f ↔ bad x)) as Hbad.
  { intros [i raw] Hin. unfold bad. simpl. rewrite elem_of_all_rejected, Is_true_true.
    split; [|eauto]. intros (raw' & Hin' & Hm).
    by rewrite (NoDup_index_inj (rows f) i raw raw' Hnd Hin Hin'). }
  assert (length (accepted pm f)
          = length (filter (λ x, negb (bad x) && kept x) (rows f))) as Hout.
  { unfold accepted. rewrite Hsurv at 1. rewrite list_filter_filter. f_equal.
    apply filter_iff_in. intros x Hx. rewrite (Hbad x Hx).
    rewrite andb_True, negb_True. unfold kept. by rewrite bool_decide_spec. }
  assert (removed_as_duplicate (df_work_5 pm f) (df_work_6 pm f)
          = (filter (λ x, negb (kept x)) (rows f)).*1) as Hrem.
  { unfold removed_as_duplicate. rewrite index_df_work_5, index_df_work_6.
    unfold index. rewrite filter_fmap_fst. f_equal.
    apply filter_iff_in. intros x _. unfold kept.
    by rewrite negb_True, bool_decide_spec. }
  assert (length (filter (λ i, i ∈ index (df_rejected pm f))
                    (removed_as_duplicate (df_work_5 pm f) (df_work_6 pm f)))
          = length (filter (λ x, bad x && negb (kept x)) (rows f))) as Hover.
  { rewrite Hrem, filter_fmap_fst, length_fmap, list_filter_filter. f_equal.
    apply filter_iff_in. intros [i raw] Hx. simpl.
    rewrite andb_True. unfold index.
    rewrite (elem_of_index_sub (rows f) _ i raw Hnd); [| |done].
    - rewrite rows_df_rejected, list_elem_of_filter. simpl.
      rewrite (Hbad (i, raw) Hx). tauto.
    - intros x. rewrite rows_df_rejected. by intros [_ ?]%list_elem_of_filter. }
  pose proof (count_two bad kept (rows f)) as Hcount.
  assert (len (df_rejected pm f) = length (filter (λ x, bad x) (rows f))) as Hrej.
  { unfold len, bad. by rewrite rows_df_rejected_marked. }
  assert (len (df_work_6 pm f) + length (filter (λ x, negb (kept x)) (rows f))
          = len f)%nat as Hdup.
  { unfold len. rewrite rows_df_work_6, length_fmap, Hsurv. clear.
    induction (rows f) as [|x xs IH]; [done|]. rewrite !filter_cons. cbn beta.
    destruct (kept x); simpl; lia. }
  exists (df_rejected pm f), (df_work_5 pm f), (df_work_6 pm f), (stats_of pm f),
    (len (df_output pm f)), (len (df_rejected pm f)),
    (length (filter (λ x, negb (kept x)) (rows f))).
  split; [done|]. split; [by apply list_lookup_middle|].
  split; [by rewrite (lookup_app_r h), Nat.sub_succ_l, Nat.sub_diag by lia|].
  split; [done|]. split; [done|]. split; [done|]. split; [done|].
  split.
  { unfold stats_of. cbn [assoc]. repeat (rewrite decide_False by done).
    rewrite decide_True by done. f_equal.
    assert (len (df_work_5 pm f) = len f) as ->.
    { unfold len. by rewrite rows_df_work_5, length_fmap. }
    lia. }
  split; [by rewrite Hrem, length_fmap|].
  assert (len (df_output pm f) = length (accepted pm f)) as Hlen.
  { unfold len. by rewrite rows_df_output, length_fmap. }
  rewrite Hover, Hlen, Hout, Hrej. unfold len in *.
  pose proof (length_filter (λ x, bad x && negb (kept x)) (rows f)).
  assert (length (filter (λ x, bad x && negb (kept x)) (rows f))
          ≤ length (filter (λ x, negb (kept x)) (rows f)))%nat.
  { clear. induction (rows f) as [|x xs IH]; [done|]. rewrite !filter_cons. cbn beta.
    destruct (bad x), (kept x); simpl; lia. }
  lia.
Qed.
End Counts.

(** ** The further properties at concrete batches *)

Section MoreExamples.
Local Existing Instance latin1_unicode.
Local Existing Instance int_numeric.
Local Existing Instance pandas_ns.

(** The 29th of February 2024, written and read again. *)
Lemma parse_date_flexible_isoformat_witness :
  valid_date (mk_datetime 2024 2 29) = true ∧
  parse_date_flexible (Str (isoformat_date (mk_datetime 2024 2 29)))
  = Returns (Date (mk_datetime 2024 2 29)).
Proof.
  split; [reflexivity|].
  apply (parse_date_flexible_isoformat (mk_datetime 2024 2 29)). reflexivity.
Defined.

(** A batch without the column [cantidad]. *)
Definition batch_sin_cantidad : DataFrame :=
  mk_DataFrame [("fecha", dt_other); ("producto", dt_other)]
    [(0, {[ "fecha" := txt "2024-01-15"; "producto" := txt "Widget" ]})].

Lemma transform_ventas_outcomes_witness :
  (transform_ventas (Some 0%nat) catalogo [batch_sin_cantidad]).1 = Raises KeyError.
Proof.
  destruct (transform_ventas_outcomes [batch_sin_cantidad] 0%nat batch_sin_cantidad
              catalogo eq_refl eq_refl) as (Hkey & _).
  apply Hkey. intros (_ & Hc & _). cbn in Hc.
  apply elem_of_cons in Hc as [Hc|Hc]; [done|].
  apply elem_of_cons in Hc as [Hc|Hc]; [done|].
  by apply elem_of_nil in Hc.
Defined.

Lemma transform_ventas_returns_success_witness :
  succes (result_of catalogo batch) = PBool true ∧
  error (result_of catalogo batch) = PNone.
Proof.
  destruct (transform_ventas_returns_success (Some 0%nat) catalogo [batch]
              (result_of catalogo batch) _ batch_run) as (Hs & He & _).
  by split.
Defined.

Lemma accepted_rows_pass_every_rule_witness :
  ∃ out, data (result_of catalogo batch) = PFrame out ∧
    Forall (λ x, ∃ q p, x.2 !! "cantidad" = Some (Num q) ∧ num_le0 q = false ∧
                        x.2 !! "precio_unitario" = Some (Num p) ∧
                        num_le0 p = false) (rows out).
Proof.
  destruct (accepted_rows_pass_every_rule catalogo [batch] 0%nat batch
              (result_of catalogo batch) _ eq_refl batch_run)
    as (out & Hdata & _ & Hrows).
  exists out. split; [done|].
  apply Forall_impl with (1 := Hrows).
  intros x (raw & q & p & id & _ & Hq & Hq0 & Hp & Hp0 & _). by exists q, p.
Defined.

(** In [batch] one row is accepted, three are rejected and two are
    removed; row 2 is both rejected and removed: 1 + 3 + 2 = 5 + 1. *)
Lemma row_counts_reconcile_witness :
  ∃ n_out n_rej n_dup : nat,
    rows_output (result_of catalogo batch) = PInt (Z.of_nat n_out) ∧
    rows_rejected (result_of catalogo batch) = PInt (Z.of_nat n_rej) ∧
    (n_out + n_rej ≤ len batch ≤ n_out + n_rej + n_dup)%nat.
Proof.
  destruct (row_counts_reconcile catalogo [batch] 0%nat batch
              (result_of catalogo batch) _ eq_refl batch_NoDup batch_run)
    as (rej & before & after & d & n_out & n_rej & n_dup & _ & _ & _ & _ &
        Hout & Hrej & _ & _ & _ & _ & Hle).
  exists n_out, n_rej, n_dup. exact (conj Hout (conj Hrej Hle)).
Defined.
End MoreExamples.

(** * The load stage ([src/etl/load.py])

    [load_to_supabase] sends the rows of a frame to a table of the
    Supabase service in batches. The service is not part of the
    repository: what the code makes of its answers is modelled against an
    interface that tells whether the client can be created and whether
    the [execute()] of a request returns or raises. The requests that
    the code sends are kept in a log, in the order in which they are
    sent. *)

(** [range(start, stop, step)]: [ValueError] for a step of zero. *)
Definition py_range (start stop step : Z) : outcome (list Z) :=
  if step =? 0 then Raises ValueError
  else
    let n := if 0 <? step then (stop - start + step - 1) / step
             else (start - stop - step - 1) / (- step) in
    Returns ((λ k, start + k * step) <$> seqZ 0 n).

(** [l[lo:hi]]: a negative bound counts from the end, and both bounds
    are clipped to the list. *)
Definition slice_index (i n : Z) : Z :=
  if i <? 0 then Z.max 0 (i + n) else Z.min i n.
Definition py_slice {A} (l : list A) (lo hi : Z) : list A :=
  let n := Z.of_nat (length l) in
  let a := slice_index lo n in
  let b := slice_index hi n in
  take (Z.to_nat (b - a)) (drop (Z.to_nat a) l).

Section Load.
Context `{Numeric}.

(** A row as [df.to_dict('records')] gives it: a dict from column names
    to values, in the order of the columns. *)
Definition record : Type := list (string * cell).

(** The requests of the repository: the select of all columns with its
    [eq] filters ([extract_from_supabase], extract.py, lines 72-78), and
    the insert and the upsert of a batch ([load_to_supabase]). *)
Inductive request :=
| Select (table_name : string) (filters : list (string * cell))
| Insert (table_name : string) (batch : list record)
| Upsert (table_name : string) (batch : list record) (on_conflict : string).

(** The service: [create_client] tells whether the client can be
    created ([get_supabase_client] raises [ConnectionError] otherwise),
    and [execute log req] whether the [execute()] of the request [req]
    returns, after the requests of [log]; it raises otherwise. *)
Class Supabase := {
  create_client : bool;
  execute : list request → request → bool;
}.
Context `{Supabase}.

(** [LoadResult] (lines 8-14) *)
Record LoadResult := mk_LoadResult {
  load_success : bool;
  rows_loaded : Z;
  rows_failed : Z;
  load_error : option pystr;
}.

(** What [load_to_supabase] can raise: [ConnectionError] from
    [get_supabase_client], and the [ValueError] of [range]. *)
Inductive load_exn := ConnectionError | Builtin (e : exn).

Definition to_dict_records (df : DataFrame) : list record :=
  (λ r, (λ c, (c, r.2 !!! c)) <$> column_names df) <$> rows df.

(** Lines 52-57. The values of a [datetime64] column come out of
    [to_dict] as [pd.Timestamp]; a date in a column of another dtype is
    a [datetime.datetime], which the [isinstance] test does not match. *)
Definition clean_value (dt : dtype) (value : cell) : cell :=
  if isna value then Null
  else match value, dt with
       | Date d, dt_datetime64 => Str (isoformat_date d ++ py "T00:00:00")
       | _, _ => value
       end.
Definition clean_record (cols : list (string * dtype)) (rec : record) : record :=
  (λ kv, (kv.1, clean_value (default dt_other (assoc kv.1 cols)) kv.2)) <$> rec.

(** The request of one batch (lines 65-78): an upsert only when
    [upsert] holds and [conflict_columns] is a list that is not empty. *)
Definition batch_request (table_name : string) (upsert : bool)
    (conflict_columns : option (list string)) (batch : list record) : request :=
  match upsert, conflict_columns with
  | true, Some (c :: cs) => Upsert table_name batch (String.concat "," (c :: cs))
  | _, _ => Insert table_name batch
  end.

(** One turn of the loop of lines 60-85 *)
Definition load_batch (table_name : string) (batch_size : Z) (upsert : bool)
    (conflict_columns : option (list string)) (records : list record)
    (st : Z * Z * list request) (i : Z) : Z * Z * list request :=
  let '(loaded, failed, log) := st in
  let batch := py_slice records i (i + batch_size) in
  let req := batch_request table_name upsert conflict_columns batch in
  if execute log req
  then (loaded + Z.of_nat (length batch), failed, log ++ [req])
  else (loaded, failed + Z.of_nat (length batch), log ++ [req]).

(** [load_to_supabase] (lines 17-97), from the requests made so far to
    its outcome and the requests made when it ends. *)
Definition load_to_supabase (df : option DataFrame) (table_name : string)
    (batch_size : Z) (upsert : bool) (conflict_columns : option (list string))
    (log : list request) : (load_exn + LoadResult) * list request :=
  let nothing := (inr (mk_LoadResult true 0 0 None), log) in
  match df with
  | None => nothing
  | Some df =>
      if df_empty df then nothing
      else if negb create_client then (inl ConnectionError, log)
      else
        let records := clean_record (columns df) <$> to_dict_records df in
        match py_range 0 (Z.of_nat (length records)) batch_size with
        | Raises e => (inl (Builtin e), log)
        | Returns starts =>
            let '(loaded, failed, log') :=
              foldl (load_batch table_name batch_size upsert conflict_columns records)
                (0, 0, log) starts in
            let success := failed =? 0 in
            (inr (mk_LoadResult success loaded failed
                    (if success then None
                     else Some (str_of_int failed ++ py " filas fallaron"))),
             log')
        end
  end.
End Load.

(** ** Batches *)

Section Chunks.
Context {A : Type}.
Implicit Types (l : list A) (b k m : nat).

Lemma py_slice_chunk l k b :
  py_slice l (Z.of_nat (k * b)) (Z.of_nat (k * b) + Z.of_nat b)
  = take b (drop (k * b) l).
Proof.
  unfold py_slice, slice_index.
  destruct (Z.ltb_spec (Z.of_nat (k * b)) 0); [lia|].
  destruct (Z.ltb_spec (Z.of_nat (k * b) + Z.of_nat b) 0); [lia|].
  destruct (decide (k * b ≤ length l)%nat) as [Hle|Hgt].
  - rewrite (Z.min_l (Z.of_nat (k * b))), Nat2Z.id by lia.
    destruct (decide (k * b + b ≤ length l)%nat).
    + rewrite Z.min_l by lia. f_equal. lia.
    + rewrite Z.min_r by lia.
      by rewrite !take_ge by (rewrite length_drop; lia).
  - rewrite (Z.min_r (Z.of_nat (k * b))), Nat2Z.id by lia.
    rewrite !drop_ge by lia. by rewrite !take_nil.
Qed.

Lemma concat_chunks l b m :
  concat ((λ k, take b (drop (k * b) l)) <$> seq 0 m) = take (m * b) l.
Proof.
  induction m as [|m IH]; [done|].
  rewrite seq_S, fmap_app, concat_app, IH. simpl. rewrite app_nil_r.
  rewrite take_take_drop. f_equal. lia.
Qed.
End Chunks.

Lemma py_range_pos n step :
  0 < step →
  py_range 0 n step
  = Returns ((λ k, Z.of_nat k * step) <$> seq 0 (Z.to_nat ((n + step - 1) / step))).
Proof.
  intros Hs. unfold py_range.
  destruct (Z.eqb_spec step 0); [lia|]. destruct (Z.ltb_spec 0 step); [|lia].
  f_equal. unfold seqZ. rewrite <- !list_fmap_compose.
  rewrite Z.sub_0_r. apply list_fmap_ext. intros i k _. simpl. lia.
Qed.

Lemma py_range_neg n step : 0 ≤ n → step < 0 → py_range 0 n step = Returns [].
Proof.
  intros Hn Hs. unfold py_range.
  destruct (Z.eqb_spec step 0); [lia|]. destruct (Z.ltb_spec 0 step); [lia|].
  f_equal. unfold seqZ.
  replace (Z.to_nat ((0 - n - step - 1) / - step)) with 0%nat; [done|].
  assert ((0 - n - step - 1) / - step ≤ 0); [|lia].
  apply Z.lt_succ_r. apply Z.div_lt_upper_bound; lia.
Qed.

Section LoadProperties.
Context `{Numeric} `{!Supabase}.
Implicit Types (records : list record) (log new : list request)
  (starts : list Z) (f : DataFrame).

Lemma foldl_load_batch t bs up cc records starts ld fl log :
  let batch i := py_slice records i (i + bs) in
  let req i := batch_request t up cc (batch i) in
  ∃ ld' fl',
    foldl (load_batch t bs up cc records) (ld, fl, log) starts
    = (ld', fl', log ++ (req <$> starts)) ∧
    ld' + fl' = ld + fl + Z.of_nat (length (concat (batch <$> starts))) ∧
    ld ≤ ld' ∧ fl ≤ fl' ∧
    (fl' = fl ↔
     ∀ k i, starts !! k = Some i → batch i ≠ [] →
            execute (log ++ (req <$> take k starts)) (req i) = true).
Proof.
  intros batch req. revert ld fl log.
  induction starts as [|i starts IH]; intros ld fl log.
  { exists ld, fl. rewrite app_nil_r. repeat split; simpl; try lia.
    intros _ k i Hk. by rewrite lookup_nil in Hk. }
  cbn [foldl]. unfold load_batch at 2. fold (batch i). fold (req i).
  destruct (execute log (req i)) eqn:Hex.
  - destruct (IH (ld + Z.of_nat (length (batch i))) fl (log ++ [req i]))
      as (ld' & fl' & -> & Hsum & Hld & Hfl & Hiff).
    exists ld', fl'. rewrite <- (assoc_L (++)). split; [done|].
    rewrite fmap_cons, concat_cons, length_app.
    split; [lia|]. split; [lia|]. split; [done|].
    rewrite Hiff. split.
    + intros Hall [|k] j Hk Hne; simpl in *.
      * injection Hk as <-. by rewrite app_nil_r.
      * specialize (Hall k j Hk Hne). by rewrite <- (assoc_L (++)) in Hall.
    + intros Hall k j Hk Hne. specialize (Hall (S k) j Hk Hne). simpl in Hall.
      by rewrite <- (assoc_L (++)).
  - destruct (IH ld (fl + Z.of_nat (length (batch i))) (log ++ [req i]))
      as (ld' & fl' & -> & Hsum & Hld & Hfl & Hiff).
    exists ld', fl'. rewrite <- (assoc_L (++)). split; [done|].
    rewrite fmap_cons, concat_cons, length_app.
    split; [lia|]. split; [lia|]. split; [lia|].
    destruct (decide (batch i = [])) as [Hnil|Hne].
    + replace (fl + Z.of_nat (length (batch i))) with fl in Hiff
        by (rewrite Hnil; simpl; lia).
      rewrite Hiff. split.
      * intros Hall [|k] j Hk Hne; simpl in *.
        -- injection Hk as <-. done.
        -- specialize (Hall k j Hk Hne). by rewrite <- (assoc_L (++)) in Hall.
      * intros Hall k j Hk Hne. specialize (Hall (S k) j Hk Hne). simpl in Hall.
        by rewrite <- (assoc_L (++)).
    + split.
      * intros ->. destruct (batch i); [done|]. simpl in *. lia.
      * intros Hall. specialize (Hall 0%nat i eq_refl Hne). simpl in Hall.
        rewrite app_nil_r in Hall. congruence.
Qed.

(** The batches of [records] for a positive [batch_size]. *)
Definition batches records (batch_size : Z) : list (list record) :=
  (λ k, take (Z.to_nat batch_size) (drop (k * Z.to_nat batch_size) records))
  <$> seq 0 (Z.to_nat ((Z.of_nat (length records) + batch_size - 1) / batch_size)).

Lemma batches_range records bs starts :
  0 < bs →
  py_range 0 (Z.of_nat (length records)) bs = Returns starts →
  (λ i, py_slice records i (i + bs)) <$> starts = batches records bs.
Proof.
  intros Hbs. rewrite py_range_pos by done. intros [= <-].
  unfold batches. rewrite <- list_fmap_compose. apply list_fmap_ext.
  intros _ k _. simpl.
  rewrite <- (py_slice_chunk records k (Z.to_nat bs)). f_equal; lia.
Qed.

Lemma batches_spec records bs :
  0 < bs →
  concat (batches records bs) = records ∧
  Forall (λ b, 1 ≤ Z.of_nat (length b) ≤ bs) (batches records bs) ∧
  (∀ k b, batches records bs !! k = Some b →
          (S k < length (batches records bs))%nat → Z.of_nat (length b) = bs) ∧
  Z.of_nat (length (batches records bs))
  = (Z.of_nat (length records) + bs - 1) / bs.
Proof.
  intros Hbs. unfold batches.
  set (n := Z.of_nat (length records)).
  set (q := (n + bs - 1) / bs).
  assert (0 ≤ q ∧ n ≤ q * bs ∧ (q - 1) * bs < n) as (Hq & Hup & Hlow).
  { unfold q. pose proof (Z.div_mod (n + bs - 1) bs ltac:(lia)) as Hdm.
    pose proof (Z.mod_pos_bound (n + bs - 1) bs Hbs).
    assert (0 ≤ (n + bs - 1) / bs) by (apply Z.div_pos; lia). nia. }
  split; [|split; [|split]].
  - rewrite concat_chunks. apply take_ge. nia.
  - apply Forall_fmap, Forall_forall. intros k Hk%elem_of_seq. simpl.
    rewrite length_take, length_drop. nia.
  - intros k b Hk Hlast. rewrite length_fmap, length_seq in Hlast.
    rewrite list_lookup_fmap in Hk.
    destruct (seq 0 (Z.to_nat q) !! k) as [k'|] eqn:Hk'; [|done].
    apply lookup_seq in Hk' as [-> _]. injection Hk as <-.
    rewrite length_take, length_drop. nia.
  - rewrite length_fmap, length_seq. lia.
Qed.

(** The records that [load_to_supabase] sends. *)
Definition records_of f : list record :=
  clean_record (columns f) <$> to_dict_records f.

Lemma length_records_of f : length (records_of f) = len f.
Proof. unfold records_of, to_dict_records, len. by rewrite !length_fmap. Qed.

Lemma load_to_supabase_run f t bs up cc log :
  df_empty f = false → create_client = true → 0 < bs →
  let req := batch_request t up cc in
  let sent := batches (records_of f) bs in
  ∃ ld fl,
    load_to_supabase (Some f) t bs up cc log
    = (inr (mk_LoadResult (fl =? 0) ld fl
              (if fl =? 0 then None
               else Some (str_of_int fl ++ py " filas fallaron"))),
       log ++ (req <$> sent)) ∧
    ld + fl = Z.of_nat (len f) ∧ 0 ≤ ld ∧ 0 ≤ fl ∧
    (fl = 0 ↔ ∀ k b, sent !! k = Some b →
                     execute (log ++ (req <$> take k sent)) (req b) = true).
Proof.
  intros Hne Hclient Hbs req sent. unfold load_to_supabase.
  rewrite Hne, Hclient. cbn [negb]. fold (records_of f).
  destruct (py_range 0 (Z.of_nat (length (records_of f))) bs) as [starts|e] eqn:Hr.
  2:{ by rewrite py_range_pos in Hr. }
  pose proof (batches_range _ _ _ Hbs Hr) as Hsent. fold sent in Hsent.
  destruct (batches_spec (records_of f) bs Hbs) as (Hcat & Hlen & _ & _).
  fold sent in Hcat, Hlen.
  destruct (foldl_load_batch t bs up cc (records_of f) starts 0 0 log)
    as (ld & fl & -> & Hsum & Hld & Hfl & Hiff).
  exists ld, fl. rewrite Hsent, Hcat, length_records_of in Hsum.
  replace ((λ i, batch_request t up cc (py_slice (records_of f) i (i + bs)))
             <$> starts) with (req <$> sent).
  2:{ rewrite <- Hsent, <- list_fmap_compose. done. }
  split; [done|]. split; [lia|]. split; [done|]. split; [done|].
  rewrite Hiff. split.
  - intros Hall k b Hk.
    rewrite <- Hsent, list_lookup_fmap in Hk.
    destruct (starts !! k) as [i|] eqn:Hi; [|done]. injection Hk as <-.
    specialize (Hall k i Hi).
    rewrite <- Hsent, <- fmap_take, <- list_fmap_compose.
    apply Hall.
    assert (py_slice (records_of f) i (i + bs) ∈ sent) as Hin.
    { rewrite <- Hsent. apply list_elem_of_fmap. exists i. split; [done|].
      by eapply list_elem_of_lookup_2. }
    apply (proj1 (Forall_forall _ _) Hlen) in Hin.
    intros Hnil. rewrite Hnil in Hin. simpl in Hin. lia.
  - intros Hall k i Hi _.
    specialize (Hall k (py_slice (records_of f) i (i + bs))).
    rewrite <- Hsent, <- fmap_take, <- list_fmap_compose in Hall.
    apply Hall. by rewrite list_lookup_fmap, Hi.
Qed.

(** Every row of the frame is counted once: as loaded when the request of
    its batch returns, as failed when it raises. The load succeeds when
    no request raises, and only then is there no error text. A request
    that raises does not stop the ones after it. *)
Theorem load_to_supabase_counts f t bs up cc log :
  df_empty f = false → create_client = true → 0 < bs →
  ∃ res new,
    load_to_supabase (Some f) t bs up cc log = (inr res, log ++ new) ∧
    rows_loaded res + rows_failed res = Z.of_nat (len f) ∧
    0 ≤ rows_loaded res ∧ 0 ≤ rows_failed res ∧
    (load_success res = true ↔ rows_failed res = 0) ∧
    (load_success res = true ↔
     ∀ k req, new !! k = Some req → execute (log ++ take k new) req = true) ∧
    (load_error res = None ↔ load_success res = true) ∧
    length new = length (batches (records_of f) bs).
Proof.
  intros Hne Hclient Hbs.
  destruct (load_to_supabase_run f t bs up cc log Hne Hclient Hbs)
    as (ld & fl & -> & Hsum & Hld & Hfl & Hiff).
  eexists _, _. split; [done|]. cbn [rows_loaded rows_failed load_success load_error].
  split; [done|]. split; [done|]. split; [done|].
  split; [apply Z.eqb_eq|]. split.
  - rewrite Z.eqb_eq, Hiff. split.
    + intros Hall k req Hk. rewrite list_lookup_fmap in Hk.
      destruct (batches _ _ !! k) as [b|] eqn:Hb; [|done]. injection Hk as <-.
      rewrite <- fmap_take. by apply Hall.
    + intros Hall k b Hb. rewrite fmap_take. apply Hall.
      by rewrite list_lookup_fmap, Hb.
  - split; [|by rewrite length_fmap]. by destruct (fl =? 0).
Qed.

(** The requests that one call makes, whatever the service answers: one
    request per batch, all for the table asked for; the batches, put
    together, are the records of the frame in their order; every batch
    has at least one row and at most [batch_size], and every batch but
    the last has [batch_size] rows. The requests are upserts when
    [upsert] is set and there are conflict columns, and plain inserts
    otherwise, also for [upsert=True] without conflict columns. *)
Theorem load_to_supabase_batches f t bs up cc log :
  df_empty f = false → create_client = true → 0 < bs →
  ∃ res sent,
    load_to_supabase (Some f) t bs up cc log
    = (inr res, log ++ (batch_request t up cc <$> sent)) ∧
    concat sent = records_of f ∧
    Forall (λ b, 1 ≤ Z.of_nat (length b) ≤ bs) sent ∧
    (∀ k b, sent !! k = Some b → (S k < length sent)%nat →
            Z.of_nat (length b) = bs) ∧
    Z.of_nat (length sent) = (Z.of_nat (len f) + bs - 1) / bs ∧
    (∀ b, batch_request t up cc b
          = match up, cc with
            | true, Some (c :: cs) => Upsert t b (String.concat "," (c :: cs))
            | _, _ => Insert t b
            end) ∧
    (up = false ∨ cc = None ∨ cc = Some [] →
     ∀ b, batch_request t up cc b = Insert t b).
Proof.
  intros Hne Hclient Hbs.
  destruct (load_to_supabase_run f t bs up cc log Hne Hclient Hbs)
    as (ld & fl & -> & _).
  destruct (batches_spec (records_of f) bs Hbs) as (Hcat & Hlen & Hfull & Hn).
  rewrite length_records_of in Hn.
  eexists _, _. split; [done|]. split; [done|]. split; [done|].
  split; [done|]. split; [done|]. split; [done|].
  intros [->|[->| ->]] b; [done| |]; by destruct up.
Qed.

(** The calls that send nothing. Without a frame, or with an empty one,
    the result is a success with no rows, and the client is not asked
    for. With rows: [ConnectionError] when the client cannot be created;
    the [ValueError] of [range] for [batch_size = 0]; and for a negative
    [batch_size] the loop body never runs, so the result is a success
    with no row loaded and none failed. *)
Theorem load_to_supabase_sends_nothing t bs up cc log :
  let nothing := mk_LoadResult true 0 0 None in
  load_to_supabase None t bs up cc log = (inr nothing, log) ∧
  (∀ f, df_empty f = true →
        load_to_supabase (Some f) t bs up cc log = (inr nothing, log)) ∧
  (∀ f, df_empty f = false → create_client = false →
        load_to_supabase (Some f) t bs up cc log = (inl ConnectionError, log)) ∧
  (∀ f, df_empty f = false → create_client = true → bs = 0 →
        load_to_supabase (Some f) t bs up cc log
        = (inl (Builtin ValueError), log)) ∧
  (∀ f, df_empty f = false → create_client = true → bs < 0 →
        load_to_supabase (Some f) t bs up cc log = (inr nothing, log)).
Proof.
  intros nothing. split; [done|]. unfold load_to_supabase.
  split; [by intros f ->|]. split; [by intros f -> ->|]. split.
  - by intros f -> -> ->.
  - intros f -> -> Hbs. cbn [negb]. by rewrite py_range_neg by lia.
Qed.
End LoadProperties.

(** ** The load stage at a concrete frame *)

Section LoadExamples.
Local Existing Instance latin1_unicode.
Local Existing Instance int_numeric.
Local Existing Instance pandas_ns.

(** A service whose second request raises. *)
Definition second_request_raises : Supabase :=
  {| create_client := true;
     execute log _ := negb (bool_decide (length log = 1%nat)) |}.
Local Existing Instance second_request_raises.

(** The five rows of [batch] in batches of two: three requests, and the
    rows are counted as loaded or as failed. *)
Lemma load_to_supabase_counts_witness :
  ∃ res new,
    load_to_supabase (Some batch) "ventas" 2 false None [] = (inr res, [] ++ new) ∧
    rows_loaded res + rows_failed res = 5.
Proof.
  destruct (@load_to_supabase_counts int_numeric second_request_raises batch "ventas" 2 false None []
              eq_refl eq_refl ltac:(lia))
    as (res & new & Hrun & Hsum & _).
  exists res, new. exact (conj Hrun Hsum).
Defined.

Lemma load_to_supabase_batches_witness :
  ∃ res sent,
    load_to_supabase (Some batch) "ventas" 2 false None []
    = (inr res, [] ++ (batch_request "ventas" false None <$> sent)) ∧
    Z.of_nat (length sent) = 3.
Proof.
  destruct (@load_to_supabase_batches int_numeric second_request_raises batch "ventas" 2 false None []
              eq_refl eq_refl ltac:(lia))
    as (res & sent & Hrun & _ & _ & _ & Hn & _).
  exists res, sent. exact (conj Hrun Hn).
Defined.

(** With this service the second batch fails: three rows are loaded,
    two are not, and the result is not a success. *)
Example load_to_supabase_second_fails :
  (load_to_supabase (Some batch) "ventas" 2 false None []).1
  = inr (mk_LoadResult false 3 2 (Some (py "2 filas fallaron"))) ∧
  length (load_to_supabase (Some batch) "ventas" 2 false None []).2 = 3%nat.
Proof. split; by vm_compute. Qed.
End LoadExamples.

(** * Extraction and the pipeline ([src/etl/extract.py],
      [src/etl/pipeline.py])

    [run_pipeline] calls the three stages in turn. What lies outside the
    repository (the file system, the database, the clock) is an
    interface; the effects of a run on it are the directories made, the
    CSV files written and the requests sent, in the order in which they
    happen. Logging is left out: it changes none of these. *)

Section Pipeline.
Context `{Unicode} `{Numeric} `{Pandas} `{!Supabase}.

(** An exception of [pd.read_csv], with its text. *)
Inductive read_error :=
| UnicodeDecodeError (msg : pystr)
| ReadError (msg : pystr).

Definition read_error_str (e : read_error) : pystr :=
  match e with UnicodeDecodeError msg | ReadError msg => msg end.

(** The world of a run:
    - [Path_str p] is [str(Path(p))] and [Path_join d n] is
      [str(Path(d) / n)];
    - [mkdir p] is [None] when [Path(p).mkdir(parents=True,
      exist_ok=True)] returns, and the text of its [OSError] otherwise;
    - [read_csv p encoding delimiter] is the frame read or the exception;
    - [client_error] is the text of the [ConnectionError] of
      [get_supabase_client]; for a request [req] sent after the requests
      of [log], [response_data log req] is the [response.data] of its
      [execute()] when that returns, and [request_error log req] the
      text of the exception when it raises;
    - [to_csv files p encoding df] is [None] when [df.to_csv(p)] returns
      after the files [files] have been written, and the text of the
      exception otherwise;
    - [now k] is the [k]-th reading of [datetime.now()] in a run, and
      [strftime_stamp t] its form ["%Y%m%d_%H%M%S"]. *)
Class World := {
  Path_str : pystr → pystr;
  Path_join : pystr → pystr → pystr;
  Path_exists : pystr → bool;
  mkdir : pystr → option pystr;
  read_csv : pystr → string → string → read_error + DataFrame;
  client_error : pystr;
  response_data : list request → request → list record;
  request_error : list request → request → pystr;
  to_csv : list (pystr * DataFrame) → pystr → string → DataFrame → option pystr;
  now : nat → Z;
  strftime_stamp : Z → pystr;
}.
Context {world : World}.

(** ** [extract.py] *)

(** [ExtractionResult] (lines 8-15) *)
Record ExtractionResult := mk_ExtractionResult {
  extraction_success : bool;
  extraction_data : option DataFrame;
  row_counts : Z;
  extraction_error : option pystr;
  source : pystr;
}.

(** [extract_csv] (lines 18-64): a file that is not there and every
    exception of the reading give a result with [success=False];
    [UnicodeDecodeError] alone is answered by a second reading as
    latin-1. *)
Definition extract_csv (filepath : pystr) (encoding delimiter : string)
  : ExtractionResult :=
  let source := Path_str filepath in
  if negb (Path_exists filepath)
  then mk_ExtractionResult false None 0
         (Some (py "Archivo no encontrado: " ++ source)) source
  else
    let extracted df := mk_ExtractionResult true (Some df) (Z.of_nat (len df))
                          None source in
    let failed e := mk_ExtractionResult false None 0 (Some (read_error_str e))
                      source in
    match read_csv filepath encoding delimiter with
    | inr df => extracted df
    | inl (UnicodeDecodeError _) =>
        match read_csv filepath "latin-1" delimiter with
        | inr df => extracted df
        | inl e => failed e
        end
    | inl e => failed e
    end.

(** [pd.DataFrame(records)] for a list of dicts: the columns are the
    keys in the order in which they first appear, the rows are numbered
    from 0, and a key that a record lacks gives a missing value. *)
Definition record_keys (records : list record) : list string :=
  foldl (λ acc rec, acc ++ filter (λ k, k ∉ acc) rec.*1) [] records.
Definition DataFrame_of_records (records : list record) : DataFrame :=
  let cols := record_keys records in
  let value rec c := default Null (assoc c rec) in
  mk_DataFrame
    ((λ c, (c, infer_dtype ((λ rec, value rec c) <$> records))) <$> cols)
    (zip (Z.of_nat <$> seq 0 (length records))
       ((λ rec, list_to_map ((λ c, (c, value rec c)) <$> cols)) <$> records)).

(** [extract_from_supabase] (lines 66-103), from the requests made so
    far to its result and the requests made when it ends: with a client,
    the select is sent, whether its [execute()] returns or raises.
    [if filters:] holds for a dict that is not empty, and
    [if response.data:] for a list that is not empty. *)
Definition extract_from_supabase (table_name : string)
    (filters : option (list (string * cell))) (log : list request)
  : ExtractionResult * list request :=
  let source := py "supabase: " ++ py table_name in
  if negb create_client
  then (mk_ExtractionResult false None 0 (Some client_error) source, log)
  else
    let query := Select table_name (default [] filters) in
    if execute log query
    then
      match response_data log query with
      | [] => (mk_ExtractionResult true (Some (mk_DataFrame [] [])) 0 None source,
               log ++ [query])
      | data =>
          let df := DataFrame_of_records data in
          (mk_ExtractionResult true (Some df) (Z.of_nat (len df)) None source,
           log ++ [query])
      end
    else (mk_ExtractionResult false None 0 (Some (request_error log query)) source,
          log ++ [query]).

(** ** [load_to_csv] (load.py, lines 100-114) *)

(** The name of the type of an object, as in the text of an
    [AttributeError]. *)
Definition type_name (o : pyobj) : string :=
  match o with
  | PNone => "NoneType"
  | PBool _ => "bool"
  | PInt _ => "int"
  | PStr _ => "str"
  | PFrame _ => "DataFrame"
  | PDict _ => "dict"
  end.

(** Every exception is caught: an object without [to_csv] gives a
    failure like a file that cannot be written. *)
Definition load_to_csv (df : pyobj) (filepath : pystr) (encoding : string)
    (files : list (pystr * DataFrame)) : LoadResult * list (pystr * DataFrame) :=
  match df with
  | PFrame f =>
      match to_csv files filepath encoding f with
      | None => (mk_LoadResult true (Z.of_nat (len f)) 0 None, files ++ [(filepath, f)])
      | Some msg => (mk_LoadResult false 0 0 (Some msg), files)
      end
  | _ =>
      (mk_LoadResult false 0 0
         (Some (py "'" ++ py (type_name df)
                ++ py "' object has no attribute 'to_csv'")), files)
  end.

(** ** [pipeline.py] *)

(** [PipelineResult] (lines 16-24) *)
Record PipelineResult := mk_PipelineResult {
  pipeline_success : bool;
  extraction : option ExtractionResult;
  transformation : option TransformResult;
  load : option LoadResult;
  duration_seconds : Z;
  pipeline_error : option pystr;
}.

Definition PipelineResult_fields : list string :=
  ["success"; "extraction"; "transformation"; "load"; "duration_seconds"; "error"].

(** Whether the [__init__] of the dataclass takes these keywords:
    each is a field, and [success], the field without default, is
    among them. *)
Definition PipelineResult_accepts (keywords : list string) : bool :=
  forallb (λ kw, bool_decide (kw ∈ PipelineResult_fields)) keywords
  && bool_decide ("success" ∈ keywords).

(** What a run has done to the world. *)
Record effects := mk_effects {
  dirs : list pystr;
  files : list (pystr * DataFrame);
  requests : list request;
}.

Inductive pipeline_exn :=
| Python (e : exn)
| Loading (e : load_exn)
| OSError (msg : pystr).

(** A run returns, raises, or leaves the model: the keys of
    [productos_map] are taken to be texts, as the names of the table
    [productos] are. *)
Inductive pipeline_outcome :=
| Result (r : PipelineResult)
| Raised (e : pipeline_exn)
| Unmodelled.

(** [d[k] = v] on the items of a dict *)
Fixpoint dict_set (k : pystr) (v : cell) (d : list (pystr * cell))
  : list (pystr * cell) :=
  match d with
  | [] => [(k, v)]
  | (k', v') :: d' =>
      if decide (k = k') then (k, v) :: d' else (k', v') :: dict_set k v d'
  end.

(** [{row['nombre']: row['id'] for _, row in data.iterrows()}]
    (lines 95-98): [KeyError] when the frame has rows and lacks one of
    the two columns; [None] when a name is not a text. *)
Definition productos_map_of (data : DataFrame)
  : outcome (option (list (pystr * cell))) :=
  match rows data with
  | [] => Returns (Some [])
  | _ :: _ =>
      if bool_decide ("nombre" ∈ column_names data)
         && bool_decide ("id" ∈ column_names data)
      then Returns
             (foldl (λ acc r,
                       match acc, r.2 !!! "nombre" with
                       | Some d, Str k => Some (dict_set k (r.2 !!! "id") d)
                       | _, _ => None
                       end) (Some []) (rows data))
      else Raises KeyError
  end.

(** [not o] *)
Definition py_not (o : pyobj) : outcome bool :=
  match o with
  | PNone => Returns true
  | PBool b => Returns (negb b)
  | PInt n => Returns (n =? 0)
  | PStr s => Returns (bool_decide (s = EmptyString))
  | PDict d => Returns (bool_decide (d = []))
  | PFrame _ => Raises ValueError
  end.

(** [o is not None and len(o) > 0] *)
Definition not_None_and_not_empty (o : pyobj) : outcome bool :=
  match o with
  | PNone => Returns false
  | PFrame f => Returns (0 <? Z.of_nat (len f))
  | PStr s => Returns (0 <? Z.of_nat (String.length s))
  | PDict d => Returns (0 <? Z.of_nat (length d))
  | PBool _ | PInt _ => Raises TypeError
  end.

Definition str_or_None (o : option pystr) : pystr := default (py "None") o.

(** [str(o)] for the values that the field [error] can hold (a text or
    [None]) and for the other scalars; the text of a frame or of a dict
    is not modelled. *)
Definition error_text (o : pyobj) : option pystr :=
  match o with
  | PNone => Some (py "None")
  | PStr s => Some (py s)
  | PBool b => Some (if b then py "True" else py "False")
  | PInt n => Some (str_of_int n)
  | PFrame _ | PDict _ => None
  end.

(** [run_pipeline] (lines 46-157) *)
Definition run_pipeline (input_file : pystr) (dry_run : bool)
    (output_dir : pystr) (w : effects) : pipeline_outcome * effects :=
  let start_time := now 0 in
  match mkdir output_dir with
  | Some msg => (Raised (OSError msg), w)
  | None =>
  let w := mk_effects (dirs w ++ [output_dir]) (files w) (requests w) in
  (* EXTRACT *)
  let extraction := extract_csv input_file "utf-8" "," in
  if negb (extraction_success extraction)
  then (Result (mk_PipelineResult false (Some extraction) None None
                  (now 1 - start_time)
                  (Some (py "Error en extraccion: "
                         ++ str_or_None (extraction_error extraction)))), w)
  else
  let '(productos_result, requests1) :=
    extract_from_supabase "productos" None (requests w) in
  let w := mk_effects (dirs w) (files w) requests1 in
  if negb (extraction_success productos_result)
  then (Result (mk_PipelineResult false (Some extraction) None None
                  (now 1 - start_time)
                  (Some (py "Error obteniendo productos: "
                         ++ str_or_None (extraction_error productos_result)))), w)
  else
  match extraction_data productos_result with
  | None => (Raised (Python AttributeError), w)
  | Some productos =>
  match productos_map_of productos with
  | Raises e => (Raised (Python e), w)
  | Returns None => (Unmodelled, w)
  | Returns (Some productos_map) =>
  (* TRANSFORM *)
  let '(df, h) := match extraction_data extraction with
                  | Some df => (Some 0%nat, [df])
                  | None => (None, [])
                  end in
  match (transform_ventas df productos_map h).1 with
  | Raises e => (Raised (Python e), w)
  | Returns transformation =>
  match py_not (succes transformation) with
  | Raises e => (Raised (Python e), w)
  | Returns true =>
      if PipelineResult_accepts
           ["succes"; "extraction"; "transformation"; "error"; "duration_seconds"]
      then match error_text (error transformation) with
           | Some text =>
               (Result (mk_PipelineResult false (Some extraction)
                          (Some transformation) None (now 1 - start_time)
                          (Some (py "Error en transformacion: " ++ text))), w)
           | None => (Unmodelled, w)
           end
      else (Raised (Python TypeError), w)
  | Returns false =>
  let timestamp := strftime_stamp (now 1) in
  let processed_file :=
    Path_join output_dir (py "ventas_clean_" ++ timestamp ++ py ".csv") in
  let '(_, files1) := load_to_csv (data transformation) processed_file "utf-8" (files w) in
  match not_None_and_not_empty (rejected_data transformation) with
  | Raises e => (Raised (Python e), mk_effects (dirs w) files1 (requests w))
  | Returns save_rejected =>
  let files2 :=
    if save_rejected
    then (load_to_csv (rejected_data transformation)
            (Path_join output_dir (py "ventas_rejected_" ++ timestamp ++ py ".csv"))
            "utf-8" files1).2
    else files1 in
  (* LOAD *)
  let loaded :=
    if dry_run then Returns (inr (mk_LoadResult true 0 0 None), requests w)
    else match data transformation with
         | PFrame f => Returns (load_to_supabase (Some f) "ventas" 50 false None (requests w))
         | PNone => Returns (load_to_supabase None "ventas" 50 false None (requests w))
         | _ => Raises AttributeError
         end in
  match loaded with
  | Raises e => (Raised (Python e), mk_effects (dirs w) files2 (requests w))
  | Returns (inl e, requests') => (Raised (Loading e), mk_effects (dirs w) files2 requests')
  | Returns (inr load_result, requests') =>
      (Result (mk_PipelineResult true (Some extraction) (Some transformation)
                 (Some load_result) (now 2 - start_time) None),
       mk_effects (dirs w) files2 requests')
  end end end end end end end.
End Pipeline.

Section PipelineProperties.
Context `{Unicode} `{Numeric} `{Pandas} `{!Supabase} {world : World}.
Implicit Types (w : effects) (r : PipelineResult) (f : DataFrame).

(** With a client, [extract_from_supabase] sends its select and nothing
    else; without one it sends nothing. *)
Lemma extract_from_supabase_requests table_name filters log :
  (extract_from_supabase table_name filters log).2
  = if create_client then log ++ [Select table_name (default [] filters)]
    else log.
Proof.
  unfold extract_from_supabase. destruct create_client; [|done]. cbn [negb].
  destruct (execute _ _); [|done]. by destruct (response_data _ _).
Qed.

Lemma extract_from_supabase_success table_name filters log :
  extraction_success (extract_from_supabase table_name filters log).1 = true →
  create_client = true ∧
  (extract_from_supabase table_name filters log).2
  = log ++ [Select table_name (default [] filters)].
Proof.
  rewrite extract_from_supabase_requests. unfold extract_from_supabase.
  by destruct create_client.
Qed.

(** A dry run sends no insert and no upsert, whatever happens in it. The
    one request that it sends is the select of the table of products,
    which it sends when the output directory could be made, the file
    was extracted, and there is a client. *)
Theorem run_pipeline_dry_run input_file output_dir w :
  requests (run_pipeline input_file true output_dir w).2
  = requests w
    ++ (if bool_decide (mkdir output_dir = None)
           && extraction_success (extract_csv input_file "utf-8" ",")
           && create_client
        then [Select "productos" []] else []).
Proof.
  unfold run_pipeline.
  destruct (mkdir output_dir); [by rewrite app_nil_r|].
  rewrite bool_decide_eq_true_2 by done.
  destruct (extraction_success (extract_csv _ _ _)); cbn [negb andb];
    [|by rewrite app_nil_r].
  cbn [requests].
  pose proof (extract_from_supabase_requests "productos" None (requests w))
    as Hlog.
  destruct (extract_from_supabase "productos" None (requests w)) as [pr reqs].
  cbn [snd default] in Hlog.
  assert (reqs = requests w ++ (if create_client then [Select "productos" []]
                                else [])) as ->.
  { rewrite Hlog. destruct create_client; by rewrite ?app_nil_r. }
  repeat case_match; simplify_eq; done.
Qed.

Lemma transform_ventas_fst_returns df pm h t :
  (transform_ventas df pm h).1 = Returns t →
  ∃ f, t = result_of pm f ∧ dated f ∧
       Forall (λ c, c ∈ column_names f) required_columns.
Proof.
  destruct (transform_ventas df pm h) as [o h'] eqn:Hrun. simpl. intros ->.
  apply transform_ventas_returned in Hrun as (l & f & _ & _ & _ & Hreq & Hd & ->).
  eauto.
Qed.

(** The results that [run_pipeline] returns. A result with
    [success=False] comes from the extraction of the file or of the
    products only: it has no transformation and no load, it has an
    error text, no file has been written, and no insert or upsert has
    been sent: when the file could not be extracted nothing has been
    sent, and when the products could not, what [extract_from_supabase]
    has sent, which is its select or nothing. Every other
    result has [success=True], a transformation with [succes=True]
    and a load result, whatever that load result says. The branch of
    lines 105-112 returns nothing. *)
Theorem run_pipeline_results input_file dry_run output_dir w r w' :
  run_pipeline input_file dry_run output_dir w = (Result r, w') →
  dirs w' = dirs w ++ [output_dir] ∧
  (pipeline_success r = false →
   transformation r = None ∧ load r = None ∧ is_Some (pipeline_error r) ∧
   files w' = files w ∧
   (requests w' = requests w ∨
    requests w' = requests w ++ [Select "productos" []]) ∧
   ∃ e, extraction r = Some e ∧
        (extraction_success e = false → requests w' = requests w) ∧
        (extraction_success e = true →
         extraction_success
           (extract_from_supabase "productos" None (requests w)).1 = false ∧
         requests w'
         = (extract_from_supabase "productos" None (requests w)).2)) ∧
  (pipeline_success r = true →
   pipeline_error r = None ∧
   ∃ e t lr, extraction r = Some e ∧ extraction_success e = true ∧
             transformation r = Some t ∧ succes t = PBool true ∧
             error t = PNone ∧ load r = Some lr).
Proof.
  intros Hrun. unfold run_pipeline in Hrun.
  destruct (mkdir output_dir); [done|].
  destruct (extraction_success (extract_csv _ _ _)) eqn:He; cbn [negb] in Hrun.
  2:{ injection Hrun as <- <-. cbn. repeat split; try done; [by left|].
      exists (extract_csv input_file "utf-8" ","). split; [done|].
      split; [done|]. congruence. }
  cbn [requests] in Hrun.
  pose proof (extract_from_supabase_requests "productos" None (requests w))
    as Hlog.
  destruct (extract_from_supabase "productos" None (requests w))
    as [pr reqs] eqn:Hx.
  cbn [fst snd default] in *.
  destruct (extraction_success pr) eqn:Hp; cbn [negb] in Hrun.
  2:{ injection Hrun as <- <-. cbn. repeat split; try done.
      - rewrite Hlog. destruct create_client; [by right|by left].
      - exists (extract_csv input_file "utf-8" ","). split; [done|].
        split; [congruence|done]. }
  destruct (extraction_data pr); [|done].
  destruct (productos_map_of _) as [[pm|]|]; [|done..].
  destruct (extraction_data (extract_csv _ _ _)) as [f|].
  - destruct ((transform_ventas _ _ _).1) as [t|] eqn:Ht; [|done].
    apply transform_ventas_fst_returns in Ht as (f' & -> & _).
    cbn [succes data rejected_data result_of py_not negb not_None_and_not_empty]
      in Hrun.
    destruct (load_to_csv _ _ _ _) as [? files1].
    destruct dry_run.
    + injection Hrun as <- <-. cbn. repeat split; try done. eauto 10.
    + destruct (load_to_supabase _ _ _ _ _ _) as [[e|lr] reqs']; [done|].
      injection Hrun as <- <-. cbn. repeat split; try done. eauto 10.
  - destruct ((transform_ventas _ _ _).1) as [t|] eqn:Ht; [|done].
    by vm_compute in Ht.
Qed.

Lemma transform_ventas_empty_fst pm h l f :
  h !! l = Some f → df_empty f = true →
  (transform_ventas (Some l) pm h).1 = Raises TypeError.
Proof.
  intros Hl He. unfold transform_ventas.
  erewrite run_bind by by apply run_deref. by rewrite He.
Qed.

(** [run_pipeline] catches nothing of what [transform_ventas] raises.
    When the file and the products have been extracted, a file without
    rows ends the run with [TypeError], and a file with rows on which
    [transform_ventas] raises ends it with that exception: no result is
    returned, no file is written, and after the select of the products
    nothing is sent. *)
Theorem run_pipeline_raises input_file dry_run output_dir w f productos pm :
  mkdir output_dir = None →
  extraction_success (extract_csv input_file "utf-8" ",") = true →
  extraction_data (extract_csv input_file "utf-8" ",") = Some f →
  extraction_success (extract_from_supabase "productos" None (requests w)).1
  = true →
  extraction_data (extract_from_supabase "productos" None (requests w)).1
  = Some productos →
  productos_map_of productos = Returns (Some pm) →
  let w1 := mk_effects (dirs w ++ [output_dir]) (files w)
              (requests w ++ [Select "productos" []]) in
  (df_empty f = true →
   run_pipeline input_file dry_run output_dir w = (Raised (Python TypeError), w1)) ∧
  (df_empty f = false → ∀ e, outcome_of pm f = Raises e →
   run_pipeline input_file dry_run output_dir w = (Raised (Python e), w1)).
Proof.
  intros Hdir He Hf Hp Hprod Hpm w1.
  destruct (extract_from_supabase_success _ _ _ Hp) as (_ & Hreqs).
  assert (∀ e, (transform_ventas (Some 0%nat) pm [f]).1 = Raises e →
               run_pipeline input_file dry_run output_dir w
               = (Raised (Python e), w1)) as Hraise.
  { intros e Ht. unfold run_pipeline.
    rewrite Hdir, He. cbn [negb requests].
    destruct (extract_from_supabase "productos" None (requests w)) as [pr reqs].
    cbn [fst snd default] in Hp, Hprod, Hreqs. subst reqs.
    rewrite Hp, Hprod, Hpm, Hf. cbn [negb]. by rewrite Ht. }
  split.
  - intros Hempty. apply Hraise.
    by apply (transform_ventas_empty_fst pm [f] 0%nat f).
  - intros Hne e Hout. apply Hraise.
    by rewrite (transform_ventas_outcome_of [f] 0%nat f).
Qed.

Lemma df_empty_df_output pm f :
  df_empty (df_output pm f) = bool_decide (rows (df_output pm f) = []).
Proof. unfold df_empty. by destruct (rows (df_output pm f)). Qed.

(** A run that is not dry, when the file and the products have been
    extracted and the transformation returns: it ends with the outcome
    of [load_to_supabase] on the accepted frame, and with the files that
    could be written. *)
Lemma run_pipeline_not_dry input_file output_dir w f productos pm f' :
  mkdir output_dir = None →
  extraction_success (extract_csv input_file "utf-8" ",") = true →
  extraction_data (extract_csv input_file "utf-8" ",") = Some f →
  extraction_success (extract_from_supabase "productos" None (requests w)).1
  = true →
  extraction_data (extract_from_supabase "productos" None (requests w)).1
  = Some productos →
  productos_map_of productos = Returns (Some pm) →
  (transform_ventas (Some 0%nat) pm [f]).1 = Returns (result_of pm f') →
  ∃ files2,
    ((∀ fs p enc df, to_csv fs p enc df ≠ None) → files2 = files w) ∧
    run_pipeline input_file false output_dir w
    = let loaded := load_to_supabase (Some (df_output pm f')) "ventas" 50 false
                      None (requests w ++ [Select "productos" []]) in
      (match loaded.1 with
       | inl e => Raised (Loading e)
       | inr load_result =>
           Result (mk_PipelineResult true
                     (Some (extract_csv input_file "utf-8" ","))
                     (Some (result_of pm f')) (Some load_result)
                     (now 2 - now 0) None)
       end,
       mk_effects (dirs w ++ [output_dir]) files2 loaded.2).
Proof.
  intros Hdir He Hf Hp Hprod Hpm Ht.
  destruct (extract_from_supabase_success _ _ _ Hp) as (Hclient & Hreqs).
  unfold run_pipeline. rewrite Hdir, He. cbn [negb requests].
  destruct (extract_from_supabase "productos" None (requests w)) as [pr reqs].
  cbn [fst snd default] in Hp, Hprod, Hreqs. subst reqs.
  rewrite Hp, Hprod, Hpm, Hf. cbn [negb]. rewrite Ht.
  cbn [succes data rejected_data result_of py_not negb not_None_and_not_empty
       files dirs requests].
  unfold load_to_csv.
  destruct (to_csv (files w) _ _ (df_output pm f')) eqn:Hcsv1.
  - match goal with
    | |- context [if 0 <? ?n then ?a else ?b] =>
        exists (if 0 <? n then a else b)
    end.
    split.
    + intros Hcsv. destruct (0 <? _); [|done].
      destruct (to_csv _ _ _ (df_rejected pm f')) eqn:Hcsv2;
        [reflexivity|by apply Hcsv in Hcsv2].
    + by destruct (load_to_supabase _ _ _ _ _ _) as [[e|lr] reqs].
  - match goal with
    | |- context [if 0 <? ?n then ?a else ?b] =>
        exists (if 0 <? n then a else b)
    end.
    split; [intros Hcsv; by apply Hcsv in Hcsv1|].
    by destruct (load_to_supabase _ _ _ _ _ _) as [[e|lr] reqs].
Qed.

(** [success=True] says that the file and the products were extracted
    and the file transformed, and no more. When they were, in a run that
    is not dry, in a world where every CSV file fails to be written and
    every insert into the database raises, the run returns a result
    with [success=True] and without error text; no file has been
    written, and when there are accepted rows the load result it
    carries has [success=False]. *)
Theorem run_pipeline_success_despite_failures
    input_file output_dir w f productos pm t :
  mkdir output_dir = None →
  extraction_success (extract_csv input_file "utf-8" ",") = true →
  extraction_data (extract_csv input_file "utf-8" ",") = Some f →
  extraction_success (extract_from_supabase "productos" None (requests w)).1
  = true →
  extraction_data (extract_from_supabase "productos" None (requests w)).1
  = Some productos →
  productos_map_of productos = Returns (Some pm) →
  (transform_ventas (Some 0%nat) pm [f]).1 = Returns t →
  (∀ fs p enc df, to_csv fs p enc df ≠ None) →
  (∀ log table_name batch, execute log (Insert table_name batch) = false) →
  ∃ r w' out lr,
    run_pipeline input_file false output_dir w = (Result r, w') ∧
    pipeline_success r = true ∧ pipeline_error r = None ∧
    transformation r = Some t ∧ data t = PFrame out ∧ load r = Some lr ∧
    files w' = files w ∧
    (rows out ≠ [] →
     load_success lr = false ∧ is_Some (load_error lr) ∧
     rows_loaded lr + rows_failed lr = Z.of_nat (len out)) ∧
    (rows out = [] →
     load_success lr = true ∧
     requests w' = requests w ++ [Select "productos" []]).
Proof.
  intros Hdir He Hf Hp Hprod Hpm Ht Hcsv Hexe.
  destruct (extract_from_supabase_success _ _ _ Hp) as (Hclient & _).
  pose proof Ht as Ht'.
  apply transform_ventas_fst_returns in Ht' as (f' & -> & _).
  destruct (run_pipeline_not_dry input_file output_dir w f productos pm f'
              Hdir He Hf Hp Hprod Hpm Ht) as (files2 & Hfiles & ->).
  rewrite (Hfiles Hcsv). cbv zeta.
  destruct (decide (rows (df_output pm f') = [])) as [Hnil|Hrows].
  - assert (df_empty (df_output pm f') = true) as Hempty.
    { by rewrite df_empty_df_output, bool_decide_eq_true_2. }
    unfold load_to_supabase. rewrite Hempty. cbn [fst snd].
    eexists _, _, (df_output pm f'), _. split; [reflexivity|].
    cbn [transformation data load files requests dirs result_of load_success
         load_error rows_loaded rows_failed pipeline_success pipeline_error].
    by repeat split.
  - assert (df_empty (df_output pm f') = false) as Hne.
    { by rewrite df_empty_df_output, bool_decide_eq_false_2. }
    destruct (load_to_supabase_run (df_output pm f') "ventas" 50 false None
                (requests w ++ [Select "productos" []]) Hne Hclient ltac:(lia))
      as (ld & fl & Hload & Hsum & Hld & Hfl & Hiff).
    rewrite Hload. cbn [fst snd].
    eexists _, _, (df_output pm f'), _. split; [reflexivity|].
    cbn [transformation data load files requests dirs result_of load_success
         load_error rows_loaded rows_failed pipeline_success pipeline_error].
    split; [done|]. split; [done|]. split; [done|]. split; [done|].
    split; [done|]. split; [done|]. split; [|done]. intros _.
    assert (fl ≠ 0) as Hfl0.
    { intros Hz0. pose proof (proj1 Hiff Hz0) as Hz.
      destruct (batches (records_of (df_output pm f')) 50) as [|b bs] eqn:Hb.
      - destruct (batches_spec (records_of (df_output pm f')) 50 ltac:(lia))
          as (Hcat & _). rewrite Hb in Hcat. simpl in Hcat.
        apply (f_equal length) in Hcat. rewrite length_records_of in Hcat.
        unfold len in Hcat. destruct (rows (df_output pm f')); done.
      - specialize (Hz 0%nat b eq_refl). cbn [batch_request] in Hz.
        by rewrite Hexe in Hz. }
    destruct (Z.eqb_spec fl 0) as [|_]; [done|]. by repeat split.
Qed.
End PipelineProperties.

(** ** The pipeline in two concrete worlds *)

Section PipelineExamples.
Local Existing Instance latin1_unicode.
Local Existing Instance int_numeric.
Local Existing Instance pandas_ns.

(** A database that answers every select and refuses every insert and
    every upsert. *)
Definition every_insert_raises : Supabase :=
  {| create_client := true;
     execute _ req := match req with Select _ _ => true | _ => false end |}.
Local Existing Instance every_insert_raises.

(** A world in which the file read is [source_frame], the table of
    products has the one product of [catalogo], and no CSV file can be
    written. *)
Definition read_only_world (source_frame : DataFrame) : World :=
  {| Path_str p := p;
     Path_join d n := d ++ py "/" ++ n;
     Path_exists _ := true;
     mkdir _ := None;
     read_csv _ _ _ := inr source_frame;
     client_error := py "sin conexion";
     response_data _ _ := [[("nombre", txt "Widget"); ("id", Num 7)]];
     request_error _ _ := py "sin respuesta";
     to_csv _ _ _ _ := Some (py "disco lleno");
     now k := Z.of_nat k;
     strftime_stamp _ := py "20240101_000000" |}.

Definition productos_frame : DataFrame :=
  DataFrame_of_records [[("nombre", txt "Widget"); ("id", Num 7)]].

Lemma productos_map_of_productos_frame :
  productos_map_of productos_frame = Returns (Some catalogo).
Proof. reflexivity. Qed.

Definition nothing_done : effects := mk_effects [] [] [].

(** The file has the six columns and no row. *)
Lemma run_pipeline_raises_witness :
  run_pipeline (world := read_only_world (csv_frame []))
    (py "ventas.csv") false (py "salida") nothing_done
  = (Raised (Python TypeError),
     mk_effects [py "salida"] [] [Select "productos" []]).
Proof.
  destruct (@run_pipeline_raises latin1_unicode int_numeric pandas_ns
           every_insert_raises (read_only_world (csv_frame []))
           (py "ventas.csv") false (py "salida") nothing_done
           (csv_frame []) productos_frame catalogo
           eq_refl eq_refl eq_refl eq_refl eq_refl
           productos_map_of_productos_frame) as [Hraise _].
  apply Hraise. reflexivity.
Defined.

Lemma batch_returns :
  (transform_ventas (Some 0%nat) catalogo [batch]).1
  = Returns (result_of catalogo batch).
Proof. by rewrite batch_run. Qed.

(** The file is [batch]: the run returns, although nothing could be
    written and nothing could be loaded. *)
Lemma run_pipeline_success_despite_failures_witness :
  ∃ r w' lr,
    @run_pipeline latin1_unicode int_numeric pandas_ns every_insert_raises
      (read_only_world batch) (py "ventas.csv") false (py "salida") nothing_done
    = (Result r, w') ∧
    pipeline_success r = true ∧
    transformation r = Some (result_of catalogo batch) ∧
    load r = Some lr ∧ load_success lr = false.
Proof.
  destruct (@run_pipeline_success_despite_failures latin1_unicode int_numeric
              pandas_ns every_insert_raises (read_only_world batch)
              (py "ventas.csv") (py "salida") nothing_done
              batch productos_frame catalogo (result_of catalogo batch)
              eq_refl eq_refl eq_refl eq_refl eq_refl
              productos_map_of_productos_frame batch_returns
              ltac:(by intros) ltac:(by intros))
    as (r & w' & out & lr & Hrun & Hsucc & _ & Ht & Hdata & Hl & _ & Hrows & _).
  exists r, w', lr. split; [exact Hrun|]. split; [exact Hsucc|].
  split; [exact Ht|]. split; [exact Hl|].
  apply Hrows. injection Hdata as <-. apply (bool_decide_unpack _). by vm_compute.
Defined.

(** The same run, for the other theorems. *)
Lemma read_only_run :
  ∃ r w',
    @run_pipeline latin1_unicode int_numeric pandas_ns every_insert_raises
      (read_only_world batch) (py "ventas.csv") false (py "salida") nothing_done
    = (Result r, w') ∧
    pipeline_success r = true ∧
    transformation r = Some (result_of catalogo batch).
Proof.
  destruct (@run_pipeline_not_dry latin1_unicode int_numeric
              pandas_ns every_insert_raises (read_only_world batch)
              (py "ventas.csv") (py "salida") nothing_done
              batch productos_frame catalogo batch
              eq_refl eq_refl eq_refl eq_refl eq_refl
              productos_map_of_productos_frame batch_returns)
    as (files2 & _ & Hrun).
  assert (df_empty (df_output catalogo batch) = false) as Hne.
  { apply (bool_decide_unpack _). by vm_compute. }
  destruct (@load_to_supabase_run int_numeric every_insert_raises
              (df_output catalogo batch) "ventas" 50 false None
              (requests nothing_done ++ [Select "productos" []]) Hne eq_refl
              ltac:(lia)) as (ld & fl & Hload & _).
  rewrite Hload in Hrun. cbv zeta in Hrun. cbn [fst snd] in Hrun.
  eexists _, _. split; [exact Hrun|]. split; reflexivity.
Qed.

Lemma run_pipeline_results_witness :
  ∃ r, pipeline_success r = true ∧ is_Some (transformation r) ∧ is_Some (load r).
Proof.
  destruct read_only_run as (r & w' & Hrun & Hsucc & _).
  destruct (@run_pipeline_results latin1_unicode int_numeric pandas_ns
              every_insert_raises (read_only_world batch)
              (py "ventas.csv") false (py "salida") nothing_done r w' Hrun)
    as (_ & _ & Htrue).
  destruct (Htrue Hsucc) as (_ & e & t & lr & _ & _ & Ht & _ & _ & Hl).
  exists r. split; [exact Hsucc|]. split; [by rewrite Ht|by rewrite Hl].
Defined.
End PipelineExamples.

(** ** What the pipeline sends, and the accepted frame as an input *)

Section Composition.
Context `{Unicode} `{Numeric} `{Pandas} `{!Supabase} {world : World}.
Local Abbreviation dict := (list (pystr * cell)).

Lemma batches_nil_50 : batches (@nil record) 50 = [].
Proof. reflexivity. Qed.

(** A run that is not dry and returns with [success=True] has sent the
    select of the products and then the accepted rows, and nothing else:
    each record of the accepted frame once, in order, in batches of at
    most 50, as plain inserts into the table [ventas]. *)
Theorem run_pipeline_requests input_file output_dir w r w' :
  run_pipeline input_file false output_dir w = (Result r, w') →
  pipeline_success r = true →
  ∃ t accepted sent,
    transformation r = Some t ∧ data t = PFrame accepted ∧
    requests w'
    = requests w ++ Select "productos" [] :: (Insert "ventas" <$> sent) ∧
    concat sent = records_of accepted ∧
    Forall (λ b, 1 ≤ Z.of_nat (length b) ≤ 50) sent.
Proof.
  intros Hrun Hsucc. unfold run_pipeline in Hrun.
  destruct (mkdir output_dir); [done|].
  destruct (extraction_success (extract_csv _ _ _)) eqn:He; cbn [negb] in Hrun.
  2:{ injection Hrun as <- <-. done. }
  cbn [requests] in Hrun.
  pose proof (extract_from_supabase_success "productos" None (requests w))
    as Hsel.
  destruct (extract_from_supabase "productos" None (requests w)) as [pr reqs].
  cbn [fst snd default] in Hsel.
  destruct (extraction_success pr) eqn:Hp; cbn [negb] in Hrun.
  2:{ injection Hrun as <- <-. done. }
  destruct (Hsel eq_refl) as (Hclient & ->). clear Hsel.
  destruct (extraction_data pr); [|done].
  destruct (productos_map_of _) as [[pm|]|]; [|done..].
  destruct (extraction_data (extract_csv _ _ _)) as [f|].
  2:{ destruct ((transform_ventas _ _ _).1) as [t|] eqn:Ht; [|done].
      by vm_compute in Ht. }
  destruct ((transform_ventas _ _ _).1) as [t|] eqn:Ht; [|done].
  apply transform_ventas_fst_returns in Ht as (f' & -> & _).
  cbn [succes data rejected_data result_of py_not negb not_None_and_not_empty
       files dirs requests] in Hrun.
  destruct (load_to_csv _ _ _ _) as [? files1].
  exists (result_of pm f'), (df_output pm f'),
    (batches (records_of (df_output pm f')) 50).
  destruct (batches_spec (records_of (df_output pm f')) 50 ltac:(lia))
    as (Hcat & Hlen & _).
  destruct (decide (rows (df_output pm f') = [])) as [Hnil|Hrows].
  - assert (df_empty (df_output pm f') = true) as Hempty.
    { by rewrite df_empty_df_output, bool_decide_eq_true_2. }
    unfold load_to_supabase in Hrun. rewrite Hempty in Hrun.
    assert (records_of (df_output pm f') = []) as Hrec.
    { apply length_zero_iff_nil. rewrite length_records_of. unfold len.
      by rewrite Hnil. }
    rewrite Hrec in *.
    rewrite batches_nil_50 in *.
    pose proof (f_equal snd Hrun) as Hw. pose proof (f_equal fst Hrun) as Hr.
    cbn [fst snd] in Hw, Hr. subst w'.
    assert (∀ a b, Result a = Result b → a = b) as Hinj by (by intros ? ? [=]).
    apply Hinj in Hr. subst r.
    by cbn [transformation data requests result_of fmap list_fmap].
  - assert (df_empty (df_output pm f') = false) as Hne.
    { by rewrite df_empty_df_output, bool_decide_eq_false_2. }
    destruct (load_to_supabase_run (df_output pm f') "ventas" 50 false None
                (requests w ++ [Select "productos" []]) Hne Hclient ltac:(lia))
      as (ld & fl & Hload & _).
    rewrite Hload in Hrun. cbv beta iota in Hrun.
    pose proof (f_equal snd Hrun) as Hw. pose proof (f_equal fst Hrun) as Hr.
    cbn [fst snd] in Hw, Hr. subst w'.
    assert (∀ a b, Result a = Result b → a = b) as Hinj by (by intros ? ? [=]).
    apply Hinj in Hr. subst r.
    cbn [transformation data requests result_of batch_request].
    by rewrite <- (assoc_L (++)).
Qed.

(** The accepted frame is not an input of [transform_ventas]: it has
    the column [producto_id] in the place of [producto], so
    [transform_ventas] on it raises [KeyError] when it has rows, and
    [TypeError] when it has none. *)
Theorem transform_ventas_output_is_no_input df pm h res h' :
  transform_ventas df pm h = (Returns res, h') →
  ∃ out, data res = PFrame out ∧
    column_names out = columnas_finales ∧
    ∀ (pm2 : dict) h2 l2, h2 !! l2 = Some out →
      (transform_ventas (Some l2) pm2 h2).1
      = Raises (if df_empty out then TypeError else KeyError).
Proof.
  intros (l & f & -> & Hl & _ & _ & _ & ->)%transform_ventas_returned.
  exists (df_output pm f). split; [done|]. split; [done|].
  intros pm2 h2 l2 Hl2. destruct (df_empty (df_output pm f)) eqn:Hempty.
  - by apply (transform_ventas_empty_fst pm2 h2 l2 (df_output pm f)).
  - rewrite (transform_ventas_outcome_of h2 l2 (df_output pm f)) by done.
    unfold outcome_of. rewrite bool_decide_eq_false_2; [done|].
    intros Hfirst. unfold first_columns in Hfirst.
    apply Forall_cons in Hfirst as [_ Hfirst].
    apply Forall_cons in Hfirst as [_ Hfirst].
    apply Forall_cons in Hfirst as [_ Hfirst].
    apply Forall_cons in Hfirst as [Hprod _].
    change (column_names (df_output pm f)) with columnas_finales in Hprod.
    unfold columnas_finales in Hprod.
    repeat (apply elem_of_cons in Hprod as [Hprod|Hprod]; [done|]).
    by apply elem_of_nil in Hprod.
Qed.
End Composition.

Section CompositionExamples.
Local Existing Instance latin1_unicode.
Local Existing Instance int_numeric.
Local Existing Instance pandas_ns.

Lemma run_pipeline_requests_witness :
  ∃ r w' sent,
    pipeline_success r = true ∧
    requests w'
    = requests nothing_done
      ++ Select "productos" [] :: (Insert "ventas" <$> sent).
Proof.
  destruct read_only_run as (r & w' & Hrun & Hsucc & _).
  destruct (@run_pipeline_requests latin1_unicode int_numeric pandas_ns
              every_insert_raises (read_only_world batch)
              (py "ventas.csv") (py "salida") nothing_done r w' Hrun Hsucc)
    as (t & accepted & sent & _ & _ & Hreq & _).
  exists r, w', sent. exact (conj Hsucc Hreq).
Defined.

Lemma transform_ventas_output_is_no_input_witness :
  ∃ out, data (result_of catalogo batch) = PFrame out ∧
         column_names out = columnas_finales.
Proof.
  destruct (transform_ventas_output_is_no_input (Some 0%nat) catalogo [batch]
              (result_of catalogo batch) _ batch_run) as (out & Hdata & Hcols & _).
  exists out. exact (conj Hdata Hcols).
Defined.
End CompositionExamples.
